(** * hats-tap: the TAP server prototype ([src/tap_server/tap_server.py])

    A shallow embedding of the request handlers of the TAP server and of the
    helpers they call, with the properties of the query orchestrator and of
    the document serializer stated over it.

    Conventions of the embedding.
    - Python [str] is [string]; a character is a code point below 256, and
      the character classes of [re] and the case mappings of [str] are those
      of Python on that range. The one place where code points beyond 255
      behave differently -- the scan of the query text for a table name --
      is modelled on text of any code point ([Uni.text]), and the server
      model runs it on the code points of its strings.
    - A Python exception is a value of [Exn]; code that can raise returns in
      the monad [M], which also records the calls made to the collaborators
      (the ADQL parser, lsdb, the TAP_SCHEMA database, the XML
      pretty-printer) in order. Logging is not modelled.
    - The collaborators whose code is outside this module are records of
      functions: [TAPSchemaDatabase], [Lsdb], and the parser and the XML
      pretty-printer fields of [Env]. *)

From Stdlib Require Import String Ascii List NArith ZArith Bool Arith Lia
  Floats.
From Stdlib Require Import DecimalString.
Import ListNotations.

Local Open Scope string_scope.
Local Open Scope list_scope.

Set Implicit Arguments.

(* ================================================================= *)
(** ** Text: character classes and the [str] methods the server uses *)

Module Text.

Definition code (c : ascii) : nat := nat_of_ascii c.

Definition in_range (lo hi : nat) (c : ascii) : bool :=
  (lo <=? code c)%nat && (code c <=? hi)%nat.

Definition is_upper_az (c : ascii) : bool := in_range 65 90 c.
Definition is_lower_az (c : ascii) : bool := in_range 97 122 c.
Definition is_digit (c : ascii) : bool := in_range 48 57 c.
Definition is_underscore (c : ascii) : bool := (code c =? 95)%nat.

(** The ASCII letters and the underscore; with the digits, the ASCII
    part of [\w]. *)
Definition ident_start (c : ascii) : bool :=
  is_lower_az c || is_upper_az c || is_underscore c.
Definition ident_char (c : ascii) : bool := ident_start c || is_digit c.

(** [\w] of a [str] pattern: alphanumeric (in the sense of
    [str.isalnum]) or underscore. Below 256 the alphanumerics outside
    ASCII are 0xAA, 0xB2, 0xB3, 0xB5, 0xB9, 0xBA, 0xBC-0xBE, 0xC0-0xD6,
    0xD8-0xF6 and 0xF8-0xFF. *)
Definition is_word (c : ascii) : bool :=
  ident_char c
  || (code c =? 170)%nat || in_range 178 179 c || (code c =? 181)%nat
  || in_range 185 186 c || in_range 188 190 c
  || in_range 192 214 c || in_range 216 246 c || in_range 248 255 c.

(** [\s] of a [str] pattern. *)
Definition is_space (c : ascii) : bool :=
  in_range 9 13 c || in_range 28 32 c || (code c =? 133)%nat
  || (code c =? 160)%nat.

(** [str.lower], one character: A-Z, and 0xC0-0xDE except 0xD7. *)
Definition lower_char (c : ascii) : ascii :=
  if is_upper_az c || in_range 192 214 c || in_range 216 222 c
  then ascii_of_nat (code c + 32) else c.

Fixpoint map_string (f : ascii -> ascii) (s : string) : string :=
  match s with
  | EmptyString => EmptyString
  | String c s' => String (f c) (map_string f s')
  end.

Definition lower (s : string) : string := map_string lower_char s.

(** [s.startswith(p)]. *)
Fixpoint startswith (p s : string) : bool :=
  match p, s with
  | EmptyString, _ => true
  | String a p', String b s' => Ascii.eqb a b && startswith p' s'
  | String _ _, EmptyString => false
  end.

(** [needle in s]. *)
Fixpoint contains (needle s : string) : bool :=
  startswith needle s ||
  match s with
  | EmptyString => false
  | String _ s' => contains needle s'
  end.

(** [c in s] for a one-character [c]. *)
Fixpoint has_char (c : ascii) (s : string) : bool :=
  match s with
  | EmptyString => false
  | String a s' => Ascii.eqb a c || has_char c s'
  end.

(** [s.split(sep)] for a one-character separator: never empty. *)
Fixpoint split_on (sep : ascii) (s : string) : list string :=
  match s with
  | EmptyString => [EmptyString]
  | String c s' =>
      if Ascii.eqb c sep then EmptyString :: split_on sep s'
      else match split_on sep s' with
           | [] => [String c EmptyString]
           | w :: ws => String c w :: ws
           end
  end.

(** [sep.join(parts)]. *)
Fixpoint join (sep : string) (parts : list string) : string :=
  match parts with
  | [] => EmptyString
  | [p] => p
  | p :: ps => p ++ sep ++ join sep ps
  end.

(** [not s.strip()]: the string is empty or all whitespace. *)
Fixpoint is_blank (s : string) : bool :=
  match s with
  | EmptyString => true
  | String c s' => is_space c && is_blank s'
  end.

(** The first [n] characters of [s]. *)
Fixpoint take (n : nat) (s : string) : string :=
  match n, s with
  | S n', String c s' => String c (take n' s')
  | _, _ => EmptyString
  end.

Definition dot : ascii := "."%char.
Definition newline : string := String (ascii_of_nat 10) EmptyString.

(** [str(n)] for an [int]. *)
Definition str_of_Z (z : Z) : string := NilZero.string_of_int (Z.to_int z).

End Text.

(* ================================================================= *)
(** ** The fragment of [re] the server uses: a backtracking matcher *)

Module Re.

Import Text.

(** Patterns. Repetition is only ever applied to a character class in
    this module's patterns, and every quantifier is greedy. *)
Inductive regex : Type :=
| Boundary                                  (* \b *)
| Class (p : ascii -> bool)                 (* one character of a class *)
| Seq (r1 r2 : regex)
| Star (p : ascii -> bool)                  (* [p]*  *)
| Opt (r : regex)                           (* (?:r)? *)
| Group (r : regex).                        (* ( r ), group 1 *)

(** [p]+ *)
Definition Plus (p : ascii -> bool) : regex := Seq (Class p) (Star p).

(** A literal character under [re.IGNORECASE]. *)
Definition LitI (c : ascii) : regex :=
  Class (fun x => Ascii.eqb (lower_char x) (lower_char c)).

(** The matcher's position: the character before it (for [\b]), the
    text after it, its index, and what group 1 has captured. *)
Record state : Type := mkState {
  prev : option ascii;
  rest : string;
  pos : nat;
  group1 : option string
}.

Definition word_before (st : state) : bool :=
  match prev st with Some c => is_word c | None => false end.
Definition word_after (st : state) : bool :=
  match rest st with String c _ => is_word c | EmptyString => false end.

(** [\b] holds where exactly one side is a word character. *)
Definition at_boundary (st : state) : bool :=
  xorb (word_before st) (word_after st).

Definition advance (c : ascii) (s' : string) (st : state) : state :=
  mkState (Some c) s' (S (pos st)) (group1 st).

(** Greedy [p]*: take a character and go on; when the rest of the
    pattern (the continuation [k]) fails after that, give it back. *)
Fixpoint star {A : Type} (p : ascii -> bool) (s : string)
    (pr : option ascii) (n : nat) (g : option string)
    (k : state -> option A) : option A :=
  match s with
  | String c s' =>
      if p c then
        match star p s' (Some c) (S n) g k with
        | Some a => Some a
        | None => k (mkState pr s n g)
        end
      else k (mkState pr s n g)
  | EmptyString => k (mkState pr s n g)
  end.

(** Backtracking match of [r] at [st], then of the continuation [k]. *)
Fixpoint run {A : Type} (r : regex) (st : state)
    (k : state -> option A) : option A :=
  match r with
  | Boundary => if at_boundary st then k st else None
  | Class p =>
      match rest st with
      | String c s' => if p c then k (advance c s' st) else None
      | EmptyString => None
      end
  | Seq r1 r2 => run r1 st (fun st1 => run r2 st1 k)
  | Star p => star p (rest st) (prev st) (pos st) (group1 st) k
  | Opt r1 =>
      match run r1 st k with
      | Some a => Some a
      | None => k st
      end
  | Group r1 =>
      run r1 st (fun st1 =>
        k (mkState (prev st1) (rest st1) (pos st1)
             (Some (take (pos st1 - pos st) (rest st)))))
  end.

(** [re.search(r, s)] followed by [.group(1)]: the leftmost position at
    which [r] matches; [None] when there is no match. *)
Fixpoint search_from (r : regex) (pr : option ascii) (s : string) (n : nat)
    : option (option string) :=
  match run r (mkState pr s n None) (fun st => Some (group1 st)) with
  | Some g => Some g
  | None =>
      match s with
      | EmptyString => None
      | String c s' => search_from r (Some c) s' (S n)
      end
  end.

Definition search (r : regex) (s : string) : option (option string) :=
  search_from r None s 0.

(** [re.match(r, s)]: a match at position 0 only (no group wanted). *)
Definition matches_at_start (r : regex) (s : string) : bool :=
  match run r (mkState None s 0 None) (fun _ => Some tt) with
  | Some _ => true
  | None => false
  end.

Fixpoint seq_of (rs : list regex) (last : regex) : regex :=
  match rs with
  | [] => last
  | r :: rs' => Seq r (seq_of rs' last)
  end.

End Re.

Import Text.

(* ================================================================= *)
(** ** Text of any code point, and the classes of [re] on it *)

(** The scan of the query text for a table name uses [\s], [\b] and
    letter classes under [re.IGNORECASE]; on a [str] these reach beyond
    code point 255 (a FROM followed by U+2003 EM SPACE is followed by
    whitespace; the KELVIN SIGN U+212A is a letter of [[a-zA-Z_]]). The
    scan is therefore modelled on the code points themselves. *)
Module Uni.

Local Open Scope N_scope.

Definition text : Type := list N.

(** The code points of a string of the server model, and the string of
    code points below 256. *)
Definition of_string (s : string) : text :=
  map N_of_ascii (list_ascii_of_string s).
Definition to_string (t : text) : string :=
  string_of_list_ascii (map ascii_of_N t).

Definition in_ranges (rs : list (N * N)) (c : N) : bool :=
  existsb (fun r => (fst r <=? c) && (c <=? snd r)) rs.

(** [\s] of a [str] pattern: the code points for which [str.isspace]
    holds. *)
Definition space_ranges : list (N * N) :=
  [ (9, 13); (28, 32); (133, 133); (160, 160); (5760, 5760); (8192, 8202);
    (8232, 8233); (8239, 8239); (8287, 8287); (12288, 12288) ].
Definition is_space (c : N) : bool := in_ranges space_ranges c.

(** The code points for which [str.isalnum] holds, by the Unicode
    database of CPython 3.11 (Unicode 14.0). *)
Definition alnum_ranges : list (N * N) :=
  [
    (48, 57); (65, 90); (97, 122); (170, 170); (178, 179); (181, 181);
    (185, 186); (188, 190); (192, 214); (216, 246); (248, 705); (710, 721);
    (736, 740); (748, 748); (750, 750); (880, 884); (886, 887); (890, 893);
    (895, 895); (902, 902); (904, 906); (908, 908); (910, 929);
    (931, 1013); (1015, 1153); (1162, 1327); (1329, 1366); (1369, 1369);
    (1376, 1416); (1488, 1514); (1519, 1522); (1568, 1610); (1632, 1641);
    (1646, 1647); (1649, 1747); (1749, 1749); (1765, 1766); (1774, 1788);
    (1791, 1791); (1808, 1808); (1810, 1839); (1869, 1957); (1969, 1969);
    (1984, 2026); (2036, 2037); (2042, 2042); (2048, 2069); (2074, 2074);
    (2084, 2084); (2088, 2088); (2112, 2136); (2144, 2154); (2160, 2183);
    (2185, 2190); (2208, 2249); (2308, 2361); (2365, 2365); (2384, 2384);
    (2392, 2401); (2406, 2415); (2417, 2432); (2437, 2444); (2447, 2448);
    (2451, 2472); (2474, 2480); (2482, 2482); (2486, 2489); (2493, 2493);
    (2510, 2510); (2524, 2525); (2527, 2529); (2534, 2545); (2548, 2553);
    (2556, 2556); (2565, 2570); (2575, 2576); (2579, 2600); (2602, 2608);
    (2610, 2611); (2613, 2614); (2616, 2617); (2649, 2652); (2654, 2654);
    (2662, 2671); (2674, 2676); (2693, 2701); (2703, 2705); (2707, 2728);
    (2730, 2736); (2738, 2739); (2741, 2745); (2749, 2749); (2768, 2768);
    (2784, 2785); (2790, 2799); (2809, 2809); (2821, 2828); (2831, 2832);
    (2835, 2856); (2858, 2864); (2866, 2867); (2869, 2873); (2877, 2877);
    (2908, 2909); (2911, 2913); (2918, 2927); (2929, 2935); (2947, 2947);
    (2949, 2954); (2958, 2960); (2962, 2965); (2969, 2970); (2972, 2972);
    (2974, 2975); (2979, 2980); (2984, 2986); (2990, 3001); (3024, 3024);
    (3046, 3058); (3077, 3084); (3086, 3088); (3090, 3112); (3114, 3129);
    (3133, 3133); (3160, 3162); (3165, 3165); (3168, 3169); (3174, 3183);
    (3192, 3198); (3200, 3200); (3205, 3212); (3214, 3216); (3218, 3240);
    (3242, 3251); (3253, 3257); (3261, 3261); (3293, 3294); (3296, 3297);
    (3302, 3311); (3313, 3314); (3332, 3340); (3342, 3344); (3346, 3386);
    (3389, 3389); (3406, 3406); (3412, 3414); (3416, 3425); (3430, 3448);
    (3450, 3455); (3461, 3478); (3482, 3505); (3507, 3515); (3517, 3517);
    (3520, 3526); (3558, 3567); (3585, 3632); (3634, 3635); (3648, 3654);
    (3664, 3673); (3713, 3714); (3716, 3716); (3718, 3722); (3724, 3747);
    (3749, 3749); (3751, 3760); (3762, 3763); (3773, 3773); (3776, 3780);
    (3782, 3782); (3792, 3801); (3804, 3807); (3840, 3840); (3872, 3891);
    (3904, 3911); (3913, 3948); (3976, 3980); (4096, 4138); (4159, 4169);
    (4176, 4181); (4186, 4189); (4193, 4193); (4197, 4198); (4206, 4208);
    (4213, 4225); (4238, 4238); (4240, 4249); (4256, 4293); (4295, 4295);
    (4301, 4301); (4304, 4346); (4348, 4680); (4682, 4685); (4688, 4694);
    (4696, 4696); (4698, 4701); (4704, 4744); (4746, 4749); (4752, 4784);
    (4786, 4789); (4792, 4798); (4800, 4800); (4802, 4805); (4808, 4822);
    (4824, 4880); (4882, 4885); (4888, 4954); (4969, 4988); (4992, 5007);
    (5024, 5109); (5112, 5117); (5121, 5740); (5743, 5759); (5761, 5786);
    (5792, 5866); (5870, 5880); (5888, 5905); (5919, 5937); (5952, 5969);
    (5984, 5996); (5998, 6000); (6016, 6067); (6103, 6103); (6108, 6108);
    (6112, 6121); (6128, 6137); (6160, 6169); (6176, 6264); (6272, 6276);
    (6279, 6312); (6314, 6314); (6320, 6389); (6400, 6430); (6470, 6509);
    (6512, 6516); (6528, 6571); (6576, 6601); (6608, 6618); (6656, 6678);
    (6688, 6740); (6784, 6793); (6800, 6809); (6823, 6823); (6917, 6963);
    (6981, 6988); (6992, 7001); (7043, 7072); (7086, 7141); (7168, 7203);
    (7232, 7241); (7245, 7293); (7296, 7304); (7312, 7354); (7357, 7359);
    (7401, 7404); (7406, 7411); (7413, 7414); (7418, 7418); (7424, 7615);
    (7680, 7957); (7960, 7965); (7968, 8005); (8008, 8013); (8016, 8023);
    (8025, 8025); (8027, 8027); (8029, 8029); (8031, 8061); (8064, 8116);
    (8118, 8124); (8126, 8126); (8130, 8132); (8134, 8140); (8144, 8147);
    (8150, 8155); (8160, 8172); (8178, 8180); (8182, 8188); (8304, 8305);
    (8308, 8313); (8319, 8329); (8336, 8348); (8450, 8450); (8455, 8455);
    (8458, 8467); (8469, 8469); (8473, 8477); (8484, 8484); (8486, 8486);
    (8488, 8488); (8490, 8493); (8495, 8505); (8508, 8511); (8517, 8521);
    (8526, 8526); (8528, 8585); (9312, 9371); (9450, 9471); (10102, 10131);
    (11264, 11492); (11499, 11502); (11506, 11507); (11517, 11517);
    (11520, 11557); (11559, 11559); (11565, 11565); (11568, 11623);
    (11631, 11631); (11648, 11670); (11680, 11686); (11688, 11694);
    (11696, 11702); (11704, 11710); (11712, 11718); (11720, 11726);
    (11728, 11734); (11736, 11742); (11823, 11823); (12293, 12295);
    (12321, 12329); (12337, 12341); (12344, 12348); (12353, 12438);
    (12445, 12447); (12449, 12538); (12540, 12543); (12549, 12591);
    (12593, 12686); (12690, 12693); (12704, 12735); (12784, 12799);
    (12832, 12841); (12872, 12879); (12881, 12895); (12928, 12937);
    (12977, 12991); (13312, 19903); (19968, 42124); (42192, 42237);
    (42240, 42508); (42512, 42539); (42560, 42606); (42623, 42653);
    (42656, 42735); (42775, 42783); (42786, 42888); (42891, 42954);
    (42960, 42961); (42963, 42963); (42965, 42969); (42994, 43009);
    (43011, 43013); (43015, 43018); (43020, 43042); (43056, 43061);
    (43072, 43123); (43138, 43187); (43216, 43225); (43250, 43255);
    (43259, 43259); (43261, 43262); (43264, 43301); (43312, 43334);
    (43360, 43388); (43396, 43442); (43471, 43481); (43488, 43492);
    (43494, 43518); (43520, 43560); (43584, 43586); (43588, 43595);
    (43600, 43609); (43616, 43638); (43642, 43642); (43646, 43695);
    (43697, 43697); (43701, 43702); (43705, 43709); (43712, 43712);
    (43714, 43714); (43739, 43741); (43744, 43754); (43762, 43764);
    (43777, 43782); (43785, 43790); (43793, 43798); (43808, 43814);
    (43816, 43822); (43824, 43866); (43868, 43881); (43888, 44002);
    (44016, 44025); (44032, 55203); (55216, 55238); (55243, 55291);
    (63744, 64109); (64112, 64217); (64256, 64262); (64275, 64279);
    (64285, 64285); (64287, 64296); (64298, 64310); (64312, 64316);
    (64318, 64318); (64320, 64321); (64323, 64324); (64326, 64433);
    (64467, 64829); (64848, 64911); (64914, 64967); (65008, 65019);
    (65136, 65140); (65142, 65276); (65296, 65305); (65313, 65338);
    (65345, 65370); (65382, 65470); (65474, 65479); (65482, 65487);
    (65490, 65495); (65498, 65500); (65536, 65547); (65549, 65574);
    (65576, 65594); (65596, 65597); (65599, 65613); (65616, 65629);
    (65664, 65786); (65799, 65843); (65856, 65912); (65930, 65931);
    (66176, 66204); (66208, 66256); (66273, 66299); (66304, 66339);
    (66349, 66378); (66384, 66421); (66432, 66461); (66464, 66499);
    (66504, 66511); (66513, 66517); (66560, 66717); (66720, 66729);
    (66736, 66771); (66776, 66811); (66816, 66855); (66864, 66915);
    (66928, 66938); (66940, 66954); (66956, 66962); (66964, 66965);
    (66967, 66977); (66979, 66993); (66995, 67001); (67003, 67004);
    (67072, 67382); (67392, 67413); (67424, 67431); (67456, 67461);
    (67463, 67504); (67506, 67514); (67584, 67589); (67592, 67592);
    (67594, 67637); (67639, 67640); (67644, 67644); (67647, 67669);
    (67672, 67702); (67705, 67742); (67751, 67759); (67808, 67826);
    (67828, 67829); (67835, 67867); (67872, 67897); (67968, 68023);
    (68028, 68047); (68050, 68096); (68112, 68115); (68117, 68119);
    (68121, 68149); (68160, 68168); (68192, 68222); (68224, 68255);
    (68288, 68295); (68297, 68324); (68331, 68335); (68352, 68405);
    (68416, 68437); (68440, 68466); (68472, 68497); (68521, 68527);
    (68608, 68680); (68736, 68786); (68800, 68850); (68858, 68899);
    (68912, 68921); (69216, 69246); (69248, 69289); (69296, 69297);
    (69376, 69415); (69424, 69445); (69457, 69460); (69488, 69505);
    (69552, 69579); (69600, 69622); (69635, 69687); (69714, 69743);
    (69745, 69746); (69749, 69749); (69763, 69807); (69840, 69864);
    (69872, 69881); (69891, 69926); (69942, 69951); (69956, 69956);
    (69959, 69959); (69968, 70002); (70006, 70006); (70019, 70066);
    (70081, 70084); (70096, 70106); (70108, 70108); (70113, 70132);
    (70144, 70161); (70163, 70187); (70272, 70278); (70280, 70280);
    (70282, 70285); (70287, 70301); (70303, 70312); (70320, 70366);
    (70384, 70393); (70405, 70412); (70415, 70416); (70419, 70440);
    (70442, 70448); (70450, 70451); (70453, 70457); (70461, 70461);
    (70480, 70480); (70493, 70497); (70656, 70708); (70727, 70730);
    (70736, 70745); (70751, 70753); (70784, 70831); (70852, 70853);
    (70855, 70855); (70864, 70873); (71040, 71086); (71128, 71131);
    (71168, 71215); (71236, 71236); (71248, 71257); (71296, 71338);
    (71352, 71352); (71360, 71369); (71424, 71450); (71472, 71483);
    (71488, 71494); (71680, 71723); (71840, 71922); (71935, 71942);
    (71945, 71945); (71948, 71955); (71957, 71958); (71960, 71983);
    (71999, 71999); (72001, 72001); (72016, 72025); (72096, 72103);
    (72106, 72144); (72161, 72161); (72163, 72163); (72192, 72192);
    (72203, 72242); (72250, 72250); (72272, 72272); (72284, 72329);
    (72349, 72349); (72368, 72440); (72704, 72712); (72714, 72750);
    (72768, 72768); (72784, 72812); (72818, 72847); (72960, 72966);
    (72968, 72969); (72971, 73008); (73030, 73030); (73040, 73049);
    (73056, 73061); (73063, 73064); (73066, 73097); (73112, 73112);
    (73120, 73129); (73440, 73458); (73648, 73648); (73664, 73684);
    (73728, 74649); (74752, 74862); (74880, 75075); (77712, 77808);
    (77824, 78894); (82944, 83526); (92160, 92728); (92736, 92766);
    (92768, 92777); (92784, 92862); (92864, 92873); (92880, 92909);
    (92928, 92975); (92992, 92995); (93008, 93017); (93019, 93025);
    (93027, 93047); (93053, 93071); (93760, 93846); (93952, 94026);
    (94032, 94032); (94099, 94111); (94176, 94177); (94179, 94179);
    (94208, 100343); (100352, 101589); (101632, 101640); (110576, 110579);
    (110581, 110587); (110589, 110590); (110592, 110882); (110928, 110930);
    (110948, 110951); (110960, 111355); (113664, 113770); (113776, 113788);
    (113792, 113800); (113808, 113817); (119520, 119539); (119648, 119672);
    (119808, 119892); (119894, 119964); (119966, 119967); (119970, 119970);
    (119973, 119974); (119977, 119980); (119982, 119993); (119995, 119995);
    (119997, 120003); (120005, 120069); (120071, 120074); (120077, 120084);
    (120086, 120092); (120094, 120121); (120123, 120126); (120128, 120132);
    (120134, 120134); (120138, 120144); (120146, 120485); (120488, 120512);
    (120514, 120538); (120540, 120570); (120572, 120596); (120598, 120628);
    (120630, 120654); (120656, 120686); (120688, 120712); (120714, 120744);
    (120746, 120770); (120772, 120779); (120782, 120831); (122624, 122654);
    (123136, 123180); (123191, 123197); (123200, 123209); (123214, 123214);
    (123536, 123565); (123584, 123627); (123632, 123641); (124896, 124902);
    (124904, 124907); (124909, 124910); (124912, 124926); (124928, 125124);
    (125127, 125135); (125184, 125251); (125259, 125259); (125264, 125273);
    (126065, 126123); (126125, 126127); (126129, 126132); (126209, 126253);
    (126255, 126269); (126464, 126467); (126469, 126495); (126497, 126498);
    (126500, 126500); (126503, 126503); (126505, 126514); (126516, 126519);
    (126521, 126521); (126523, 126523); (126530, 126530); (126535, 126535);
    (126537, 126537); (126539, 126539); (126541, 126543); (126545, 126546);
    (126548, 126548); (126551, 126551); (126553, 126553); (126555, 126555);
    (126557, 126557); (126559, 126559); (126561, 126562); (126564, 126564);
    (126567, 126570); (126572, 126578); (126580, 126583); (126585, 126588);
    (126590, 126590); (126592, 126601); (126603, 126619); (126625, 126627);
    (126629, 126633); (126635, 126651); (127232, 127244); (130032, 130041);
    (131072, 173791); (173824, 177976); (177984, 178205); (178208, 183969);
    (183984, 191456); (194560, 195101); (196608, 201546)
  ].

(** [\w] of a [str] pattern: alphanumeric or underscore. *)
Definition is_word (c : N) : bool := in_ranges alnum_ranges c || (c =? 95).

(** [[a-zA-Z_]] and [[a-zA-Z0-9_]] under [re.IGNORECASE]: the ASCII
    characters, and the four code points whose case mapping is an
    ASCII letter -- U+0130 and U+0131 (dotted capital and dotless
    small i), U+017F (long s) and U+212A (Kelvin sign). *)
Definition ident_start_ranges : list (N * N) :=
  [ (65, 90); (95, 95); (97, 122); (304, 305); (383, 383); (8490, 8490) ].
Definition ident_char_ranges : list (N * N) :=
  (48, 57) :: ident_start_ranges.
Definition ident_start (c : N) : bool := in_ranges ident_start_ranges c.
Definition ident_char (c : N) : bool := in_ranges ident_char_ranges c.

(** A literal F, R, O or M under [re.IGNORECASE], given by the code
    point of the capital: the letter in either case. No other code
    point has a case mapping to one of these four letters. *)
Definition letter_i (capital c : N) : bool :=
  (c =? capital) || (c =? capital + 32).

Definition dot : N := 46.

(** [str.upper], one character, on the characters of
    [[a-zA-Z0-9_]] under [re.IGNORECASE] (the text the server
    upper-cases is made of these): a-z, and U+0131 and U+017F, whose
    capitals are I and S; U+0130 and U+212A are capitals already. *)
Definition upper_char (c : N) : N :=
  if in_ranges [(97, 122)] c then c - 32
  else if c =? 305 then 73
  else if c =? 383 then 83
  else c.
Definition upper (t : text) : text := map upper_char t.

Fixpoint eqb (a b : text) : bool :=
  match a, b with
  | [], [] => true
  | x :: a', y :: b' => (x =? y) && eqb a' b'
  | _, _ => false
  end.

(** [t.split(sep)] for a one-character separator: never empty. *)
Fixpoint split_on (sep : N) (t : text) : list text :=
  match t with
  | [] => [[]]
  | c :: t' =>
      if c =? sep then [] :: split_on sep t'
      else match split_on sep t' with
           | [] => [[c]]
           | w :: ws => (c :: w) :: ws
           end
  end.

End Uni.

(* ================================================================= *)
(** ** The matcher on text of any code point *)

(** The matcher of [Re], on code points. *)
Module URe.

Inductive regex : Type :=
| Boundary                                  (* \b *)
| Class (p : N -> bool)                     (* one character of a class *)
| Seq (r1 r2 : regex)
| Star (p : N -> bool)                      (* [p]*  *)
| Opt (r : regex)                           (* (?:r)? *)
| Group (r : regex).                        (* ( r ), group 1 *)

(** [p]+ *)
Definition Plus (p : N -> bool) : regex := Seq (Class p) (Star p).

Record state : Type := mkState {
  prev : option N;
  rest : Uni.text;
  pos : nat;
  group1 : option Uni.text
}.

Definition word_before (st : state) : bool :=
  match prev st with Some c => Uni.is_word c | None => false end.
Definition word_after (st : state) : bool :=
  match rest st with c :: _ => Uni.is_word c | [] => false end.

Definition at_boundary (st : state) : bool :=
  xorb (word_before st) (word_after st).

Definition advance (c : N) (s' : Uni.text) (st : state) : state :=
  mkState (Some c) s' (S (pos st)) (group1 st).

Fixpoint star {A : Type} (p : N -> bool) (s : Uni.text)
    (pr : option N) (n : nat) (g : option Uni.text)
    (k : state -> option A) : option A :=
  match s with
  | c :: s' =>
      if p c then
        match star p s' (Some c) (S n) g k with
        | Some a => Some a
        | None => k (mkState pr s n g)
        end
      else k (mkState pr s n g)
  | [] => k (mkState pr s n g)
  end.

Fixpoint run {A : Type} (r : regex) (st : state)
    (k : state -> option A) : option A :=
  match r with
  | Boundary => if at_boundary st then k st else None
  | Class p =>
      match rest st with
      | c :: s' => if p c then k (advance c s' st) else None
      | [] => None
      end
  | Seq r1 r2 => run r1 st (fun st1 => run r2 st1 k)
  | Star p => star p (rest st) (prev st) (pos st) (group1 st) k
  | Opt r1 =>
      match run r1 st k with
      | Some a => Some a
      | None => k st
      end
  | Group r1 =>
      run r1 st (fun st1 =>
        k (mkState (prev st1) (rest st1) (pos st1)
             (Some (firstn (pos st1 - pos st) (rest st)))))
  end.

(** [re.search(r, s)] followed by [.group(1)]. *)
Fixpoint search_from (r : regex) (pr : option N) (s : Uni.text) (n : nat)
    : option (option Uni.text) :=
  match run r (mkState pr s n None) (fun st => Some (group1 st)) with
  | Some g => Some g
  | None =>
      match s with
      | [] => None
      | c :: s' => search_from r (Some c) s' (S n)
      end
  end.

Definition search (r : regex) (s : Uni.text) : option (option Uni.text) :=
  search_from r None s 0.

Fixpoint seq_of (rs : list regex) (last : regex) : regex :=
  match rs with
  | [] => last
  | r :: rs' => Seq r (seq_of rs' last)
  end.

End URe.

(** The pattern of [sync_query], compiled with [re.IGNORECASE]: a word
    boundary, the letters F, R, O, M, one or more whitespace characters,
    then group 1 -- an identifier (a letter or underscore followed by
    letters, digits and underscores), optionally followed by a dot and a
    second identifier -- and a word boundary. *)
Definition identifier_re : URe.regex :=
  URe.Seq (URe.Class Uni.ident_start) (URe.Star Uni.ident_char).

Definition from_table_re : URe.regex :=
  URe.seq_of
    [ URe.Boundary;
      URe.Class (Uni.letter_i 70); URe.Class (Uni.letter_i 82);
      URe.Class (Uni.letter_i 79); URe.Class (Uni.letter_i 77);
      URe.Plus Uni.is_space;
      URe.Group
        (URe.Seq identifier_re
           (URe.Opt (URe.Seq (URe.Class (N.eqb Uni.dot)) identifier_re))) ]
    URe.Boundary.

(* ================================================================= *)
(** ** Python values, dictionaries, exceptions *)

(** A cell of a result row or of a metadata row. [VObj] is any other
    object (a float, a numpy scalar, bytes), carried with what the
    server observes of it: its truth value and the text [str()] gives. *)
Inductive Value : Type :=
| VNone
| VStr (s : string)
| VInt (z : Z)
| VObj (truthy : bool) (shown : string).

(** [str(v)]. *)
Definition py_str (v : Value) : string :=
  match v with
  | VNone => "None"
  | VStr s => s
  | VInt z => str_of_Z z
  | VObj _ shown => shown
  end.

(** [bool(v)], as [if v:] tests it. *)
Definition truthy (v : Value) : bool :=
  match v with
  | VNone => false
  | VStr s => negb (String.eqb s "")
  | VInt z => negb (Z.eqb z 0)
  | VObj b _ => b
  end.

(** [v == s] for a [str] [s]: only a [str] equals a [str]. *)
Definition is_str (s : string) (v : Value) : bool :=
  match v with
  | VStr s' => String.eqb s' s
  | _ => false
  end.

(** A number of the descriptor: an [int] or a [float] (binary64). *)
Inductive PyNum : Type :=
| PInt (z : Z)
| PFloat (f : float).

(** [x * 3600], the right operand being the [int] literal. *)
Definition times_3600 (x : PyNum) : PyNum :=
  match x with
  | PInt z => PInt (z * 3600)
  | PFloat f => PFloat (f * 3600)%float
  end.

(** A [dict] with [str] keys, in insertion order. *)
Definition Dict (V : Type) : Type := list (string * V).

Fixpoint dict_find {V : Type} (k : string) (d : Dict V) : option V :=
  match d with
  | [] => None
  | (k', v) :: d' => if String.eqb k' k then Some v else dict_find k d'
  end.

(** [d.get(k, default)]. *)
Definition dict_get {V : Type} (k : string) (default : V) (d : Dict V) : V :=
  match dict_find k d with
  | Some v => v
  | None => default
  end.

(** [d[k] = v]: an existing key keeps its place. *)
Fixpoint dict_set {V : Type} (k : string) (v : V) (d : Dict V) : Dict V :=
  match d with
  | [] => [(k, v)]
  | (k', v') :: d' =>
      if String.eqb k' k then (k, v) :: d' else (k', v') :: dict_set k v d'
  end.

(** A row: a mapping from column name to value. *)
Definition Row : Type := Dict Value.

(** An exception: its class, and [str(e)]. *)
Record Exn : Type := mkExn { exn_class : string; exn_str : string }.

Inductive Exc (A : Type) : Type :=
| Ok (a : A)
| Raise (e : Exn).
Arguments Ok {A} a.
Arguments Raise {A} e.

Definition KeyError (key : string) : Exn :=
  mkExn "KeyError" ("'" ++ key ++ "'").
Definition AssertionError : Exn := mkExn "AssertionError" "".

(* ================================================================= *)
(** ** The collaborators *)

(** What the ADQL parser returns ([parse_adql_entities]). *)
Inductive Spatial : Type :=
| ConeSearchD (ra dec radius : PyNum)
| PolygonSearchD (coordinates : list (PyNum * PyNum))
| OtherSearchD (type : string).

(** [spatial["type"]]. *)
Definition spatial_type (s : Spatial) : string :=
  match s with
  | ConeSearchD _ _ _ => "ConeSearch"
  | PolygonSearchD _ => "PolygonSearch"
  | OtherSearchD t => t
  end.

Definition Condition : Type := (string * string * Value)%type.

Record Entities : Type := mkEntities {
  ent_tables : list string;
  ent_columns : list string;
  ent_conditions : list Condition;
  ent_spatial_search : option Spatial;
  ent_limits : Z;
  ent_order_by : list (string * bool)
}.

(** [lsdb.ConeSearch(ra=, dec=, radius_arcsec=)]: the keyword arguments
    it is built from. *)
Record ConeSearch : Type := mkConeSearch {
  cs_ra : PyNum;
  cs_dec : PyNum;
  cs_radius_arcsec : PyNum
}.

(** A pandas DataFrame, as [dataframe_to_votable_data] reads it:
    [df.columns.tolist()] and [df.to_dict("records")]. *)
Record DataFrame : Type := mkDataFrame {
  df_columns : list string;
  df_records : list Row
}.

(** An opened catalog: [cat.head(n)]. *)
Record Catalog : Type := mkCatalog { head : Z -> Exc DataFrame }.

(** [lsdb.open_catalog(url, columns=, search_filter=, filters=)]. *)
Record Lsdb : Type := mkLsdb {
  open_catalog :
    string -> list string -> option ConeSearch -> list Condition ->
    Exc Catalog
}.

(** The TAP_SCHEMA database object ([tap_schema_db.py], outside this
    module): the three methods the server calls. *)
Record TAPSchemaDatabase : Type := mkDb {
  connect : Exc unit;
  query : string -> list Value -> Exc (list Row);
  query_with_columns : string -> Exc (list Row * list string)
}.

(** An element tree ([xml.etree.ElementTree.Element]). An attribute
    value and a text are whatever the code stored there; [VNone] as a
    text is an element without text. *)
#[warnings="-register-all"]
Inductive Element : Type :=
| Elem (tag : string) (attrib : Dict Value) (text : Value)
       (children : list Element).

Definition tag_of (e : Element) : string :=
  match e with Elem t _ _ _ => t end.
Definition attrib_of (e : Element) : Dict Value :=
  match e with Elem _ a _ _ => a end.
Definition text_of (e : Element) : Value :=
  match e with Elem _ _ x _ => x end.
Definition children_of (e : Element) : list Element :=
  match e with Elem _ _ _ cs => cs end.

(** Everything outside the module that a request depends on.
    [toprettyxml e] is
    [minidom.parseString(ET.tostring(e, encoding="unicode",
    method="xml")).toprettyxml(indent="  ", encoding=None)], which
    raises on a tree it cannot serialize or parse back;
    [utcnow_isoformat] is
    [datetime.datetime.now(datetime.UTC).isoformat()]. *)
Record Env : Type := mkEnv {
  parse_adql_entities : string -> Exc Entities;
  lsdb : Lsdb;
  tap_schema_db : TAPSchemaDatabase;
  toprettyxml : Element -> Exc string;
  utcnow_isoformat : string
}.

(* ================================================================= *)
(** ** Effects: the calls made to the collaborators, and exceptions *)

Inductive Event : Type :=
| EvParse (query_text : string)
| EvOpenCatalog (url : string) (columns : list string)
    (search_filter : option ConeSearch) (filters : list Condition)
| EvHead (n : Z)
| EvConnect
| EvQuery (sql : string) (params : list Value)
| EvQueryWithColumns (sql : string)
| EvPretty (e : Element).

(** A computation: the calls it made, and its outcome. *)
Definition M (A : Type) : Type := (list Event * Exc A)%type.

Definition ret {A : Type} (a : A) : M A := ([], Ok a).

Definition raise {A : Type} (e : Exn) : M A := ([], Raise e).

Definition bind {A B : Type} (m : M A) (f : A -> M B) : M B :=
  match m with
  | (t, Ok a) => let (t', r) := f a in (t ++ t', r)
  | (t, Raise e) => (t, Raise e)
  end.

(** [try: m  except Exception as e: h e]. *)
Definition try_except {A : Type} (m : M A) (h : Exn -> M A) : M A :=
  match m with
  | (t, Ok a) => (t, Ok a)
  | (t, Raise e) => let (t', r) := h e in (t ++ t', r)
  end.

(** A call to a collaborator: recorded, then its outcome. *)
Definition call {A : Type} (ev : Event) (r : Exc A) : M A := ([ev], r).

Definition trace {A : Type} (m : M A) : list Event := fst m.
Definition outcome {A : Type} (m : M A) : Exc A := snd m.

Declare Scope py_scope.
Delimit Scope py_scope with py.
Notation "x <- m ;; k" := (bind m (fun x => k))
  (at level 61, m at next level, right associativity) : py_scope.
Notation "m ;;; k" := (bind m (fun _ => k))
  (at level 61, right associativity) : py_scope.
Local Open Scope py_scope.

Definition lift {A : Type} (r : Exc A) : M A := ([], r).

(** A loop that builds one result per item, in order, and stops at the
    first exception. *)
Fixpoint for_each {A B : Type} (f : A -> M B) (xs : list A) : M (list B) :=
  match xs with
  | [] => ret []
  | x :: xs' => y <- f x ;; ys <- for_each f xs' ;; ret (y :: ys)
  end.

(* ================================================================= *)
(** ** Classification and the metadata store helpers *)

Definition is_tap_schema_query (query_str : string) : bool :=
  if String.eqb query_str "" then false
  else contains "tap_schema." (lower query_str).

Definition query_tap_schema (db : TAPSchemaDatabase) (query_str : string)
    : M (list Row * list string) :=
  try_except
    (call (EvQueryWithColumns query_str) (query_with_columns db query_str))
    (fun _ => ret ([], [])).

(** The dictionary [get_column_metadata] returns: the assignments
    [metadata[col_name] = {...}] in the order they were made. Reading
    it at a key finds the latest assignment to that key. *)
Definition Metadata : Type := list (Value * Dict Value).

(** [column_metadata[col]] for a [str] [col], when [col in
    column_metadata]. *)
Fixpoint metadata_find (col : string) (md : Metadata)
    : option (Dict Value) :=
  match md with
  | [] => None
  | (k, meta) :: md' =>
      match metadata_find col md' with
      | Some later => Some later
      | None => if is_str col k then Some meta else None
      end
  end.

Definition column_meta_of_row (row : Row) : Dict Value :=
  [ ("datatype", dict_get "datatype" (VStr "char") row);
    ("unit", dict_get "unit" (VStr "") row);
    ("ucd", dict_get "ucd" (VStr "") row);
    ("description", dict_get "description" (VStr "") row) ].

(** The loop [for row in results] of [get_column_metadata]. *)
Fixpoint build_metadata (results : list Row) (metadata : Metadata)
    : Exc Metadata :=
  match results with
  | [] => Ok metadata
  | row :: results' =>
      match dict_find "column_name" row with
      | None => Raise (KeyError "column_name")
      | Some col_name =>
          build_metadata results'
            (metadata ++ [(col_name, column_meta_of_row row)])
      end
  end.

Definition columns_query : string :=
  "SELECT column_name, datatype, unit, ucd, description FROM columns WHERE table_name = ?".

Definition is_nil {A : Type} (l : list A) : bool :=
  match l with [] => true | _ => false end.

Definition get_column_metadata (db : TAPSchemaDatabase)
    (table_name : string) : M Metadata :=
  if String.eqb table_name "" then ret []
  else
    try_except
      (call EvConnect (connect db) ;;;
       results <- call (EvQuery columns_query [VStr table_name])
                    (query db columns_query [VStr table_name]) ;;
       results <-
         (if is_nil results && negb (has_char dot table_name)
          then call (EvQuery columns_query [VStr ("public." ++ table_name)])
                 (query db columns_query [VStr ("public." ++ table_name)])
          else ret results) ;;
       lift (build_metadata results []))
      (fun _ => ret []).

(* ================================================================= *)
(** ** The document serializer *)

Definition dquote : string := String (ascii_of_nat 34) EmptyString.

Definition xml_declaration : string :=
  "<?xml version=" ++ dquote ++ "1.0" ++ dquote ++ " encoding=" ++ dquote
  ++ "UTF-8" ++ dquote ++ "?>" ++ newline.

(** [while lines and not lines[-1].strip(): lines.pop()]. *)
Fixpoint drop_trailing_blank (lines : list string) : list string :=
  match lines with
  | [] => []
  | l :: lines' =>
      match drop_trailing_blank lines' with
      | [] => if is_blank l then [] else [l]
      | kept => l :: kept
      end
  end.

(** What [format_xml_with_indentation] does with the pretty-printed
    text: drop minidom's declaration line and the blank lines at the
    end, and put its own declaration first. *)
Definition with_declaration (pretty_xml : string) : string :=
  let lines := split_on (ascii_of_nat 10) pretty_xml in
  let lines :=
    match lines with
    | first :: others => if startswith "<?xml" first then others else lines
    | [] => lines
    end in
  let lines := drop_trailing_blank lines in
  (xml_declaration ++ join newline lines)%string.

Definition format_xml_with_indentation (env : Env) (element : Element)
    : M string :=
  pretty_xml <- call (EvPretty element) (toprettyxml env element) ;;
  ret (with_declaration pretty_xml).

Definition SubElement (tag : string) (attrib : Dict Value) : Element :=
  Elem tag attrib VNone [].

Definition INFO (name value : string) : Element :=
  SubElement "INFO" [("name", VStr name); ("value", VStr value)].

Definition mem_str (s : string) (l : list string) : bool :=
  existsb (String.eqb s) l.

(** The attributes of the FIELD element of one column. *)
Definition field_attrs (column_metadata : Metadata) (col : string)
    : Dict Value :=
  let field_attrs :=
    [ ("name", VStr col); ("datatype", VStr "double"); ("unit", VStr "") ] in
  match (if is_nil column_metadata then None
         else metadata_find col column_metadata) with
  | Some meta =>
      let field_attrs :=
        if truthy (dict_get "datatype" VNone meta)
        then dict_set "datatype" (dict_get "datatype" VNone meta) field_attrs
        else field_attrs in
      let field_attrs :=
        if truthy (dict_get "unit" VNone meta)
        then dict_set "unit" (dict_get "unit" VNone meta) field_attrs
        else field_attrs in
      if truthy (dict_get "ucd" VNone meta)
      then dict_set "ucd" (dict_get "ucd" VNone meta) field_attrs
      else field_attrs
  | None =>
      if mem_str (lower col) ["ra"; "ra_deg"] then
        dict_set "ucd" (VStr "pos.eq.ra;meta.main")
          (dict_set "unit" (VStr "deg") field_attrs)
      else if mem_str (lower col) ["dec"; "dec_deg"] then
        dict_set "ucd" (VStr "pos.eq.dec;meta.main")
          (dict_set "unit" (VStr "deg") field_attrs)
      else if mem_str (lower col) ["mag"; "magnitude"] then
        dict_set "ucd" (VStr "phot.mag")
          (dict_set "unit" (VStr "mag") field_attrs)
      else field_attrs
  end.

(** [td.text]: [str(value) if value is not None else ""], for
    [value = row_data.get(col, "")]. *)
Definition cell_text (row_data : Row) (col : string) : string :=
  match dict_get col (VStr "") row_data with
  | VNone => ""
  | value => py_str value
  end.

Definition table_row (columns : list string) (row_data : Row) : Element :=
  Elem "TR" [] VNone
    (map (fun col => Elem "TD" [] (VStr (cell_text row_data col)) [])
       columns).

(** The tree [create_votable_response] builds before it is formatted. *)
Definition votable_tree (now : string) (data : list Row)
    (columns : list string) (query_info : Dict string)
    (column_metadata : Metadata) : Element :=
  Elem "VOTABLE"
    [ ("version", VStr "1.4");
      ("xmlns", VStr "http://www.ivoa.net/xml/VOTable/v1.4");
      ("xmlns:xsi", VStr "http://www.w3.org/2001/XMLSchema-instance") ]
    VNone
    [ Elem "RESOURCE" [("type", VStr "results")] VNone
        [ INFO "QUERY_STATUS" "OK";
          INFO "QUERY" (dict_get "query" "" query_info);
          INFO "TIMESTAMP" now;
          Elem "TABLE"
            [("name", VStr (dict_get "table" "results" query_info))] VNone
            (map (fun col =>
                    SubElement "FIELD" (field_attrs column_metadata col))
               columns
             ++ [ Elem "DATA" [] VNone
                    [ Elem "TABLEDATA" [] VNone
                        (map (table_row columns) data) ] ]) ] ].

Definition create_votable_response (env : Env) (data : list Row)
    (columns : list string) (query_info : Dict string)
    (column_metadata : Metadata) : M string :=
  format_xml_with_indentation env
    (votable_tree (utcnow_isoformat env) data columns query_info
       column_metadata).

(** The tree [create_error_votable] builds before it is formatted. *)
Definition error_tree (error_message query_text : string) : Element :=
  Elem "VOTABLE"
    [ ("version", VStr "1.4");
      ("xmlns", VStr "http://www.ivoa.net/xml/VOTable/v1.4") ]
    VNone
    [ Elem "RESOURCE" [("type", VStr "results")] VNone
        ([ INFO "QUERY_STATUS" "ERROR";
           INFO "ERROR" error_message ]
         ++ (if String.eqb query_text "" then []
             else [ INFO "QUERY" query_text ])) ].

Definition create_error_votable (env : Env) (error_message : string)
    (query_text : string) : M string :=
  format_xml_with_indentation env (error_tree error_message query_text).

Definition dataframe_to_votable_data (df : DataFrame)
    : list Row * list string :=
  (df_records df, df_columns df).

(* ================================================================= *)
(** ** The [/sync] endpoint *)

(** A Flask [Response]: body, mimetype, status code (200 unless
    given). *)
Record Response : Type := mkResponse {
  body : string;
  mimetype : string;
  status : Z
}.

(** The LANG pattern of [sync_query], compiled with [re.IGNORECASE] and
    used with [re.match]: the letters a, d, q, l, then optionally a
    hyphen, digits, an opening parenthesis, a dot, digits and an
    optional closing parenthesis. *)
Definition lang_re : Re.regex :=
  Re.seq_of
    [ Re.LitI "a"%char; Re.LitI "d"%char; Re.LitI "q"%char ]
    (Re.Seq (Re.LitI "l"%char)
       (Re.Opt
          (Re.seq_of
             [ Re.Class (Ascii.eqb "-"%char); Re.Plus is_digit;
               Re.Class (Ascii.eqb "("%char); Re.Class (Ascii.eqb dot);
               Re.Plus is_digit ]
             (Re.Opt (Re.Class (Ascii.eqb ")"%char)))))).

Definition sql_keywords : list string :=
  [ "WHERE"; "SELECT"; "ORDER"; "GROUP"; "HAVING"; "LIMIT"; "OFFSET";
    "UNION"; "INTERSECT"; "EXCEPT"; "JOIN"; "INNER"; "LEFT"; "RIGHT";
    "OUTER"; "CROSS"; "ON"; "AS"; "AND"; "OR"; "NOT"; "IN"; "EXISTS";
    "BETWEEN"; "LIKE"; "IS"; "NULL"; "DISTINCT"; "ALL"; "ANY"; "SOME" ].

(** The statements of [sync_query] from [table_name = "results"] to
    [table_name = candidate], on the code points of the query text. *)
Definition table_name_of_query (query : Uni.text) : Uni.text :=
  match URe.search from_table_re query with
  | Some (Some candidate) =>
      let table_part := last (Uni.split_on Uni.dot candidate) [] in
      if negb (existsb (fun kw => Uni.eqb (Uni.upper table_part)
                                    (Uni.of_string kw))
                 sql_keywords)
      then candidate else Uni.of_string "results"
  | _ => Uni.of_string "results"
  end.

(** The table name [sync_query] extracts from the query text for the
    metadata lookup of a data query: the scan, on the code points of
    the text. What it yields is "results" or a part of the text, so a
    string again ([metadata_table_name_code_points]). *)
Definition metadata_table_name (query_text : string) : string :=
  Uni.to_string (table_name_of_query (Uni.of_string query_text)).

Definition catalog_prefix : string := "/var/www/data.lsdb.io/html/hats".

Definition catalog_url (table : string) : string :=
  if has_char dot table then
    let parts := split_on dot table in
    catalog_prefix ++ "/" ++ nth 0 parts "" ++ "/" ++ nth 1 parts "" ++ "/"
  else catalog_prefix ++ "/" ++ table ++ "/".

(** The [search_filter] handed to [lsdb.open_catalog]. *)
Definition search_filter_of (spatial_search : option Spatial)
    : Exc (option ConeSearch) :=
  match spatial_search with
  | None => Ok None
  | Some spatial =>
      if String.eqb (spatial_type spatial) "ConeSearch" then
        match spatial with
        | ConeSearchD ra dec radius =>
            Ok (Some (mkConeSearch ra dec (times_3600 radius)))
        | _ => Raise (KeyError "ra")
        end
      else Ok None
  end.

(** The data-query branch: rows, columns, and the table name for the
    metadata lookup. *)
Definition run_data_query (env : Env) (query_text : string)
    : M (list Row * list string * string) :=
  entities <- call (EvParse query_text)
                (parse_adql_entities env query_text) ;;
  match ent_tables entities with
  | [] => raise AssertionError
  | table :: _ =>
      search_filter <- lift (search_filter_of (ent_spatial_search entities)) ;;
      cat <- call (EvOpenCatalog (catalog_url table) (ent_columns entities)
                     search_filter (ent_conditions entities))
               (open_catalog (lsdb env) (catalog_url table)
                  (ent_columns entities) search_filter
                  (ent_conditions entities)) ;;
      result_df <- call (EvHead (ent_limits entities))
                     (head cat (ent_limits entities)) ;;
      let (data, result_columns) := dataframe_to_votable_data result_df in
      ret (data, result_columns, metadata_table_name query_text)
  end.

Definition xml_response (st : Z) (xml : string) : Response :=
  mkResponse xml "application/xml" st.

(** The body of the [try] of [sync_query]. *)
Definition process_query (env : Env) (query_text output_format : string)
    : M Response :=
  found <-
    (if is_tap_schema_query query_text then
       r <- query_tap_schema (tap_schema_db env) query_text ;;
       ret (fst r, snd r, "tap_schema")
     else run_data_query env query_text) ;;
  let '(data, result_columns, table_name) := found in
  column_metadata <- get_column_metadata (tap_schema_db env) table_name ;;
  let query_info := [("query", query_text); ("table", table_name)] in
  if mem_str output_format ["votable"; "votable/td"] then
    xml <- create_votable_response env data result_columns query_info
             column_metadata ;;
    ret (xml_response 200 xml)
  else
    xml <- create_error_votable env
             ("Unsupported format: " ++ output_format) query_text ;;
    ret (xml_response 400 xml).

(** The handler of the [except] clause of [sync_query]. *)
Definition processing_error (env : Env) (query_text : string) (e : Exn)
    : M Response :=
  xml <- create_error_votable env
           ("Error processing query: " ++ exn_str e) query_text ;;
  ret (xml_response 500 xml).

Definition sync_query (env : Env) (params : Dict string) : M Response :=
  let request_type := dict_get "REQUEST" "" params in
  if negb (String.eqb request_type "doQuery") then
    xml <- create_error_votable env
             ("Invalid REQUEST parameter: " ++ request_type
              ++ ". Must be 'doQuery'.") "" ;;
    ret (xml_response 400 xml)
  else
  let lang := dict_get "LANG" "ADQL" params in
  if negb (Re.matches_at_start lang_re lang) then
    xml <- create_error_votable env
             ("Unsupported query language: " ++ lang
              ++ ". Only ADQL is supported.") "" ;;
    ret (xml_response 400 xml)
  else
  let query_text := dict_get "QUERY" "" params in
  if String.eqb query_text "" then
    xml <- create_error_votable env "Missing required parameter: QUERY" "" ;;
    ret (xml_response 400 xml)
  else
  let output_format := lower (dict_get "FORMAT" "votable" params) in
  try_except
    (process_query env query_text output_format)
    (processing_error env query_text).

(* ================================================================= *)
(** ** The [/tables] endpoint *)

(** [row[key]]. *)
Definition item (key : string) (row : Row) : Exc Value :=
  match dict_find key row with
  | Some v => Ok v
  | None => Raise (KeyError key)
  end.

(** A child element holding only text. *)
Definition text_elem (tag : string) (text : Value) : Element :=
  Elem tag [] text [].

(** [if row.get(key): <tag>row[key]</tag>]. *)
Definition optional_elem (row : Row) (key tag : string) : list Element :=
  if truthy (dict_get key VNone row)
  then [text_elem tag (dict_get key VNone row)] else [].

Definition column_element (column_row : Row) : M Element :=
  column_name <- lift (item "column_name" column_row) ;;
  ret (Elem "column" [] VNone
         (text_elem "name" column_name
          :: optional_elem column_row "datatype" "dataType"
          ++ optional_elem column_row "unit" "unit"
          ++ optional_elem column_row "ucd" "ucd"
          ++ optional_elem column_row "description" "description")).

Definition schemas_sql : string :=
  "SELECT schema_name, description FROM schemas ORDER BY schema_name".
Definition tables_sql : string :=
  "SELECT table_name, description FROM tables WHERE schema_name = ? ORDER BY table_name".
Definition table_columns_sql : string :=
  "SELECT column_name, datatype, unit, ucd, description FROM columns WHERE table_name = ? ORDER BY column_name".

Definition table_element (db : TAPSchemaDatabase) (schema_name : Value)
    (table_row : Row) : M Element :=
  table_name <- lift (item "table_name" table_row) ;;
  let full_table_name := (py_str schema_name ++ "." ++ py_str table_name)%string in
  columns <- call (EvQuery table_columns_sql [VStr full_table_name])
               (query db table_columns_sql [VStr full_table_name]) ;;
  column_elems <- for_each column_element columns ;;
  ret (Elem "table" [] VNone
         (text_elem "name" table_name
          :: optional_elem table_row "description" "description"
          ++ column_elems)).

Definition schema_element (db : TAPSchemaDatabase) (schema_row : Row)
    : M Element :=
  schema_name <- lift (item "schema_name" schema_row) ;;
  tables <- call (EvQuery tables_sql [schema_name])
              (query db tables_sql [schema_name]) ;;
  table_elems <- for_each (table_element db schema_name) tables ;;
  ret (Elem "schema" [] VNone
         (text_elem "name" schema_name
          :: optional_elem schema_row "description" "description"
          ++ table_elems)).

(** The tree [generate_tables_xml] builds inside its [try]. *)
Definition tableset_tree (db : TAPSchemaDatabase) : M Element :=
  call EvConnect (connect db) ;;;
  schemas <- call (EvQuery schemas_sql []) (query db schemas_sql []) ;;
  schema_elems <- for_each (schema_element db) schemas ;;
  ret (Elem "tableset"
         [("xmlns", VStr "http://www.ivoa.net/xml/VODataService/v1.1")]
         VNone schema_elems).

Definition minimal_tableset : string :=
  (xml_declaration ++ "<tableset xmlns=" ++ dquote
   ++ "http://www.ivoa.net/xml/VODataService/v1.1" ++ dquote ++ "/>")%string.

Definition generate_tables_xml (env : Env) : M string :=
  try_except
    (tableset <- tableset_tree (tap_schema_db env) ;;
     format_xml_with_indentation env tableset)
    (fun _ => ret minimal_tableset).

(** The [/tables] route; it takes nothing from the request. *)
Definition tables (env : Env) : M Response :=
  xml <- generate_tables_xml env ;;
  ret (xml_response 200 xml).

(* ================================================================= *)
(** ** The metadata store behind [tap_schema_db] *)

Module Store.

(** Modelled from the spec: [tap_schema_db.py] (the class
    [TAPSchemaDatabase]) is not part of this module. The five relations
    and their keys are those of the spec's relational layout; an insert
    replaces the record of the same identity; a read of a known
    statement returns the matching rows and never raises. Any other
    statement is left to [engine], the SQL engine. *)
Record SchemaRec : Type := mkSchema {
  schema_name : string;
  schema_description : Value
}.

Record TableRec : Type := mkTable {
  table_schema : string;
  table_name : string;
  table_type : Value;
  table_description : Value
}.

Record ColumnRec : Type := mkColumn {
  column_table : string;
  column_name : string;
  column_datatype : Value;
  column_unit : Value;
  column_ucd : Value;
  column_description : Value
}.

Record KeyRec : Type := mkKey {
  key_id : string;
  key_from_table : string;
  key_target_table : string;
  key_description : Value
}.

Record KeyColumnRec : Type := mkKeyColumn {
  kc_key_id : string;
  kc_from_column : string;
  kc_target_column : string
}.

Record t : Type := mkStore {
  schemas : list SchemaRec;
  tables_ : list TableRec;
  columns : list ColumnRec;
  keys : list KeyRec;
  key_columns : list KeyColumnRec;
  engine : string -> Exc (list Row * list string)
}.

Definition empty (engine : string -> Exc (list Row * list string)) : t :=
  mkStore [] [] [] [] [] engine.

(** Modelled from the spec: an insert is an upsert by identity; it
    replaces the record with the same identity, or adds the record. *)
Fixpoint upsert {A : Type} (same : A -> A -> bool) (x : A) (l : list A)
    : list A :=
  match l with
  | [] => [x]
  | y :: l' => if same x y then x :: l' else y :: upsert same x l'
  end.

Definition insert_schema (name : string) (description : Value) (s : t) : t :=
  mkStore
    (upsert (fun a b => String.eqb (schema_name a) (schema_name b))
       (mkSchema name description) (schemas s))
    (tables_ s) (columns s) (keys s) (key_columns s) (engine s).

Definition insert_table (schema name : string) (type description : Value)
    (s : t) : t :=
  mkStore (schemas s)
    (upsert (fun a b => String.eqb (table_schema a) (table_schema b)
                        && String.eqb (table_name a) (table_name b))
       (mkTable schema name type description) (tables_ s))
    (columns s) (keys s) (key_columns s) (engine s).

Definition insert_column (table name : string)
    (datatype unit ucd description : Value) (s : t) : t :=
  mkStore (schemas s) (tables_ s)
    (upsert (fun a b => String.eqb (column_table a) (column_table b)
                        && String.eqb (column_name a) (column_name b))
       (mkColumn table name datatype unit ucd description) (columns s))
    (keys s) (key_columns s) (engine s).

Definition insert_key (id from_table target_table : string)
    (description : Value) (s : t) : t :=
  mkStore (schemas s) (tables_ s) (columns s)
    (upsert (fun a b => String.eqb (key_id a) (key_id b))
       (mkKey id from_table target_table description) (keys s))
    (key_columns s) (engine s).

Definition insert_key_column (id from_column target_column : string)
    (s : t) : t :=
  mkStore (schemas s) (tables_ s) (columns s) (keys s)
    (upsert (fun a b => String.eqb (kc_key_id a) (kc_key_id b)
                        && String.eqb (kc_from_column a) (kc_from_column b))
       (mkKeyColumn id from_column target_column) (key_columns s))
    (engine s).

(** Modelled from the spec: ORDER BY on a text column (binary
    collation). *)
Fixpoint insert_sorted {A : Type} (key : A -> string) (x : A) (l : list A)
    : list A :=
  match l with
  | [] => [x]
  | y :: l' =>
      if String.leb (key x) (key y) then x :: y :: l'
      else y :: insert_sorted key x l'
  end.

Definition order_by {A : Type} (key : A -> string) (l : list A) : list A :=
  fold_right (insert_sorted key) [] l.

Definition schema_row (r : SchemaRec) : Row :=
  [ ("schema_name", VStr (schema_name r));
    ("description", schema_description r) ].

Definition table_row (r : TableRec) : Row :=
  [ ("table_name", VStr (table_name r));
    ("description", table_description r) ].

Definition column_row (r : ColumnRec) : Row :=
  [ ("column_name", VStr (column_name r));
    ("datatype", column_datatype r);
    ("unit", column_unit r);
    ("ucd", column_ucd r);
    ("description", column_description r) ].

Definition columns_of (s : t) (table : Value) : list ColumnRec :=
  filter (fun r => is_str (column_table r) table) (columns s).

(** Modelled from the spec: [query(sql, params)] for the four
    statements of the server, read off the relations; any other
    statement goes to the engine. *)
Definition query (s : t) (sql : string) (params : list Value)
    : Exc (list Row) :=
  let table := hd VNone params in
  if String.eqb sql columns_query then
    Ok (map column_row (columns_of s table))
  else if String.eqb sql table_columns_sql then
    Ok (map column_row (order_by column_name (columns_of s table)))
  else if String.eqb sql schemas_sql then
    Ok (map schema_row (order_by schema_name (schemas s)))
  else if String.eqb sql tables_sql then
    Ok (map table_row
          (order_by table_name
             (filter (fun r => is_str (table_schema r) table) (tables_ s))))
  else
    match engine s sql with
    | Ok (rows, _) => Ok rows
    | Raise e => Raise e
    end.

(** Modelled from the spec: the database object over a store;
    connecting succeeds, and [query_with_columns] is the engine's. *)
Definition db (s : t) : TAPSchemaDatabase :=
  mkDb (Ok tt) (query s) (engine s).

End Store.

(* ================================================================= *)
(** ** Stand-ins for the collaborators, for running the model *)

Module Demo.

(** A serializer in the manner of [ET.tostring] followed by minidom's
    pretty-printer: one element per line, two spaces per level, an XML
    declaration first; a text or attribute value that is not a [str]
    raises [TypeError]. *)
Fixpoint indent (depth : nat) : string :=
  match depth with
  | O => ""
  | S d => ("  " ++ indent d)%string
  end.

Definition as_text (v : Value) : Exc string :=
  match v with
  | VStr s => Ok s
  | VNone => Ok ""
  | other =>
      Raise (mkExn "TypeError" ("cannot serialize " ++ py_str other))
  end.

Fixpoint write_attrs (attrs : Dict Value) : Exc string :=
  match attrs with
  | [] => Ok ""
  | (k, v) :: attrs' =>
      match v, write_attrs attrs' with
      | VStr s, Ok tl =>
          Ok (" " ++ k ++ "=" ++ dquote ++ s ++ dquote ++ tl)%string
      | VStr _, Raise e => Raise e
      | other, _ =>
          Raise (mkExn "TypeError" ("cannot serialize " ++ py_str other))
      end
  end.

Fixpoint write (depth : nat) (e : Element) : Exc string :=
  match e with
  | Elem tag attrs text children =>
      match write_attrs attrs, as_text text,
            (fix write_all (es : list Element) : Exc string :=
               match es with
               | [] => Ok ""
               | e' :: es' =>
                   match write (S depth) e', write_all es' with
                   | Ok a, Ok b => Ok (a ++ b)%string
                   | Raise x, _ => Raise x
                   | _, Raise x => Raise x
                   end
               end) children with
      | Ok a, Ok x, Ok cs =>
          Ok (indent depth ++ "<" ++ tag ++ a ++ ">" ++ x
              ++ (if is_nil children then "" else newline) ++ cs
              ++ (if is_nil children then "" else indent depth)
              ++ "</" ++ tag ++ ">" ++ newline)%string
      | Raise x, _, _ => Raise x
      | _, Raise x, _ => Raise x
      | _, _, Raise x => Raise x
      end
  end.

Definition toprettyxml (e : Element) : Exc string :=
  match write 0 e with
  | Ok s => Ok ("<?xml version=" ++ dquote ++ "1.0" ++ dquote ++ " ?>"
                ++ newline ++ s)%string
  | Raise x => Raise x
  end.

(** A catalog holding one frame, whatever is asked of it. *)
Definition lsdb_of (df : DataFrame) : Lsdb :=
  mkLsdb (fun _ _ _ _ => Ok (mkCatalog (fun _ => Ok df))).

(** A parser that answers every query with the same descriptor. *)
Definition parser_of (ent : Entities) (q : string) : Exc Entities := Ok ent.

Definition no_engine (sql : string) : Exc (list Row * list string) :=
  Raise (mkExn "OperationalError" "near: syntax error").

Definition env (ent : Entities) (df : DataFrame) (db : TAPSchemaDatabase)
    : Env :=
  mkEnv (parser_of ent) (lsdb_of df) db toprettyxml "2025-01-01T00:00:00+00:00".

(** The store of [tests/hats_tap/test_tap_server_tables.py]. *)
Definition gaia_store : Store.t :=
  Store.insert_key_column "fk_parent" "parent_id" "id"
  (Store.insert_key "fk_parent" "gaia_dr3.gaia" "gaia_dr3.parents"
     (VStr "Parent relation")
  (Store.insert_column "gaia_dr3.parents" "id" (VStr "long") VNone VNone VNone
  (Store.insert_column "gaia_dr3.gaia" "dec" (VStr "double") (VStr "deg")
     (VStr "pos.eq.dec") VNone
  (Store.insert_column "gaia_dr3.gaia" "ra" (VStr "double") (VStr "deg")
     (VStr "pos.eq.ra") VNone
  (Store.insert_column "gaia_dr3.gaia" "parent_id" (VStr "long") VNone VNone
     VNone
  (Store.insert_column "gaia_dr3.gaia" "source_id" (VStr "long") VNone VNone
     (VStr "Source identifier")
  (Store.insert_table "gaia_dr3" "parents" (VStr "table")
     (VStr "Parent table")
  (Store.insert_table "gaia_dr3" "gaia" (VStr "table") (VStr "Gaia sources")
  (Store.insert_schema "gaia_dr3" (VStr "Gaia DR3 schema")
     (Store.empty no_engine)))))))))).

Definition cone_entities : Entities :=
  mkEntities ["gaia_dr3.gaia"] ["ra"; "dec"] []
    (Some (ConeSearchD (PFloat 270) (PFloat 23) (PFloat 0.25))) 15 [].

Definition one_row_frame : DataFrame :=
  mkDataFrame ["ra"; "dec"]
    [ [("ra", VObj true "270.0"); ("dec", VObj true "23.0")] ].

End Demo.

(* ================================================================= *)
(** ** Reading a document, a request and a trace *)

Definition is_tag (t : string) (e : Element) : bool :=
  String.eqb (tag_of e) t.

Definition children_tagged (t : string) (e : Element) : list Element :=
  filter (is_tag t) (children_of e).

(** The elements reached from [es] by following child tags. *)
Fixpoint descend (path : list string) (es : list Element) : list Element :=
  match path with
  | [] => es
  | t :: path' => descend path' (flat_map (children_tagged t) es)
  end.

(** The INFO entries of a VOTable document, and the value of one. *)
Definition infos (doc : Element) : list Element :=
  descend ["RESOURCE"; "INFO"] [doc].

Definition info_value (name : string) (doc : Element) : option Value :=
  match filter (fun e => is_str name (dict_get "name" VNone (attrib_of e)))
          (infos doc) with
  | e :: _ => dict_find "value" (attrib_of e)
  | [] => None
  end.

Definition document_tables (doc : Element) : list Element :=
  descend ["RESOURCE"; "TABLE"] [doc].

Definition fields (doc : Element) : list Element :=
  descend ["RESOURCE"; "TABLE"; "FIELD"] [doc].



(** Does a tag occur anywhere in a tree? *)
Fixpoint mentions_tag (t : string) (e : Element) : bool :=
  match e with
  | Elem tag _ _ children =>
      String.eqb tag t
      || (fix any (es : list Element) : bool :=
            match es with
            | [] => false
            | e' :: es' => mentions_tag t e' || any es'
            end) children
  end.

(** A request that passes the three parameter checks of [sync_query]. *)
Definition valid_request (params : Dict string) : bool :=
  String.eqb (dict_get "REQUEST" "" params) "doQuery"
  && Re.matches_at_start lang_re (dict_get "LANG" "ADQL" params)
  && negb (String.eqb (dict_get "QUERY" "" params) "").

(** The request was executed against the metadata store / was handed
    to the ADQL parser. *)
Definition routed_to_store {A : Type} (m : M A) (q : string) : Prop :=
  In (EvQueryWithColumns q) (trace m).

Definition treated_as_data_query {A : Type} (m : M A) (q : string) : Prop :=
  In (EvParse q) (trace m).

(** The documents a computation serialized, in order. *)
Definition documents {A : Type} (m : M A) : list Element :=
  flat_map (fun ev => match ev with EvPretty e => [e] | _ => [] end)
    (trace m).

(** The table names looked up in the columns relation, in order. *)
Definition metadata_lookups {A : Type} (m : M A) : list (list Value) :=
  flat_map (fun ev => match ev with
                      | EvQuery sql params =>
                          if String.eqb sql columns_query then [params] else []
                      | _ => []
                      end)
    (trace m).

(** The column name is none of the names that have a hard-coded
    fallback. *)
Definition no_role_default (col : string) : Prop :=
  mem_str (lower col)
    ["ra"; "ra_deg"; "dec"; "dec_deg"; "mag"; "magnitude"] = false.

(** Kinds of events. *)
Definition store_lookup_event (ev : Event) : Prop :=
  match ev with
  | EvConnect | EvQuery _ _ => True
  | _ => False
  end.

(** The shape of a success document: status OK, the query text, a
    timestamp, no error entry, one table. *)
Definition is_success_document (query_text now : string) (doc : Element)
    : Prop :=
  info_value "QUERY_STATUS" doc = Some (VStr "OK") /\
  info_value "QUERY" doc = Some (VStr query_text) /\
  info_value "TIMESTAMP" doc = Some (VStr now) /\
  info_value "ERROR" doc = None /\
  List.length (document_tables doc) = 1%nat.

(** The shape of an error document: status ERROR, a message, the query
    text only when [query_text] is given, no timestamp, no table. *)
Definition is_error_document (query_text : option string) (doc : Element)
    : Prop :=
  info_value "QUERY_STATUS" doc = Some (VStr "ERROR") /\
  (exists msg, info_value "ERROR" doc = Some (VStr msg)) /\
  info_value "QUERY" doc = option_map VStr query_text /\
  info_value "TIMESTAMP" doc = None /\
  document_tables doc = [].

(** [resp] is the rendering of [doc] by the pretty-printer of [env]. *)
Definition renders (env : Env) (doc : Element) (resp : Response) : Prop :=
  exists pretty,
    toprettyxml env doc = Ok pretty /\
    body resp = with_declaration pretty /\
    mimetype resp = "application/xml".

(** The error document on which the answer to a request depends, when
    there is one: the document of the first parameter check that
    fails or, for a request that passes the checks, the document the
    [except] clause builds when processing raised. *)
Definition failure_document (env : Env) (params : Dict string)
    : option Element :=
  let request_type := dict_get "REQUEST" "" params in
  let lang := dict_get "LANG" "ADQL" params in
  let query_text := dict_get "QUERY" "" params in
  if negb (String.eqb request_type "doQuery") then
    Some (error_tree ("Invalid REQUEST parameter: " ++ request_type
                      ++ ". Must be 'doQuery'.") "")
  else if negb (Re.matches_at_start lang_re lang) then
    Some (error_tree ("Unsupported query language: " ++ lang
                      ++ ". Only ADQL is supported.") "")
  else if String.eqb query_text "" then
    Some (error_tree "Missing required parameter: QUERY" "")
  else
    match outcome (process_query env query_text
                     (lower (dict_get "FORMAT" "votable" params))) with
    | Raise e =>
        Some (error_tree ("Error processing query: " ++ exn_str e) query_text)
    | Ok _ => None
    end.

(** The pretty-printer accepts that one document. *)
Definition prints_failure_document (env : Env) (params : Dict string)
    : Prop :=
  forall doc,
    failure_document env params = Some doc ->
    exists pretty, toprettyxml env doc = Ok pretty.

(** A server over the stand-ins: the store of the tables test, a parser
    that returns a cone search on gaia_dr3.gaia, a one-row catalog. *)
Definition demo_env : Env :=
  Demo.env Demo.cone_entities Demo.one_row_frame (Store.db Demo.gaia_store).

Definition demo_query : string := "SELECT TOP 15 ra, dec FROM gaia_dr3.gaia".


(** The dictionary built from rows that all have a column name. *)
Definition metadata_of_rows (rows : list Row) : Metadata :=
  map (fun row => (dict_get "column_name" VNone row, column_meta_of_row row))
    rows.



(** The same descriptor without its spatial predicate, and the same
    environment with another parser. *)
Definition without_spatial (ent : Entities) : Entities :=
  mkEntities (ent_tables ent) (ent_columns ent) (ent_conditions ent) None
    (ent_limits ent) (ent_order_by ent).

Definition with_parser (env : Env) (parser : string -> Exc Entities) : Env :=
  mkEnv parser (lsdb env) (tap_schema_db env) (toprettyxml env)
    (utcnow_isoformat env).

Definition polygon_entities : Entities :=
  mkEntities ["ztf_dr22"] ["objectid"; "objra"; "objdec"] []
    (Some (PolygonSearchD
             [ (PFloat 280, PFloat 30); (PFloat 281, PFloat 30);
               (PFloat 281, PFloat 29); (PFloat 279, PFloat 27) ]))
    10 [].

Definition polygon_env : Env :=
  Demo.env polygon_entities Demo.one_row_frame (Store.db Demo.gaia_store).

Definition polygon_request : Dict string :=
  [("REQUEST", "doQuery");
   ("QUERY", "SELECT TOP 10 objectid, objra, objdec FROM ztf_dr22")].

(** The query text contains the marker tap_schema. in some casing. *)
Definition has_tap_schema_marker (q : string) : Prop :=
  exists pre mid post,
    q = (pre ++ mid ++ post)%string /\ lower mid = "tap_schema.".

(** An event that is neither a call of the parser nor a statement
    executed for the client. *)
Definition follow_up_event (ev : Event) : Prop :=
  match ev with
  | EvParse _ | EvQueryWithColumns _ => False
  | _ => True
  end.

(** The statements [generate_tables_xml] sends to the store. *)
Definition tables_walk_event (ev : Event) : Prop :=
  match ev with
  | EvConnect | EvPretty _ => True
  | EvQuery sql _ =>
      sql = schemas_sql \/ sql = tables_sql \/ sql = table_columns_sql
  | _ => False
  end.

(** The names of the table elements of a tableset document. *)
Definition tableset_table_names (doc : Element) : list Value :=
  map text_of (descend ["schema"; "table"; "name"] [doc]).

(** ** What the FROM pattern finds, said without the matcher *)

(** The longest prefix of characters of a class, and what follows. *)
Fixpoint span (p : N -> bool) (s : Uni.text) : Uni.text * Uni.text :=
  match s with
  | c :: s' =>
      if p c then let (a, b) := span p s' in (c :: a, b)
      else ([], s)
  | [] => ([], [])
  end.

(** The character before the position reached after reading [s]. *)
Fixpoint last_char (pr : option N) (s : Uni.text) : option N :=
  match s with
  | [] => pr
  | c :: s' => last_char (Some c) s'
  end.

Definition starts_with_word (s : Uni.text) : bool :=
  match s with c :: _ => Uni.is_word c | [] => false end.

Definition ends_with_word (s : Uni.text) : bool :=
  match last_char None s with Some c => Uni.is_word c | None => false end.

(** An identifier as the pattern reads it: a character of [[a-zA-Z_]]
    followed by characters of [[a-zA-Z0-9_]], both under
    [re.IGNORECASE]. *)
Definition is_identifier (s : Uni.text) : bool :=
  match s with
  | c :: s' => Uni.ident_start c && forallb Uni.ident_char s'
  | [] => false
  end.

(** A table name as the pattern captures it: [table] or
    [schema.table]. *)
Definition is_candidate (cand : Uni.text) : Prop :=
  is_identifier cand = true \/
  exists a b, cand = a ++ [Uni.dot] ++ b /\
              is_identifier a = true /\ is_identifier b = true.

(** The word FROM in any casing: F or f, R or r, O or o, M or m. *)
Definition is_from_marker (kw : Uni.text) : bool :=
  match kw with
  | [c1; c2; c3; c4] =>
      Uni.letter_i 70 c1 && Uni.letter_i 82 c2 && Uni.letter_i 79 c3
      && Uni.letter_i 77 c4
  | _ => false
  end.

(** [cand] follows a FROM marker that starts right after [pre] in [q]:
    the marker is the word FROM in any casing, not glued to a word
    character before it, followed by whitespace; the candidate is not
    glued to a word character after it. *)
Definition from_occurrence (q pre cand : Uni.text) : Prop :=
  exists kw ws post,
    q = pre ++ kw ++ ws ++ cand ++ post /\
    ends_with_word pre = false /\
    is_from_marker kw = true /\
    ws <> [] /\ forallb Uni.is_space ws = true /\
    is_candidate cand /\
    starts_with_word post = false.

(** The occurrence the search reports: the leftmost one, and at that
    place the longest candidate. *)
Definition first_from_occurrence (q pre cand : Uni.text) : Prop :=
  from_occurrence q pre cand /\
  forall pre' cand',
    from_occurrence q pre' cand' ->
    (List.length pre < List.length pre')%nat \/
    (List.length pre = List.length pre' /\
     (List.length cand' <= List.length cand)%nat).

(** The part of a candidate that is checked against the keywords, and
    the check: the upper-cased part is one of the keywords. *)
Definition table_part (candidate : Uni.text) : Uni.text :=
  last (Uni.split_on Uni.dot candidate) [].

Definition is_sql_keyword (name : Uni.text) : bool :=
  existsb (fun kw => Uni.eqb (Uni.upper name) (Uni.of_string kw))
    sql_keywords.

(** The candidate the pattern captures at one position, computed
    without backtracking: [pr] is the character before the position,
    [s] the text from it. *)
Definition from_table_at (pr : option N) (s : Uni.text)
    : option Uni.text :=
  if negb (xorb (match pr with Some c => Uni.is_word c | None => false end)
             (starts_with_word s))
  then None else
  match s with
  | c1 :: c2 :: c3 :: c4 :: r =>
      if Uni.letter_i 70 c1 && Uni.letter_i 82 c2
         && Uni.letter_i 79 c3 && Uni.letter_i 77 c4
      then
        match r with
        | w :: r1 =>
            if Uni.is_space w then
              match snd (span Uni.is_space r1) with
              | a :: r3 =>
                  if Uni.ident_start a then
                    let (id1, r4) := span Uni.ident_char r3 in
                    let first := a :: id1 in
                    let plain :=
                      if starts_with_word r4 then None else Some first in
                    match r4 with
                    | d :: b :: r5 =>
                        if N.eqb Uni.dot d && Uni.ident_start b then
                          let (id2, r6) := span Uni.ident_char r5 in
                          if starts_with_word r6 then Some first
                          else Some (first ++ [Uni.dot] ++ b :: id2)
                        else plain
                    | _ => plain
                    end
                  else None
              | [] => None
              end
            else None
        | [] => None
        end
      else None
  | _ => None
  end.

(** The character before the position is a word character. *)
Definition word_prev (pr : option N) : Prop :=
  exists c, pr = Some c /\ Uni.is_word c = true.

(** The end of the FROM pattern, as the continuation of what is inside
    the group: group 1 is closed -- it started at index [n0], where the
    text was [s0] -- and a word boundary is required. *)
Definition close_group (n0 : nat) (s0 : Uni.text) (st1 : URe.state)
    : option (option Uni.text) :=
  URe.run URe.Boundary
    (URe.mkState (URe.prev st1) (URe.rest st1) (URe.pos st1)
       (Some (firstn (URe.pos st1 - n0) s0)))
    (fun st => Some (URe.group1 st)).

(** The first position, from the current one on, at which the pattern
    captures a candidate. *)
Fixpoint find_from (pr : option N) (s : Uni.text) : option Uni.text :=
  match from_table_at pr s with
  | Some cand => Some cand
  | None =>
      match s with
      | [] => None
      | c :: s' => find_from (Some c) s'
      end
  end.

(** The table name the scan of a query text yields, said without the
    matcher: "results" when the text has no FROM marker followed by a
    candidate; otherwise the first such candidate, unless its
    upper-cased table part is an SQL keyword, and then "results"
    again. *)
Definition resolves_to (q name : Uni.text) : Prop :=
  (name = Uni.of_string "results" /\
   forall pre cand, ~ from_occurrence q pre cand) \/
  (exists pre cand,
      first_from_occurrence q pre cand /\
      name = if is_sql_keyword (table_part cand)
             then Uni.of_string "results" else cand).

(** The code points of a list of ranges, one by one. *)
Fixpoint enum_from (lo : N) (n : nat) : list N :=
  match n with
  | O => []
  | S n' => lo :: enum_from (N.succ lo) n'
  end.

Definition enum (rs : list (N * N)) : list N :=
  flat_map (fun r => enum_from (fst r) (N.to_nat (N.succ (snd r) - fst r)))
    rs.

(** A data query whose text has the words [from earth] in a string
    literal before its FROM clause. *)
Definition literal_query : string :=
  "SELECT 'seen from earth' AS note, ra FROM gaia_dr3.gaia".

Definition literal_request : Dict string :=
  [("REQUEST", "doQuery"); ("LANG", "ADQL"); ("QUERY", literal_query)].

(** The message of the 500 document for an exception [e]. *)
Definition processing_message (e : Exn) : string :=
  ("Error processing query: " ++ exn_str e)%string.

(** A parser that rejects every query, and one that returns a
    descriptor without tables. *)
Definition failing_parser (q : string) : Exc Entities :=
  Raise (mkExn "ValueError" "Multiple CONTAINS clauses").

Definition no_table_entities : Entities :=
  mkEntities [] ["ra"] [] None 10 [].

(** A catalog layer that cannot open anything. *)
Definition failing_lsdb : Lsdb :=
  mkLsdb (fun _ _ _ _ => Raise (mkExn "FileNotFoundError" "no such catalog")).

Definition demo_request : Dict string :=
  [("REQUEST", "doQuery"); ("QUERY", demo_query)].

(** A database object that answers every statement with the same rows. *)
Definition fixed_rows_db (rows : list Row) : TAPSchemaDatabase :=
  mkDb (Ok tt) (fun _ _ => Ok rows) (fun _ => Ok (rows, [])).

(** A database object that cannot be connected to. *)
Definition unreachable_db : TAPSchemaDatabase :=
  mkDb (Raise (mkExn "OperationalError" "unable to open database file"))
    (fun _ _ => Ok []) (fun _ => Ok ([], [])).

(** The row of the gaia_dr3 schema, and of its table gaia, as the
    stand-in store returns them. *)
Definition gaia_schema_row : Row :=
  [("schema_name", VStr "gaia_dr3"); ("description", VStr "Gaia DR3 schema")].

Definition gaia_table_row : Row :=
  [("table_name", VStr "gaia"); ("description", VStr "Gaia sources")].

(** A pretty-printer that rejects every tree, as minidom does for a
    text that is not well-formed. *)
Definition rejecting_printer (e : Element) : Exc string :=
  Raise (mkExn "ExpatError" "not well-formed (invalid token)").

(** A database object whose columns relation stores a number where the
    datatype of a column should be. *)
Definition int_datatype_db : TAPSchemaDatabase :=
  mkDb (Ok tt)
    (fun _ _ => Ok [[("column_name", VStr "schema_name");
                     ("datatype", VInt 5)]])
    (fun _ => Ok ([[("schema_name", VStr "gaia_dr3")]], ["schema_name"])).

(** A descriptor of a join with an ordering. *)
Definition joined_entities : Entities :=
  mkEntities ["gaia_dr3.gaia"; "gaia_dr3.parents"] ["ra"; "dec"] [] None 15
    [("ra", true)].

(** The descriptor as [sync_query] reads it: its first table, and no
    ordering. *)
Definition first_table_unordered (ent : Entities) : Entities :=
  mkEntities (firstn 1 (ent_tables ent)) (ent_columns ent)
    (ent_conditions ent) (ent_spatial_search ent) (ent_limits ent) [].

(* ================================================================= *)
(** * Properties *)

(** ** Lists, strings and trees *)


Lemma filter_map_all {A B : Type} (p : B -> bool) (f : A -> B) (l : list A) :
  (forall x, p (f x) = true) -> filter p (map f l) = map f l.
Proof.
  intros Hp. induction l as [|x l IH]; simpl; [reflexivity|].
  now rewrite Hp, IH.
Qed.

Lemma dict_get_found {V : Type} (k : string) (d : Dict V) (dflt v : V) :
  dict_find k d = Some v -> dict_get k dflt d = v.
Proof. unfold dict_get. now intros ->. Qed.

Lemma dict_get_missing {V : Type} (k : string) (d : Dict V) (dflt : V) :
  dict_find k d = None -> dict_get k dflt d = dflt.
Proof. unfold dict_get. now intros ->. Qed.

(** ** The table of a success document *)

Lemma fields_of_votable_tree now data columns query_info md :
  fields (votable_tree now data columns query_info md)
  = map (fun col => SubElement "FIELD" (field_attrs md col)) columns.
Proof.
  unfold fields, votable_tree, descend, children_tagged.
  cbn -[field_attrs].
  rewrite app_nil_r, filter_app, filter_map_all by reflexivity.
  cbn. apply app_nil_r.
Qed.



(** ** Row serialization *)






(** ** Field descriptors *)

Lemma metadata_guard col (md : Metadata) :
  (if is_nil md then None else metadata_find col md) = metadata_find col md.
Proof. destruct md; reflexivity. Qed.


Lemma field_attrs_name md col :
  dict_find "name" (field_attrs md col) = Some (VStr col).
Proof.
  unfold field_attrs. rewrite metadata_guard.
  destruct (metadata_find col md) as [meta|].
  - repeat match goal with |- context [if ?b then _ else _] => destruct b end;
      reflexivity.
  - repeat match goal with |- context [if ?b then _ else _] => destruct b end;
      reflexivity.
Qed.

Lemma field_attrs_stored md col meta :
  metadata_find col md = Some meta ->
  dict_find "datatype" (field_attrs md col)
  = Some (if truthy (dict_get "datatype" VNone meta)
          then dict_get "datatype" VNone meta else VStr "double") /\
  dict_find "unit" (field_attrs md col)
  = Some (if truthy (dict_get "unit" VNone meta)
          then dict_get "unit" VNone meta else VStr "") /\
  dict_find "ucd" (field_attrs md col)
  = (if truthy (dict_get "ucd" VNone meta)
     then Some (dict_get "ucd" VNone meta) else None).
Proof.
  intros H. unfold field_attrs. rewrite metadata_guard, H.
  destruct (truthy (dict_get "datatype" VNone meta));
    destruct (truthy (dict_get "unit" VNone meta));
    destruct (truthy (dict_get "ucd" VNone meta));
    repeat split; reflexivity.
Qed.

Lemma field_attrs_missing md col :
  metadata_find col md = None ->
  dict_find "datatype" (field_attrs md col) = Some (VStr "double") /\
  (exists u, dict_find "unit" (field_attrs md col) = Some (VStr u)) /\
  (forall v, dict_find "ucd" (field_attrs md col) = Some v ->
             truthy v = true) /\
  (no_role_default col ->
   field_attrs md col
   = [("name", VStr col); ("datatype", VStr "double"); ("unit", VStr "")]).
Proof.
  intros H. unfold field_attrs, no_role_default. rewrite metadata_guard, H.
  unfold mem_str. cbn [existsb].
  destruct (String.eqb (lower col) "ra"), (String.eqb (lower col) "ra_deg"),
    (String.eqb (lower col) "dec"), (String.eqb (lower col) "dec_deg"),
    (String.eqb (lower col) "mag"), (String.eqb (lower col) "magnitude");
    cbn; repeat split; eauto;
    try (intros v Hv; inversion Hv; reflexivity);
    try discriminate.
Qed.

Lemma field_attrs_missing_unit md col :
  metadata_find col md = None ->
  exists u, dict_find "unit" (field_attrs md col) = Some u /\
            (u = VStr "" \/ truthy u = true).
Proof.
  intros H. unfold field_attrs. rewrite metadata_guard, H.
  repeat match goal with |- context [if ?b then _ else _] => destruct b end;
    cbn; eauto.
Qed.

(** C4 (as the code has it). The success document holds exactly one
    FIELD element per output column, in column order, named after the
    column. Its datatype attribute is "double" when the column has no
    stored metadata. Its unit attribute is always emitted: it is the
    empty string when no unit is known, and a non-empty value
    otherwise. Its ucd attribute is emitted only with a non-empty
    value: the stored one when the stored metadata has one, a
    hard-coded one for the well-known names when the column has no
    stored metadata, and not at all otherwise. *)
Theorem field_descriptor_per_column :
  forall now data columns query_info md j col,
    nth_error columns j = Some col ->
    let doc := votable_tree now data columns query_info md in
    List.length (fields doc) = List.length columns /\
    exists f,
      nth_error (fields doc) j = Some f /\
      tag_of f = "FIELD" /\
      dict_find "name" (attrib_of f) = Some (VStr col) /\
      (metadata_find col md = None ->
       dict_find "datatype" (attrib_of f) = Some (VStr "double")) /\
      (exists u, dict_find "unit" (attrib_of f) = Some u /\
                 (u = VStr "" \/ truthy u = true)) /\
      (forall v, dict_find "ucd" (attrib_of f) = Some v -> truthy v = true) /\
      (forall meta,
         metadata_find col md = Some meta ->
         dict_find "unit" (attrib_of f)
         = Some (if truthy (dict_get "unit" VNone meta)
                 then dict_get "unit" VNone meta else VStr "") /\
         dict_find "ucd" (attrib_of f)
         = (if truthy (dict_get "ucd" VNone meta)
            then Some (dict_get "ucd" VNone meta) else None)) /\
      (metadata_find col md = None -> no_role_default col ->
       dict_find "unit" (attrib_of f) = Some (VStr "") /\
       dict_find "ucd" (attrib_of f) = None).
Proof.
  intros now data columns query_info md j col Hcol doc. subst doc.
  rewrite fields_of_votable_tree. split; [apply length_map|].
  exists (SubElement "FIELD" (field_attrs md col)).
  rewrite nth_error_map, Hcol. cbn [option_map attrib_of tag_of SubElement].
  split; [reflexivity|]. split; [reflexivity|].
  split; [apply field_attrs_name|].
  split; [intros H; apply (field_attrs_missing md col H)|].
  destruct (metadata_find col md) as [meta|] eqn:Hfind.
  - destruct (field_attrs_stored md col Hfind) as (_ & Hu & Hc).
    split.
    { rewrite Hu. eexists; split; [reflexivity|].
      destruct (truthy (dict_get "unit" VNone meta)) eqn:E; auto. }
    split.
    { intros v. rewrite Hc.
      destruct (truthy (dict_get "ucd" VNone meta)) eqn:E;
        [intros [= <-]; exact E | discriminate]. }
    split.
    { intros meta' [= <-]. split; assumption. }
    discriminate.
  - destruct (field_attrs_missing md col Hfind) as (_ & _ & Hc & Hplain).
    split; [apply (field_attrs_missing_unit md col Hfind)|].
    split; [exact Hc|].
    split; [discriminate|].
    intros _ Hrole. rewrite (Hplain Hrole). split; reflexivity.
Qed.

Lemma field_descriptor_per_column_witness :
  let md := [(VStr "ra", [("datatype", VStr "double"); ("unit", VStr "deg");
                          ("ucd", VStr "pos.eq.ra"); ("description", VNone)])] in
  let doc := votable_tree "t" [] ["flux"; "ra"] [] md in
  List.length (fields doc) = 2%nat /\
  exists f,
    nth_error (fields doc) 1 = Some f /\
    tag_of f = "FIELD" /\
    dict_find "name" (attrib_of f) = Some (VStr "ra") /\
    (metadata_find "ra" md = None ->
     dict_find "datatype" (attrib_of f) = Some (VStr "double")) /\
    (exists u, dict_find "unit" (attrib_of f) = Some u /\
               (u = VStr "" \/ truthy u = true)) /\
    (forall v, dict_find "ucd" (attrib_of f) = Some v -> truthy v = true) /\
    (forall meta,
       metadata_find "ra" md = Some meta ->
       dict_find "unit" (attrib_of f)
       = Some (if truthy (dict_get "unit" VNone meta)
               then dict_get "unit" VNone meta else VStr "") /\
       dict_find "ucd" (attrib_of f)
       = (if truthy (dict_get "ucd" VNone meta)
          then Some (dict_get "ucd" VNone meta) else None)) /\
    (metadata_find "ra" md = None -> no_role_default "ra" ->
     dict_find "unit" (attrib_of f) = Some (VStr "") /\
     dict_find "ucd" (attrib_of f) = None).
Proof.
  exact (@field_descriptor_per_column "t" [] ["flux"; "ra"] []
           [(VStr "ra", [("datatype", VStr "double"); ("unit", VStr "deg");
                         ("ucd", VStr "pos.eq.ra"); ("description", VNone)])]
           1 "ra" eq_refl).
Defined.

(** C4 as stated fails: a column without stored metadata and without a
    hard-coded fallback still gets a unit attribute, with the empty
    string as its value. *)
Lemma unit_attribute_emitted_when_unknown :
  metadata_find "flux" [] = None /\
  no_role_default "flux" /\
  map attrib_of (fields (votable_tree "t" [] ["flux"] [] []))
  = [[("name", VStr "flux"); ("datatype", VStr "double");
      ("unit", VStr "")]].
Proof. repeat split. Qed.

(** ** The monad *)

Lemma trace_bind {A B : Type} (m : M A) (f : A -> M B) :
  trace (bind m f)
  = trace m ++ match outcome m with
               | Ok a => trace (f a)
               | Raise _ => []
               end.
Proof.
  destruct m as [t [a|e]]; cbn.
  - destruct (f a); reflexivity.
  - now rewrite app_nil_r.
Qed.

Lemma outcome_bind {A B : Type} (m : M A) (f : A -> M B) :
  outcome (bind m f)
  = match outcome m with
    | Ok a => outcome (f a)
    | Raise e => Raise e
    end.
Proof.
  destruct m as [t [a|e]]; cbn; [destruct (f a)|]; reflexivity.
Qed.

Lemma trace_try_except {A : Type} (m : M A) (h : Exn -> M A) :
  trace (try_except m h)
  = trace m ++ match outcome m with
               | Ok _ => []
               | Raise e => trace (h e)
               end.
Proof.
  destruct m as [t [a|e]]; cbn.
  - now rewrite app_nil_r.
  - destruct (h e); reflexivity.
Qed.

Lemma outcome_try_except {A : Type} (m : M A) (h : Exn -> M A) :
  outcome (try_except m h)
  = match outcome m with
    | Ok a => Ok a
    | Raise e => outcome (h e)
    end.
Proof.
  destruct m as [t [a|e]]; cbn; [|destruct (h e)]; reflexivity.
Qed.

Lemma bind_ok {A B : Type} (t : list Event) (a : A) (f : A -> M B) :
  bind (t, Ok a) f = (t ++ trace (f a), outcome (f a)).
Proof. cbn. destruct (f a); reflexivity. Qed.

(** ** Formatting *)

Lemma format_trace env e :
  trace (format_xml_with_indentation env e) = [EvPretty e].
Proof.
  unfold format_xml_with_indentation, call.
  destruct (toprettyxml env e); reflexivity.
Qed.

Lemma format_outcome_ok env e pretty :
  toprettyxml env e = Ok pretty ->
  outcome (format_xml_with_indentation env e) = Ok (with_declaration pretty).
Proof.
  intros H. unfold format_xml_with_indentation, call. now rewrite H.
Qed.

Lemma format_outcome_inv env e xml :
  outcome (format_xml_with_indentation env e) = Ok xml ->
  exists pretty, toprettyxml env e = Ok pretty /\ xml = with_declaration pretty.
Proof.
  unfold format_xml_with_indentation, call.
  destruct (toprettyxml env e) as [pretty|x]; cbn; [|discriminate].
  intros [= <-]. now exists pretty.
Qed.

Lemma startswith_app p s : startswith p (p ++ s) = true.
Proof.
  induction p as [|c p IH]; cbn; [reflexivity|].
  now rewrite Ascii.eqb_refl.
Qed.

Lemma with_declaration_starts pretty :
  startswith xml_declaration (with_declaration pretty) = true.
Proof. unfold with_declaration. apply startswith_app. Qed.

Lemma with_declaration_not_empty pretty : with_declaration pretty <> "".
Proof. unfold with_declaration. discriminate. Qed.

(** ** The request checks *)

Lemma valid_request_inv params :
  valid_request params = true ->
  String.eqb (dict_get "REQUEST" "" params) "doQuery" = true /\
  Re.matches_at_start lang_re (dict_get "LANG" "ADQL" params) = true /\
  String.eqb (dict_get "QUERY" "" params) "" = false.
Proof.
  unfold valid_request. intros H.
  apply andb_prop in H as [H H3]. apply andb_prop in H as [H1 H2].
  repeat split; try assumption. now apply negb_true_iff.
Qed.

Lemma sync_query_valid env params :
  valid_request params = true ->
  sync_query env params
  = try_except
      (process_query env (dict_get "QUERY" "" params)
         (lower (dict_get "FORMAT" "votable" params)))
      (processing_error env (dict_get "QUERY" "" params)).
Proof.
  intros H. apply valid_request_inv in H as (H1 & H2 & H3).
  unfold sync_query. rewrite H1, H2, H3. reflexivity.
Qed.

Lemma sync_query_invalid env params :
  valid_request params = false ->
  exists msg,
    sync_query env params
    = (xml <- create_error_votable env msg "" ;; ret (xml_response 400 xml)).
Proof.
  unfold valid_request, sync_query. intros H.
  destruct (String.eqb (dict_get "REQUEST" "" params) "doQuery");
    [|eexists; reflexivity].
  destruct (Re.matches_at_start lang_re (dict_get "LANG" "ADQL" params));
    [|eexists; reflexivity].
  destruct (String.eqb (dict_get "QUERY" "" params) "");
    [eexists; reflexivity | discriminate].
Qed.

(** ** The documents of [/sync] *)

Lemma votable_tree_is_success now data columns q table md :
  is_success_document q now
    (votable_tree now data columns [("query", q); ("table", table)] md).
Proof. repeat split. Qed.

Lemma error_tree_is_error_with_query msg q :
  q <> "" -> is_error_document (Some q) (error_tree msg q).
Proof.
  intros Hq. apply String.eqb_neq in Hq.
  unfold is_error_document, error_tree, info_value, infos, document_tables,
    descend, children_tagged.
  rewrite Hq. cbn. repeat split. now exists msg.
Qed.

Lemma error_tree_is_error_without_query msg :
  is_error_document None (error_tree msg "").
Proof. repeat split. now exists msg. Qed.

Lemma failure_document_valid env params :
  valid_request params = true ->
  failure_document env params
  = match outcome (process_query env (dict_get "QUERY" "" params)
                     (lower (dict_get "FORMAT" "votable" params))) with
    | Raise e =>
        Some (error_tree ("Error processing query: " ++ exn_str e)
                (dict_get "QUERY" "" params))
    | Ok _ => None
    end.
Proof.
  intros H. apply valid_request_inv in H as (H1 & H2 & H3).
  unfold failure_document. rewrite H1, H2, H3. reflexivity.
Qed.

Lemma failure_document_invalid env params :
  valid_request params = false ->
  exists msg,
    sync_query env params
    = (xml <- create_error_votable env msg "" ;; ret (xml_response 400 xml)) /\
    failure_document env params = Some (error_tree msg "").
Proof.
  unfold valid_request, sync_query, failure_document. intros H.
  destruct (String.eqb (dict_get "REQUEST" "" params) "doQuery");
    [|eexists; split; reflexivity].
  destruct (Re.matches_at_start lang_re (dict_get "LANG" "ADQL" params));
    [|eexists; split; reflexivity].
  destruct (String.eqb (dict_get "QUERY" "" params) "");
    [eexists; split; reflexivity | discriminate].
Qed.

Lemma error_response env msg q st :
  (exists pretty, toprettyxml env (error_tree msg q) = Ok pretty) ->
  exists resp,
    outcome (xml <- create_error_votable env msg q ;;
             ret (xml_response st xml)) = Ok resp /\
    status resp = st /\
    renders env (error_tree msg q) resp.
Proof.
  intros [pretty Hpretty].
  exists (xml_response st (with_declaration pretty)).
  rewrite outcome_bind. unfold create_error_votable.
  rewrite (format_outcome_ok _ _ Hpretty). cbn.
  repeat split. exists pretty. repeat split. exact Hpretty.
Qed.

(** What [process_query] returns when it returns. *)
Lemma process_query_returns env q fmt resp :
  outcome (process_query env q fmt) = Ok resp ->
  (exists data columns table md,
      status resp = 200%Z /\
      renders env
        (votable_tree (utcnow_isoformat env) data columns
           [("query", q); ("table", table)] md) resp) \/
  (status resp = 400%Z /\
   renders env (error_tree ("Unsupported format: " ++ fmt) q) resp).
Proof.
  unfold process_query. rewrite outcome_bind.
  match goal with |- context [outcome ?m] =>
    destruct (outcome m) as [[[data columns] table]|e] end; [|discriminate].
  rewrite outcome_bind.
  destruct (outcome (get_column_metadata (tap_schema_db env) table))
    as [md|e]; [|discriminate].
  destruct (mem_str fmt ["votable"; "votable/td"]).
  - rewrite outcome_bind. unfold create_votable_response.
    destruct (outcome (format_xml_with_indentation env _)) as [xml|e] eqn:E;
      [|discriminate].
    apply format_outcome_inv in E as [pretty [Hp ->]].
    cbn. intros [= <-]. left. exists data, columns, table, md.
    split; [reflexivity|]. exists pretty. repeat split. exact Hp.
  - rewrite outcome_bind. unfold create_error_votable.
    destruct (outcome (format_xml_with_indentation env _)) as [xml|e] eqn:E;
      [|discriminate].
    apply format_outcome_inv in E as [pretty [Hp ->]].
    cbn. intros [= <-]. right.
    split; [reflexivity|]. exists pretty. repeat split. exact Hp.
Qed.

(** C3 (as the code has it). Whenever the pretty-printer accepts the
    error document of the request -- the one of the parameter check it
    fails, or the one built when processing it raised; no condition
    when there is neither -- [sync_query] returns a response, and its
    body is never empty: it is the XML declaration followed by the
    rendering of a document. On the success path (status 200) the document carries
    QUERY_STATUS OK, the original query text, a timestamp and one
    table. On a failure path (status 400 or 500) it carries
    QUERY_STATUS ERROR and an error message, no table and no
    timestamp, and it carries the query text only when the request had
    passed the parameter checks. *)
Theorem sync_documents :
  forall env params,
    prints_failure_document env params ->
    exists resp doc,
      outcome (sync_query env params) = Ok resp /\
      renders env doc resp /\
      body resp <> "" /\
      startswith xml_declaration (body resp) = true /\
      ((status resp = 200%Z /\
        is_success_document (dict_get "QUERY" "" params)
          (utcnow_isoformat env) doc)
       \/
       ((status resp = 400%Z \/ status resp = 500%Z) /\
        is_error_document
          (if valid_request params
           then Some (dict_get "QUERY" "" params) else None) doc)).
Proof.
  intros env params Hp.
  assert (Hbody : forall doc resp, renders env doc resp ->
            body resp <> "" /\ startswith xml_declaration (body resp) = true).
  { intros doc resp (pretty & _ & -> & _). split.
    - apply with_declaration_not_empty.
    - apply with_declaration_starts. }
  destruct (valid_request params) eqn:Hv.
  - rewrite (sync_query_valid env _ Hv), outcome_try_except.
    pose proof (valid_request_inv _ Hv) as (_ & _ & Hq).
    apply String.eqb_neq in Hq.
    destruct (outcome (process_query env _ _)) as [resp|e] eqn:E.
    + apply process_query_returns in E
        as [(data & columns & table & md & Hs & Hr) | (Hs & Hr)].
      * exists resp. eexists. split; [reflexivity|]. split; [exact Hr|].
        destruct (Hbody _ _ Hr). repeat split; try assumption.
        left. split; [exact Hs|]. apply votable_tree_is_success.
      * exists resp. eexists. split; [reflexivity|]. split; [exact Hr|].
        destruct (Hbody _ _ Hr). repeat split; try assumption.
        right. split; [now left|].
        now apply error_tree_is_error_with_query.
    + unfold processing_error.
      destruct (@error_response env
                  ("Error processing query: " ++ exn_str e)
                  (dict_get "QUERY" "" params) 500)
        as (resp & Ho & Hs & Hr).
      { apply Hp. now rewrite (failure_document_valid env _ Hv), E. }
      exists resp. eexists. split; [exact Ho|]. split; [exact Hr|].
      destruct (Hbody _ _ Hr). repeat split; try assumption.
      right. split; [now right|].
      now apply error_tree_is_error_with_query.
  - destruct (failure_document_invalid env _ Hv) as (msg & -> & Hdoc).
    destruct (@error_response env msg "" 400 (Hp _ Hdoc))
      as (resp & Ho & Hs & Hr).
    exists resp. eexists. split; [exact Ho|]. split; [exact Hr|].
    destruct (Hbody _ _ Hr). repeat split; try assumption.
    right. split; [now left|]. apply error_tree_is_error_without_query.
Qed.

Lemma failure_document_is_error_tree env params doc :
  failure_document env params = Some doc ->
  exists msg q, doc = error_tree msg q.
Proof.
  destruct (valid_request params) eqn:Hv.
  - rewrite (failure_document_valid env _ Hv).
    destruct (outcome _); [discriminate|]. intros [= <-].
    eexists. eexists. reflexivity.
  - destruct (failure_document_invalid env _ Hv) as (msg & _ & ->).
    intros [= <-]. now exists msg, "".
Qed.

(** The stand-in pretty-printer accepts every error document. *)
Lemma demo_prints_failure_document (ent : Entities) (df : DataFrame)
    (db : TAPSchemaDatabase) (params : Dict string) :
  prints_failure_document (Demo.env ent df db) params.
Proof.
  intros doc Hdoc.
  apply failure_document_is_error_tree in Hdoc as (msg & q & ->).
  unfold error_tree. cbn.
  destruct (String.eqb q ""); cbn; eexists; reflexivity.
Qed.

Lemma sync_documents_witness :
  let params := [("REQUEST", "getCapabilities"); ("QUERY", demo_query)] in
  failure_document demo_env params
  = Some (error_tree
            "Invalid REQUEST parameter: getCapabilities. Must be 'doQuery'."
            "") /\
  prints_failure_document demo_env params /\
  exists resp doc,
    outcome (sync_query demo_env params) = Ok resp /\
    renders demo_env doc resp /\
    body resp <> "" /\
    startswith xml_declaration (body resp) = true /\
    ((status resp = 200%Z /\
      is_success_document (dict_get "QUERY" "" params)
        (utcnow_isoformat demo_env) doc)
     \/
     ((status resp = 400%Z \/ status resp = 500%Z) /\
      is_error_document
        (if valid_request params
         then Some (dict_get "QUERY" "" params) else None) doc)).
Proof.
  cbv zeta.
  split; [vm_compute; reflexivity|].
  split; [apply demo_prints_failure_document|].
  exact (@sync_documents demo_env
           [("REQUEST", "getCapabilities"); ("QUERY", demo_query)]
           (@demo_prints_failure_document _ _ _ _)).
Defined.

(** C3 as stated fails on the failure paths. A request rejected for
    its REQUEST parameter gets a document without the query text it
    sent and without a timestamp; a valid request for an unsupported
    format gets a document with the query text but without a
    timestamp. *)
Lemma error_documents_lack_timestamp_and_query :
  (let m := sync_query demo_env
              [("REQUEST", "getCapabilities"); ("QUERY", demo_query)] in
   exists resp doc,
     outcome m = Ok resp /\ status resp = 400%Z /\
     documents m = [doc] /\ renders demo_env doc resp /\
     info_value "QUERY_STATUS" doc = Some (VStr "ERROR") /\
     info_value "QUERY" doc = None /\
     info_value "TIMESTAMP" doc = None) /\
  (let m := sync_query demo_env
              [("REQUEST", "doQuery"); ("QUERY", demo_query);
               ("FORMAT", "csv")] in
   exists resp doc,
     outcome m = Ok resp /\ status resp = 400%Z /\
     documents m = [doc] /\ renders demo_env doc resp /\
     info_value "QUERY_STATUS" doc = Some (VStr "ERROR") /\
     info_value "QUERY" doc = Some (VStr demo_query) /\
     info_value "TIMESTAMP" doc = None).
Proof.
  split; cbv zeta.
  - eexists. eexists. split; [vm_compute; reflexivity|].
    split; [reflexivity|]. split; [vm_compute; reflexivity|].
    split; [eexists; split; [vm_compute; reflexivity|split; reflexivity]|].
    repeat split.
  - eexists. eexists. split; [vm_compute; reflexivity|].
    split; [reflexivity|]. split; [vm_compute; reflexivity|].
    split; [eexists; split; [vm_compute; reflexivity|split; reflexivity]|].
    repeat split.
Qed.

(** ** Failures of the metadata store *)

Lemma get_column_metadata_total db table :
  exists md, outcome (get_column_metadata db table) = Ok md.
Proof.
  unfold get_column_metadata.
  destruct (String.eqb table ""); [now exists []|].
  rewrite outcome_try_except.
  match goal with |- context [match outcome ?m with _ => _ end] =>
    destruct (outcome m) as [md|e] end.
  - now exists md.
  - now exists [].
Qed.








(** ** Column metadata lookup *)





(** ** The spatial predicate handed to lsdb *)

Lemma run_data_query_opens env q ent table others sf :
  parse_adql_entities env q = Ok ent ->
  ent_tables ent = table :: others ->
  search_filter_of (ent_spatial_search ent) = Ok sf ->
  exists tl,
    trace (run_data_query env q)
    = EvParse q
      :: EvOpenCatalog (catalog_url table) (ent_columns ent) sf
           (ent_conditions ent)
      :: tl.
Proof.
  intros Hparse Htables Hsf. unfold run_data_query, call, lift.
  rewrite Hparse, bind_ok, Htables, Hsf. cbn [trace app fst].
  rewrite trace_bind. cbn [trace fst app outcome snd].
  rewrite trace_bind. cbn [trace fst app]. eexists. reflexivity.
Qed.

Lemma sync_query_opens env params ent table others sf :
  valid_request params = true ->
  is_tap_schema_query (dict_get "QUERY" "" params) = false ->
  parse_adql_entities env (dict_get "QUERY" "" params) = Ok ent ->
  ent_tables ent = table :: others ->
  search_filter_of (ent_spatial_search ent) = Ok sf ->
  exists tl,
    trace (sync_query env params)
    = EvParse (dict_get "QUERY" "" params)
      :: EvOpenCatalog (catalog_url table) (ent_columns ent) sf
           (ent_conditions ent)
      :: tl.
Proof.
  intros Hv Htap Hparse Htables Hsf.
  rewrite (sync_query_valid env _ Hv), trace_try_except.
  unfold process_query. rewrite Htap, trace_bind.
  destruct (run_data_query_opens env _ Hparse Htables Hsf) as [tl ->].
  cbn [app]. eexists. reflexivity.
Qed.

(** C10. For a data query whose descriptor names a table and has a
    ConeSearch with ra, dec and radius, the call to
    [lsdb.open_catalog] receives a cone predicate with the same ra and
    dec and with radius_arcsec equal to the radius times 3600 (an int
    product for an int radius, a binary64 product for a float). *)
Theorem cone_search_in_arcseconds :
  forall env params ent table others ra dec radius,
    valid_request params = true ->
    is_tap_schema_query (dict_get "QUERY" "" params) = false ->
    parse_adql_entities env (dict_get "QUERY" "" params) = Ok ent ->
    ent_tables ent = table :: others ->
    ent_spatial_search ent = Some (ConeSearchD ra dec radius) ->
    exists cone tl,
      trace (sync_query env params)
      = EvParse (dict_get "QUERY" "" params)
        :: EvOpenCatalog (catalog_url table) (ent_columns ent) (Some cone)
             (ent_conditions ent)
        :: tl /\
      cs_ra cone = ra /\
      cs_dec cone = dec /\
      cs_radius_arcsec cone
      = match radius with
        | PInt z => PInt (z * 3600)
        | PFloat f => PFloat (f * 3600)%float
        end.
Proof.
  intros env params ent table others ra dec radius Hv Htap Hparse Htables Hsp.
  assert (Hsf : search_filter_of (ent_spatial_search ent)
                = Ok (Some (mkConeSearch ra dec (times_3600 radius))))
    by (rewrite Hsp; reflexivity).
  destruct (sync_query_opens env params Hv Htap Hparse Htables Hsf)
    as [tl Htl].
  exists (mkConeSearch ra dec (times_3600 radius)), tl.
  split; [exact Htl|]. repeat split.
Qed.

Lemma cone_search_in_arcseconds_witness :
  let params := [("REQUEST", "doQuery"); ("QUERY", demo_query)] in
  valid_request params = true /\
  is_tap_schema_query (dict_get "QUERY" "" params) = false /\
  parse_adql_entities demo_env (dict_get "QUERY" "" params)
  = Ok Demo.cone_entities /\
  exists cone tl,
    trace (sync_query demo_env params)
    = EvParse (dict_get "QUERY" "" params)
      :: EvOpenCatalog (catalog_url "gaia_dr3.gaia")
           (ent_columns Demo.cone_entities) (Some cone)
           (ent_conditions Demo.cone_entities)
      :: tl /\
    cs_ra cone = PFloat 270 /\
    cs_dec cone = PFloat 23 /\
    cs_radius_arcsec cone = PFloat (0.25 * 3600)%float.
Proof.
  cbv zeta.
  split; [vm_compute; reflexivity|].
  split; [vm_compute; reflexivity|].
  split; [reflexivity|].
  refine (@cone_search_in_arcseconds demo_env
            [("REQUEST", "doQuery"); ("QUERY", demo_query)]
            Demo.cone_entities "gaia_dr3.gaia" [] (PFloat 270) (PFloat 23)
            (PFloat 0.25) _ _ eq_refl eq_refl eq_refl).
  - vm_compute; reflexivity.
  - vm_compute; reflexivity.
Defined.

(** ** Spatial predicates other than a cone *)

Lemma search_filter_only_for_cone sp cone :
  search_filter_of sp = Ok (Some cone) ->
  exists ra dec radius,
    sp = Some (ConeSearchD ra dec radius) /\
    cone = mkConeSearch ra dec (times_3600 radius).
Proof.
  destruct sp as [[ra dec radius|coords|ty]|]; cbn.
  - intros [= <-]. now exists ra, dec, radius.
  - discriminate.
  - destruct (String.eqb ty "ConeSearch"); discriminate.
  - discriminate.
Qed.

Lemma search_filter_dropped s :
  spatial_type s <> "ConeSearch" -> search_filter_of (Some s) = Ok None.
Proof.
  intros H. apply String.eqb_neq in H. cbn. now rewrite H.
Qed.

(** C6. Only a ConeSearch descriptor is translated into a predicate
    for lsdb. For a data query whose spatial_search is any other
    variant, nothing is raised, [lsdb.open_catalog] is called with no
    search filter, and the request is answered exactly as the same
    request whose descriptor has no spatial_search at all: the same
    calls to the collaborators and the same response. *)
Theorem other_spatial_variants_dropped :
  forall env params ent table others s,
    valid_request params = true ->
    is_tap_schema_query (dict_get "QUERY" "" params) = false ->
    parse_adql_entities env (dict_get "QUERY" "" params) = Ok ent ->
    ent_tables ent = table :: others ->
    ent_spatial_search ent = Some s ->
    spatial_type s <> "ConeSearch" ->
    search_filter_of (Some s) = Ok None /\
    (exists tl,
        trace (sync_query env params)
        = EvParse (dict_get "QUERY" "" params)
          :: EvOpenCatalog (catalog_url table) (ent_columns ent) None
               (ent_conditions ent)
          :: tl) /\
    sync_query env params
    = sync_query (with_parser env (fun _ => Ok (without_spatial ent))) params /\
    (forall sp cone,
        search_filter_of sp = Ok (Some cone) ->
        exists ra dec radius, sp = Some (ConeSearchD ra dec radius)).
Proof.
  intros env params ent table others s Hv Htap Hparse Htables Hsp Hty.
  pose proof (search_filter_dropped s Hty) as Hdrop.
  split; [exact Hdrop|]. split.
  - apply (sync_query_opens env params Hv Htap Hparse Htables).
    now rewrite Hsp.
  - split.
    + rewrite !(sync_query_valid _ _ Hv). unfold processing_error.
      unfold process_query. rewrite Htap.
      unfold run_data_query, with_parser.
      cbn [parse_adql_entities lsdb tap_schema_db toprettyxml
           utcnow_isoformat].
      rewrite Hparse. unfold call. rewrite !bind_ok.
      cbn [without_spatial ent_tables ent_columns ent_conditions
           ent_spatial_search ent_limits].
      rewrite Hsp, Hdrop. reflexivity.
    + intros sp cone H.
      destruct (search_filter_only_for_cone sp H) as (ra & dec & r & -> & _).
      now exists ra, dec, r.
Qed.

Lemma other_spatial_variants_dropped_witness :
  let s := PolygonSearchD
             [ (PFloat 280, PFloat 30); (PFloat 281, PFloat 30);
               (PFloat 281, PFloat 29); (PFloat 279, PFloat 27) ] in
  valid_request polygon_request = true /\
  is_tap_schema_query (dict_get "QUERY" "" polygon_request) = false /\
  parse_adql_entities polygon_env (dict_get "QUERY" "" polygon_request)
  = Ok polygon_entities /\
  spatial_type s <> "ConeSearch" /\
  search_filter_of (Some s) = Ok None /\
  (exists tl,
      trace (sync_query polygon_env polygon_request)
      = EvParse (dict_get "QUERY" "" polygon_request)
        :: EvOpenCatalog (catalog_url "ztf_dr22")
             (ent_columns polygon_entities) None
             (ent_conditions polygon_entities)
        :: tl) /\
  sync_query polygon_env polygon_request
  = sync_query
      (with_parser polygon_env (fun _ => Ok (without_spatial polygon_entities)))
      polygon_request /\
  (forall sp cone,
      search_filter_of sp = Ok (Some cone) ->
      exists ra dec radius, sp = Some (ConeSearchD ra dec radius)).
Proof.
  cbv zeta.
  assert (Hty : spatial_type
                  (PolygonSearchD
                     [ (PFloat 280, PFloat 30); (PFloat 281, PFloat 30);
                       (PFloat 281, PFloat 29); (PFloat 279, PFloat 27) ])
                <> "ConeSearch") by discriminate.
  split; [vm_compute; reflexivity|].
  split; [vm_compute; reflexivity|].
  split; [reflexivity|].
  split; [exact Hty|].
  refine (@other_spatial_variants_dropped polygon_env polygon_request
            polygon_entities "ztf_dr22" [] _ _ _ eq_refl eq_refl eq_refl Hty).
  - vm_compute; reflexivity.
  - vm_compute; reflexivity.
Defined.

(** ** Classification *)

Lemma startswith_iff p s :
  startswith p s = true <-> exists post, s = (p ++ post)%string.
Proof.
  revert s. induction p as [|c p IH]; intros s; cbn.
  - split; [intros _; now exists s | reflexivity].
  - destruct s as [|d s].
    + split; [discriminate | intros [post H]; discriminate].
    + rewrite andb_true_iff, Ascii.eqb_eq, IH. split.
      * intros [-> [post ->]]. now exists post.
      * intros [post [= -> ->]]. split; [reflexivity | now exists post].
Qed.

Lemma contains_iff needle s :
  contains needle s = true
  <-> exists pre post, s = (pre ++ needle ++ post)%string.
Proof.
  induction s as [|c s IH].
  - cbn. rewrite orb_false_r, startswith_iff. split.
    + intros [post ->]. now exists "", post.
    + intros [[|d pre] [post H]]; [now exists post | discriminate].
  - cbn [contains]. rewrite orb_true_iff, startswith_iff, IH. split.
    + intros [[post ->] | (pre & post & ->)].
      * now exists "", post.
      * now exists (String c pre), post.
    + intros [[|d pre] [post H]].
      * left. now exists post.
      * right. injection H as -> ->. now exists pre, post.
Qed.

Lemma lower_app a b : lower (a ++ b) = (lower a ++ lower b)%string.
Proof.
  unfold lower. induction a as [|c a IH]; cbn; [reflexivity|].
  now rewrite IH.
Qed.

Lemma lower_split s : forall a b,
  lower s = (a ++ b)%string ->
  exists a' b', s = (a' ++ b')%string /\ lower a' = a /\ lower b' = b.
Proof.
  unfold lower. induction s as [|c s IH]; intros a b H.
  - destruct a; [|discriminate]. destruct b; [|discriminate].
    now exists "", "".
  - destruct a as [|d a].
    + exists "", (String c s). repeat split. exact H.
    + cbn in H. injection H as Hd H.
      destruct (IH _ _ H) as (a' & b' & -> & Ha & Hb).
      exists (String c a'), b'. repeat split; [|exact Hb].
      cbn. now rewrite Hd, Ha.
Qed.

Lemma is_tap_schema_query_iff q :
  is_tap_schema_query q = true <-> has_tap_schema_marker q.
Proof.
  unfold is_tap_schema_query, has_tap_schema_marker.
  destruct (String.eqb_spec q "") as [->|Hne].
  - split; [discriminate|].
    intros (pre & mid & post & H & Hmid).
    destruct pre; [|discriminate]. destruct mid; discriminate.
  - rewrite contains_iff. split.
    + intros (pre & post & H).
      apply lower_split in H as (pre' & rest & -> & _ & H).
      apply lower_split in H as (mid & post' & -> & Hmid & _).
      now exists pre', mid, post'.
    + intros (pre & mid & post & -> & Hmid).
      exists (lower pre), (lower post).
      now rewrite !lower_app, Hmid.
Qed.

Lemma Forall_trace_bind {A B : Type} (P : Event -> Prop) (m : M A)
    (f : A -> M B) :
  Forall P (trace m) -> (forall a, Forall P (trace (f a))) ->
  Forall P (trace (bind m f)).
Proof.
  intros Hm Hf. rewrite trace_bind. apply Forall_app. split; [exact Hm|].
  destruct (outcome m); [apply Hf | constructor].
Qed.

Lemma Forall_trace_try {A : Type} (P : Event -> Prop) (m : M A)
    (h : Exn -> M A) :
  Forall P (trace m) -> (forall e, Forall P (trace (h e))) ->
  Forall P (trace (try_except m h)).
Proof.
  intros Hm Hh. rewrite trace_try_except. apply Forall_app.
  split; [exact Hm|]. destruct (outcome m); [constructor | apply Hh].
Qed.

Lemma Forall_trace_call {A : Type} (P : Event -> Prop) ev (r : Exc A) :
  P ev -> Forall P (trace (call ev r)).
Proof. intros H. repeat constructor. exact H. Qed.

Lemma Forall_trace_pure {A : Type} (P : Event -> Prop) (r : Exc A) :
  Forall P (trace (lift r)).
Proof. constructor. Qed.

Lemma get_column_metadata_events db table :
  Forall store_lookup_event (trace (get_column_metadata db table)).
Proof.
  unfold get_column_metadata.
  destruct (String.eqb table ""); [constructor|].
  apply Forall_trace_try; [|intros; constructor].
  apply Forall_trace_bind; [now apply Forall_trace_call|]. intros _.
  apply Forall_trace_bind; [now apply Forall_trace_call|]. intros results.
  apply Forall_trace_bind; [|intros; apply Forall_trace_pure].
  destruct (is_nil results && negb (has_char dot table));
    [now apply Forall_trace_call | constructor].
Qed.

Lemma store_lookup_is_follow_up ev :
  store_lookup_event ev -> follow_up_event ev.
Proof. destruct ev; cbn; auto. Qed.

Lemma error_response_events env msg q st :
  Forall follow_up_event
    (trace (xml <- create_error_votable env msg q ;;
            ret (xml_response st xml))).
Proof.
  apply Forall_trace_bind; [|intros; constructor].
  unfold create_error_votable. rewrite format_trace. repeat constructor.
Qed.

(** After the branch is taken, nothing else is parsed or executed for
    the client. *)
Lemma after_classification_events env q fmt
    (found : list Row * list string * string) :
  Forall follow_up_event
    (trace (let '(data, result_columns, table_name) := found in
            column_metadata <-
              get_column_metadata (tap_schema_db env) table_name ;;
            (if mem_str fmt ["votable"; "votable/td"] then
               xml <- create_votable_response env data result_columns
                        [("query", q); ("table", table_name)]
                        column_metadata ;;
               ret (xml_response 200 xml)
             else
               xml <- create_error_votable env
                        ("Unsupported format: " ++ fmt) q ;;
               ret (xml_response 400 xml)))).
Proof.
  destruct found as [[data columns] table].
  apply Forall_trace_bind.
  - eapply Forall_impl; [|apply get_column_metadata_events].
    apply store_lookup_is_follow_up.
  - intros md. destruct (mem_str fmt ["votable"; "votable/td"]).
    + apply Forall_trace_bind; [|intros; constructor].
      unfold create_votable_response. rewrite format_trace.
      repeat constructor.
    + apply error_response_events.
Qed.

Lemma run_data_query_events env q :
  exists tl,
    trace (run_data_query env q) = EvParse q :: tl /\
    Forall follow_up_event tl.
Proof.
  unfold run_data_query. rewrite trace_bind. cbn [call trace fst app].
  eexists. split; [reflexivity|].
  destruct (outcome _) as [ent|e]; [|constructor].
  destruct (ent_tables ent) as [|table others]; [constructor|].
  apply Forall_trace_bind; [apply Forall_trace_pure|]. intros sf.
  apply Forall_trace_bind; [now apply Forall_trace_call|]. intros cat.
  apply Forall_trace_bind; [now apply Forall_trace_call|]. intros df.
  destruct (dataframe_to_votable_data df). constructor.
Qed.

(** The trace of a request that passes the checks: the event of its
    branch first, then only follow-up events. *)
Lemma sync_query_valid_trace env params :
  valid_request params = true ->
  exists tl,
    trace (sync_query env params)
    = (if is_tap_schema_query (dict_get "QUERY" "" params)
       then EvQueryWithColumns (dict_get "QUERY" "" params)
       else EvParse (dict_get "QUERY" "" params)) :: tl /\
    Forall follow_up_event tl.
Proof.
  intros Hv. rewrite (sync_query_valid env _ Hv), trace_try_except.
  set (q := dict_get "QUERY" "" params).
  set (fmt := lower (dict_get "FORMAT" "votable" params)).
  assert (Hh : Forall follow_up_event
                 match outcome (process_query env q fmt) with
                 | Ok _ => []
                 | Raise e => trace (processing_error env q e)
                 end).
  { destruct (outcome _); [constructor | apply error_response_events]. }
  unfold process_query in *. rewrite trace_bind.
  pose proof (after_classification_events env q fmt) as Hafter.
  destruct (is_tap_schema_query q).
  - rewrite trace_bind. unfold query_tap_schema at 1.
    rewrite trace_try_except. cbn [call trace fst app].
    eexists. split; [reflexivity|].
    rewrite <- !app_assoc.
    repeat (apply Forall_app; split); try exact Hh;
      match goal with
      | |- Forall _ (match ?o with _ => _ end) =>
          destruct o; try constructor; try apply Hafter
      end.
  - destruct (run_data_query_events env q) as (tl & -> & Htl).
    cbn [app]. eexists. split; [reflexivity|].
    repeat (apply Forall_app; split); try exact Hh; try exact Htl.
    match goal with
    | |- Forall _ (match ?o with _ => _ end) =>
        destruct o; [apply Hafter | constructor]
    end.
Qed.

Lemma sync_query_invalid_trace env params :
  valid_request params = false ->
  Forall follow_up_event (trace (sync_query env params)).
Proof.
  intros Hv. destruct (sync_query_invalid env _ Hv) as [msg ->].
  apply error_response_events.
Qed.

Lemma follow_up_not_in q (tl : list Event) :
  Forall follow_up_event tl ->
  ~ In (EvQueryWithColumns q) tl /\ ~ In (EvParse q) tl.
Proof.
  intros H. rewrite Forall_forall in H.
  split; intros Hin; apply H in Hin; exact Hin.
Qed.

(** C8 (as the code has it). The classifier is true exactly on the
    texts that contain tap_schema. in some casing, and false on the
    empty text. A request that passes the parameter checks (REQUEST is
    doQuery, LANG starts with adql, QUERY is not empty) is executed
    against the metadata store exactly when its query text has the
    marker, and is handed to the ADQL parser exactly when it has not;
    either is the first thing that happens. A request that fails a
    check -- one with an empty query text among them -- is neither
    executed against the store nor treated as a data query. *)
Theorem request_classification :
  forall env params,
    let q := dict_get "QUERY" "" params in
    let m := sync_query env params in
    (is_tap_schema_query q = true <-> has_tap_schema_marker q) /\
    is_tap_schema_query "" = false /\
    (q = "" -> valid_request params = false) /\
    (valid_request params = true ->
     (routed_to_store m q <-> has_tap_schema_marker q) /\
     (treated_as_data_query m q <-> ~ has_tap_schema_marker q) /\
     hd_error (trace m)
     = Some (if is_tap_schema_query q
             then EvQueryWithColumns q else EvParse q)) /\
    (valid_request params = false ->
     forall q', ~ routed_to_store m q' /\ ~ treated_as_data_query m q').
Proof.
  intros env params q m.
  split; [apply is_tap_schema_query_iff|]. split; [reflexivity|].
  split.
  { intros Hq. unfold valid_request. fold q. rewrite Hq.
    cbn. now rewrite andb_false_r. }
  split.
  - intros Hv. unfold routed_to_store, treated_as_data_query. subst m.
    destruct (sync_query_valid_trace env params Hv) as (tl & Ht & Htl).
    fold q in Ht. rewrite Ht.
    destruct (follow_up_not_in q Htl) as [Hs Hp].
    rewrite <- is_tap_schema_query_iff.
    destruct (is_tap_schema_query q); cbn [In hd_error].
    + split; [|split]; [ | |reflexivity].
      * split; [reflexivity | intros _; now left].
      * split; [intros [H|H]; [discriminate | contradiction]
               | intros H; now contradiction H].
    + split; [|split]; [ | |reflexivity].
      * split; [intros [H|H]; [discriminate | contradiction] | discriminate].
      * split; [discriminate | intros _; now left].
  - intros Hv q'. unfold routed_to_store, treated_as_data_query. subst m.
    apply follow_up_not_in. now apply sync_query_invalid_trace.
Qed.

(** C8 as stated fails for a request with an empty query text: it is
    not routed to the store, and it is not treated as a data query
    either; it is rejected with status 400 before anything is parsed. *)
Lemma empty_query_is_not_a_data_query :
  let params := [("REQUEST", "doQuery"); ("LANG", "ADQL"); ("QUERY", "")] in
  let m := sync_query demo_env params in
  is_tap_schema_query (dict_get "QUERY" "" params) = false /\
  ~ routed_to_store m "" /\
  ~ treated_as_data_query m "" /\
  trace m = [EvPretty (error_tree "Missing required parameter: QUERY" "")] /\
  exists resp, outcome m = Ok resp /\ status resp = 400%Z.
Proof.
  cbv zeta. split; [reflexivity|].
  assert (Ht : trace (sync_query demo_env
                        [("REQUEST", "doQuery"); ("LANG", "ADQL");
                         ("QUERY", "")])
               = [EvPretty (error_tree "Missing required parameter: QUERY" "")])
    by (vm_compute; reflexivity).
  unfold routed_to_store, treated_as_data_query. rewrite Ht.
  split; [intros [H|[]]; discriminate|].
  split; [intros [H|[]]; discriminate|].
  split; [reflexivity|].
  eexists. split; [vm_compute; reflexivity | reflexivity].
Qed.

(** ** The tables document *)

Lemma mentions_tag_unfold t tag a x cs :
  mentions_tag t (Elem tag a x cs)
  = String.eqb tag t || existsb (mentions_tag t) cs.
Proof.
  reflexivity.
Qed.

Lemma for_each_outcome {A B : Type} (P : B -> Prop) (f : A -> M B) xs :
  (forall x y, outcome (f x) = Ok y -> P y) ->
  forall ys, outcome (for_each f xs) = Ok ys -> Forall P ys.
Proof.
  intros Hf. induction xs as [|x xs IH]; cbn [for_each]; intros ys.
  - intros [= <-]. constructor.
  - rewrite outcome_bind.
    destruct (outcome (f x)) as [y|e] eqn:Ey; [|discriminate].
    rewrite outcome_bind.
    destruct (outcome (for_each f xs)) as [ys'|e]; [|discriminate].
    cbn. intros [= <-]. constructor; [now apply (Hf x) | now apply IH].
Qed.

Lemma optional_elem_no_foreign_key row key tag :
  tag <> "foreignKey" ->
  existsb (mentions_tag "foreignKey") (optional_elem row key tag) = false.
Proof.
  intros Ht. apply String.eqb_neq in Ht. unfold optional_elem.
  destruct (truthy _); cbn; [|reflexivity]. now rewrite Ht.
Qed.

Lemma existsb_false_Forall {A : Type} (p : A -> bool) l :
  Forall (fun x => p x = false) l -> existsb p l = false.
Proof.
  induction 1 as [|x l Hx _ IH]; cbn; [reflexivity|]. now rewrite Hx, IH.
Qed.

Lemma column_element_no_foreign_key row e :
  outcome (column_element row) = Ok e ->
  mentions_tag "foreignKey" e = false.
Proof.
  unfold column_element, lift. rewrite outcome_bind. cbn [outcome snd].
  destruct (item "column_name" row) as [name|x]; [|discriminate].
  cbn. intros [= <-]. rewrite mentions_tag_unfold.
  cbn [String.eqb Ascii.eqb Bool.eqb orb existsb text_elem].
  rewrite !existsb_app, !optional_elem_no_foreign_key by discriminate.
  reflexivity.
Qed.

Lemma table_element_no_foreign_key db schema row e :
  outcome (table_element db schema row) = Ok e ->
  mentions_tag "foreignKey" e = false.
Proof.
  unfold table_element, lift. rewrite outcome_bind. cbn [outcome snd].
  destruct (item "table_name" row) as [name|x]; [|discriminate].
  rewrite outcome_bind.
  destruct (outcome (call _ _)) as [columns|x]; [|discriminate].
  rewrite outcome_bind.
  destruct (outcome (for_each column_element columns)) as [es|x] eqn:E;
    [|discriminate].
  cbn. intros [= <-]. rewrite mentions_tag_unfold.
  cbn [String.eqb Ascii.eqb Bool.eqb orb existsb text_elem].
  rewrite !existsb_app, optional_elem_no_foreign_key by discriminate.
  cbn. apply existsb_false_Forall.
  eapply for_each_outcome; [|exact E].
  intros r y. apply column_element_no_foreign_key.
Qed.

Lemma schema_element_no_foreign_key db row e :
  outcome (schema_element db row) = Ok e ->
  mentions_tag "foreignKey" e = false.
Proof.
  unfold schema_element, lift. rewrite outcome_bind. cbn [outcome snd].
  destruct (item "schema_name" row) as [name|x]; [|discriminate].
  rewrite outcome_bind.
  destruct (outcome (call _ _)) as [tbls|x]; [|discriminate].
  rewrite outcome_bind.
  destruct (outcome (for_each (table_element db name) tbls)) as [es|x] eqn:E;
    [|discriminate].
  cbn. intros [= <-]. rewrite mentions_tag_unfold.
  cbn [String.eqb Ascii.eqb Bool.eqb orb existsb text_elem].
  rewrite !existsb_app, optional_elem_no_foreign_key by discriminate.
  cbn. apply existsb_false_Forall.
  eapply for_each_outcome; [|exact E].
  intros r y. apply table_element_no_foreign_key.
Qed.

(** Whatever the store holds, the tree of the tables document has no
    foreignKey element. *)
Lemma tableset_tree_no_foreign_key db doc :
  outcome (tableset_tree db) = Ok doc ->
  mentions_tag "foreignKey" doc = false.
Proof.
  unfold tableset_tree. rewrite outcome_bind.
  destruct (outcome (call _ _)) as [[]|x]; [|discriminate].
  rewrite outcome_bind.
  destruct (outcome (call _ _)) as [schemas|x]; [|discriminate].
  rewrite outcome_bind.
  destruct (outcome (for_each (schema_element db) schemas)) as [es|x] eqn:E;
    [|discriminate].
  cbn. intros [= <-]. rewrite mentions_tag_unfold. cbn.
  apply existsb_false_Forall.
  eapply for_each_outcome; [|exact E].
  intros r y. apply schema_element_no_foreign_key.
Qed.

(** C5, on the store of the repository's tables test (one schema, two
    tables, five columns, one foreign key from gaia_dr3.gaia to
    gaia_dr3.parents). The tables document is built from the schemas,
    tables and columns relations only: no statement reads keys or
    key_columns, the document has no foreignKey element, and it lists
    both tables, the route taking nothing from the request by which a
    single table could be chosen. *)
Theorem tables_document_omits_foreign_keys :
  let m := tables demo_env in
  Store.keys Demo.gaia_store
  = [Store.mkKey "fk_parent" "gaia_dr3.gaia" "gaia_dr3.parents"
       (VStr "Parent relation")] /\
  Store.key_columns Demo.gaia_store
  = [Store.mkKeyColumn "fk_parent" "parent_id" "id"] /\
  Forall tables_walk_event (trace m) /\
  exists resp doc,
    outcome m = Ok resp /\ status resp = 200%Z /\
    documents m = [doc] /\ renders demo_env doc resp /\
    mentions_tag "foreignKey" doc = false /\
    mentions_tag "column" doc = true /\
    tableset_table_names doc = [VStr "gaia"; VStr "parents"].
Proof.
  cbv zeta. split; [reflexivity|]. split; [reflexivity|]. split.
  - vm_compute. repeat (apply Forall_cons; [auto|]). apply Forall_nil.
  - eexists. eexists. split; [vm_compute; reflexivity|].
    split; [reflexivity|]. split; [vm_compute; reflexivity|].
    split; [eexists; split; [vm_compute; reflexivity|split; reflexivity]|].
    repeat split.
Qed.

(** ** The classes of the FROM pattern *)

Arguments Uni.is_word : simpl never.
Arguments Uni.is_space : simpl never.
Arguments Uni.ident_start : simpl never.
Arguments Uni.ident_char : simpl never.
Arguments Uni.letter_i : simpl never.

Lemma enum_from_In n : forall lo c,
  (lo <= c)%N -> (c < lo + N.of_nat n)%N -> In c (enum_from lo n).
Proof.
  induction n as [|n IH]; intros lo c H1 H2; [lia|].
  cbn [enum_from]. destruct (N.eq_dec c lo) as [->|Hne]; [now left|].
  right. apply IH; lia.
Qed.

Lemma in_ranges_enum rs c : Uni.in_ranges rs c = true -> In c (enum rs).
Proof.
  unfold Uni.in_ranges, enum. intros H.
  apply existsb_exists in H as (r & Hin & H).
  apply andb_prop in H as [H1 H2].
  apply N.leb_le in H1, H2. apply in_flat_map. exists r.
  split; [exact Hin|]. apply enum_from_In; lia.
Qed.

(** A property of every code point of a class, by enumeration. *)
Lemma class_forall (P : N -> bool) rs :
  forallb P (enum rs) = true ->
  forall c, Uni.in_ranges rs c = true -> P c = true.
Proof.
  intros H c Hc. rewrite forallb_forall in H.
  now apply H, in_ranges_enum.
Qed.

Lemma space_not_ident_start c :
  Uni.is_space c = true -> Uni.ident_start c = false.
Proof.
  intros H. apply negb_true_iff. revert c H.
  apply (class_forall (fun c => negb (Uni.ident_start c))).
  vm_compute. reflexivity.
Qed.

Lemma ident_start_char c : Uni.ident_start c = true -> Uni.ident_char c = true.
Proof. revert c. apply class_forall. vm_compute. reflexivity. Qed.

Lemma ident_char_word c : Uni.ident_char c = true -> Uni.is_word c = true.
Proof. revert c. apply class_forall. vm_compute. reflexivity. Qed.

Lemma ident_char_not_dot c :
  Uni.ident_char c = true -> N.eqb Uni.dot c = false.
Proof.
  intros H. apply negb_true_iff. revert c H.
  apply (class_forall (fun c => negb (N.eqb Uni.dot c))).
  vm_compute. reflexivity.
Qed.

Lemma word_not_ident_char c : Uni.is_word c = false -> Uni.ident_char c = false.
Proof.
  intros H. destruct (Uni.ident_char c) eqn:E; [|reflexivity].
  apply ident_char_word in E. congruence.
Qed.

Lemma letter_i_word x c :
  In x [70; 82; 79; 77]%N -> Uni.letter_i x c = true -> Uni.is_word c = true.
Proof.
  unfold Uni.letter_i. intros Hx H.
  apply orb_prop in H as [H|H]; apply N.eqb_eq in H; subst c;
    repeat (destruct Hx as [<-|Hx]; [vm_compute; reflexivity|]);
    destruct Hx.
Qed.

Lemma dot_not_word : Uni.is_word Uni.dot = false.
Proof. vm_compute. reflexivity. Qed.

(** ** The matcher on the FROM pattern *)

Lemma span_append p s : fst (span p s) ++ snd (span p s) = s.
Proof.
  induction s as [|c s IH]; cbn; [reflexivity|].
  destruct (p c); [|reflexivity].
  destruct (span p s) as [a b]. cbn in *. now rewrite IH.
Qed.

Lemma span_all p s : forallb p (fst (span p s)) = true.
Proof.
  induction s as [|c s IH]; cbn; [reflexivity|].
  destruct (p c) eqn:E; [|reflexivity].
  destruct (span p s) as [a b]. cbn [fst snd forallb] in *.
  rewrite E. exact IH.
Qed.

Lemma span_stops p s :
  match snd (span p s) with
  | c :: _ => p c = false
  | [] => True
  end.
Proof.
  induction s as [|c s IH]; cbn; [exact I|].
  destruct (p c) eqn:E; [|exact E].
  destruct (span p s) as [a b]. exact IH.
Qed.

(** A run of a class followed by a character outside it is the span. *)
Lemma span_exact p a b :
  forallb p a = true ->
  match b with c :: _ => p c = false | [] => True end ->
  span p (a ++ b) = (a, b).
Proof.
  intros Ha Hb. induction a as [|c a IH].
  - destruct b as [|c b]; cbn; [reflexivity | now rewrite Hb].
  - cbn [forallb] in Ha. apply andb_prop in Ha as [Hc Ha].
    cbn. now rewrite Hc, (IH Ha).
Qed.

Lemma take_length (a b : Uni.text) : firstn (List.length a) (a ++ b) = a.
Proof. induction a as [|c a IH]; cbn; [now destruct b | now rewrite IH]. Qed.

(** Greedy repetition before a continuation that cannot start on a
    character of the class goes straight to the end of the run. The
    invariant [P] is what the continuation may assume of the character
    before the position. *)
Lemma star_to_span {A : Type} (p : N -> bool) (g : option Uni.text)
    (k : URe.state -> option A) (P : option N -> Prop) :
  (forall pr c s' n, p c = true -> P pr ->
                     k (URe.mkState pr (c :: s') n g) = None) ->
  (forall c, p c = true -> P (Some c)) ->
  forall s pr n, P pr ->
    URe.star p s pr n g k
    = k (URe.mkState (last_char pr (fst (span p s))) (snd (span p s))
           (n + List.length (fst (span p s))) g).
Proof.
  intros Hk HP. induction s as [|c s IH]; intros pr n Hpr; cbn.
  - now rewrite Nat.add_0_r.
  - destruct (p c) eqn:E.
    + rewrite (IH (Some c) (S n) (HP c E)).
      destruct (span p s) as [a b]. cbn [fst snd last_char List.length].
      rewrite Nat.add_succ_r. cbn [Nat.add].
      destruct (k _) eqn:Ek; [reflexivity|].
      now apply Hk.
    + cbn. now rewrite Nat.add_0_r.
Qed.

Lemma last_char_word pr s :
  word_prev pr -> forallb Uni.ident_char s = true ->
  word_prev (last_char pr s).
Proof.
  revert pr. induction s as [|c s IH]; intros pr Hpr Hs; cbn; [exact Hpr|].
  cbn [forallb] in Hs. apply andb_prop in Hs as [Hc Hs].
  apply IH; [|exact Hs]. exists c. split; [reflexivity|].
  now apply ident_char_word.
Qed.

Lemma close_group_after_word n0 s0 pr r m g :
  word_prev pr ->
  close_group n0 s0 (URe.mkState pr r m g)
  = if starts_with_word r then None else Some (Some (firstn (m - n0) s0)).
Proof.
  intros (c & -> & Hc). unfold close_group. cbn.
  unfold URe.at_boundary, URe.word_before, URe.word_after. cbn.
  rewrite Hc. unfold starts_with_word. destruct r as [|d r]; cbn.
  - reflexivity.
  - destruct (Uni.is_word d); reflexivity.
Qed.

Lemma close_group_inside_word n0 s0 pr c s' m g :
  Uni.ident_char c = true -> word_prev pr ->
  close_group n0 s0 (URe.mkState pr (c :: s') m g) = None.
Proof.
  intros Hc Hpr. rewrite close_group_after_word by exact Hpr.
  cbn. now rewrite (ident_char_word _ Hc).
Qed.

(** An identifier, before a continuation that fails inside a word. *)
Lemma run_identifier {A : Type} (k : URe.state -> option A) g pr s m :
  (forall pr c s' n, Uni.ident_char c = true -> word_prev pr ->
                     k (URe.mkState pr (c :: s') n g) = None) ->
  URe.run identifier_re (URe.mkState pr s m g) k
  = match s with
    | b :: r =>
        if Uni.ident_start b then
          k (URe.mkState (last_char (Some b) (fst (span Uni.ident_char r)))
               (snd (span Uni.ident_char r))
               (S m + List.length (fst (span Uni.ident_char r))) g)
        else None
    | [] => None
    end.
Proof.
  intros Hk. unfold identifier_re. cbn [URe.run URe.rest].
  destruct s as [|b r]; [reflexivity|].
  destruct (Uni.ident_start b) eqn:Hb; [|reflexivity].
  unfold URe.advance. cbn [URe.rest URe.prev URe.pos URe.group1].
  apply (star_to_span Uni.ident_char g k word_prev Hk).
  - intros c Hc. exists c. split; [reflexivity | now apply ident_char_word].
  - exists b. split; [reflexivity|].
    now apply ident_char_word, ident_start_char.
Qed.

#[local] Opaque identifier_re.

(** The optional second identifier, then the end of the pattern. *)
Lemma run_dotted_tail n0 s0 pr r m g :
  word_prev pr ->
  URe.run (URe.Opt (URe.Seq (URe.Class (N.eqb Uni.dot)) identifier_re))
    (URe.mkState pr r m g) (close_group n0 s0)
  = let plain :=
      if starts_with_word r then None
      else Some (Some (firstn (m - n0) s0)) in
    match r with
    | d :: b :: r5 =>
        if N.eqb Uni.dot d && Uni.ident_start b then
          let (id2, r6) := span Uni.ident_char r5 in
          if starts_with_word r6 then Some (Some (firstn (m - n0) s0))
          else Some (Some (firstn (S (S m) + List.length id2 - n0) s0))
        else plain
    | _ => plain
    end.
Proof.
  intros Hpr. cbn [URe.run URe.rest].
  rewrite (close_group_after_word n0 s0 r m g Hpr).
  destruct r as [|d r]; [reflexivity|].
  destruct (N.eqb Uni.dot d) eqn:Hd; cbn [andb].
  - unfold URe.advance. cbn [URe.prev URe.pos URe.group1 URe.rest].
    rewrite run_identifier by (intros; now apply close_group_inside_word).
    apply N.eqb_eq in Hd. subst d.
    assert (Hdot : starts_with_word (Uni.dot :: r) = false)
      by exact dot_not_word.
    rewrite Hdot.
    destruct r as [|b r5]; [reflexivity|].
    destruct (Uni.ident_start b) eqn:Hb; [|reflexivity].
    pose proof (span_all Uni.ident_char r5) as Hall.
    destruct (span Uni.ident_char r5) as [id2 r6]. cbn [fst snd] in *.
    rewrite close_group_after_word.
    + destruct (starts_with_word r6); reflexivity.
    + apply last_char_word; [|exact Hall].
      exists b. split; [reflexivity|].
      now apply ident_char_word, ident_start_char.
  - destruct (starts_with_word (d :: r)); destruct r; reflexivity.
Qed.

Lemma take_prefix (x y : Uni.text) m k :
  k = (m + List.length x)%nat -> firstn (k - m) (x ++ y) = x.
Proof.
  intros ->. replace (m + List.length x - m)%nat with (List.length x)
    by lia. apply take_length.
Qed.

(** Group 1 and the final boundary, from the first character of the
    candidate. *)
Lemma run_table_group pr s m :
  URe.run
    (URe.Group
       (URe.Seq identifier_re
          (URe.Opt (URe.Seq (URe.Class (N.eqb Uni.dot)) identifier_re))))
    (URe.mkState pr s m None)
    (fun st => URe.run URe.Boundary st (fun st' => Some (URe.group1 st')))
  = match s with
    | a :: r3 =>
        if Uni.ident_start a then
          let (id1, r4) := span Uni.ident_char r3 in
          let first := a :: id1 in
          let plain :=
            if starts_with_word r4 then None else Some (Some first) in
          match r4 with
          | d :: b :: r5 =>
              if N.eqb Uni.dot d && Uni.ident_start b then
                let (id2, r6) := span Uni.ident_char r5 in
                if starts_with_word r6 then Some (Some first)
                else Some (Some (first ++ [Uni.dot] ++ b :: id2))
              else plain
          | _ => plain
          end
        else None
    | [] => None
    end.
Proof.
  change (URe.run identifier_re (URe.mkState pr s m None)
            (fun st1 =>
               URe.run
                 (URe.Opt (URe.Seq (URe.Class (N.eqb Uni.dot)) identifier_re))
                 st1 (close_group m s))
          = match s with
            | a :: r3 =>
                if Uni.ident_start a then
                  let (id1, r4) := span Uni.ident_char r3 in
                  let first := a :: id1 in
                  let plain :=
                    if starts_with_word r4 then None
                    else Some (Some first) in
                  match r4 with
                  | d :: b :: r5 =>
                      if N.eqb Uni.dot d && Uni.ident_start b then
                        let (id2, r6) := span Uni.ident_char r5 in
                        if starts_with_word r6 then Some (Some first)
                        else Some (Some (first ++ [Uni.dot] ++ b :: id2))
                      else plain
                  | _ => plain
                  end
                else None
            | [] => None
            end).
  assert (Hword : forall b id, Uni.ident_start b = true ->
                    forallb Uni.ident_char id = true ->
                    word_prev (last_char (Some b) id)).
  { intros b id Hb Hid. apply last_char_word; [|exact Hid].
    exists b. split; [reflexivity|].
    now apply ident_char_word, ident_start_char. }
  rewrite run_identifier.
  - destruct s as [|a r3]; [reflexivity|].
    destruct (Uni.ident_start a) eqn:Ha; [|reflexivity].
    pose proof (span_all Uni.ident_char r3) as Hall1.
    pose proof (span_append Uni.ident_char r3) as Happ1.
    destruct (span Uni.ident_char r3) as [id1 r4]. cbn [fst snd] in *.
    rewrite run_dotted_tail by (now apply Hword).
    cbv zeta.
    assert (Hfirst : firstn (S m + List.length id1 - m) (a :: r3)
                     = a :: id1).
    { rewrite <- Happ1.
      change (a :: id1 ++ r4) with ((a :: id1) ++ r4).
      apply take_prefix. cbn. lia. }
    rewrite Hfirst.
    destruct r4 as [|d [|b r5]]; try reflexivity.
    destruct (N.eqb Uni.dot d && Uni.ident_start b) eqn:Hdb; [|reflexivity].
    apply andb_prop in Hdb as [Hd Hb]. apply N.eqb_eq in Hd. subst d.
    pose proof (span_append Uni.ident_char r5) as Happ2.
    destruct (span Uni.ident_char r5) as [id2 r6]. cbn [fst snd] in *.
    destruct (starts_with_word r6); [reflexivity|].
    do 2 f_equal. rewrite <- Happ1, <- Happ2.
    change (a :: id1 ++ Uni.dot :: b :: id2 ++ r6)
      with ((a :: id1) ++ [Uni.dot] ++ (b :: id2) ++ r6).
    replace ((a :: id1) ++ [Uni.dot] ++ (b :: id2) ++ r6)
      with (((a :: id1) ++ [Uni.dot] ++ b :: id2) ++ r6)
      by (now rewrite <- !app_assoc).
    apply take_prefix. rewrite !length_app. cbn. lia.
  - intros pr' c s' n Hc Hpr'. rewrite run_dotted_tail by exact Hpr'.
    cbv zeta. assert (Hw : starts_with_word (c :: s') = true)
      by (cbn; now apply ident_char_word).
    rewrite Hw. destruct s' as [|b r5]; [reflexivity|].
    now rewrite (ident_char_not_dot _ Hc).
Qed.

(** The matcher on the FROM pattern computes [from_table_at]. *)
Lemma run_from_table_re pr s n :
  URe.run from_table_re (URe.mkState pr s n None)
    (fun st => Some (URe.group1 st))
  = option_map Some (from_table_at pr s).
Proof.
  set (K := fun st1 : URe.state =>
              URe.run
                (URe.Group
                   (URe.Seq identifier_re
                      (URe.Opt
                         (URe.Seq (URe.Class (N.eqb Uni.dot)) identifier_re))))
                st1
                (fun st2 =>
                   URe.run URe.Boundary st2
                     (fun st' => Some (URe.group1 st')))).
  change (URe.run from_table_re (URe.mkState pr s n None)
            (fun st => Some (URe.group1 st)))
    with
    (if xorb (match pr with Some c => Uni.is_word c | None => false end)
          (starts_with_word s)
     then
       match s with
       | c1 :: s1 =>
           if Uni.letter_i 70 c1 then
             match s1 with
             | c2 :: s2 =>
                 if Uni.letter_i 82 c2 then
                   match s2 with
                   | c3 :: s3 =>
                       if Uni.letter_i 79 c3 then
                         match s3 with
                         | c4 :: s4 =>
                             if Uni.letter_i 77 c4 then
                               match s4 with
                               | w :: r1 =>
                                   if Uni.is_space w then
                                     URe.star Uni.is_space r1 (Some w)
                                       (S (S (S (S (S n))))) None K
                                   else None
                               | [] => None
                               end
                             else None
                         | [] => None
                         end
                       else None
                   | [] => None
                   end
                 else None
             | [] => None
             end
           else None
       | [] => None
       end
     else None).
  unfold from_table_at.
  destruct (xorb _ (starts_with_word s)); cbn [negb]; [|reflexivity].
  destruct s as [|c1 [|c2 [|c3 [|c4 s4]]]];
    try reflexivity;
    repeat match goal with
           | |- context [Uni.letter_i ?x ?c] =>
               destruct (Uni.letter_i x c); cbn [andb]
           end; try reflexivity.
  destruct s4 as [|w r1]; [reflexivity|].
  destruct (Uni.is_space w); [|reflexivity].
  rewrite (star_to_span Uni.is_space None K (fun _ => True)); auto.
  - unfold K. rewrite run_table_group.
    destruct (snd (span Uni.is_space r1)) as [|a r3]; [reflexivity|].
    destruct (Uni.ident_start a); [|reflexivity].
    destruct (span Uni.ident_char r3) as [id1 r4]. cbv zeta.
    destruct r4 as [|d [|b r5]];
      try (destruct (starts_with_word _); reflexivity).
    destruct (N.eqb Uni.dot d && Uni.ident_start b).
    + destruct (span Uni.ident_char r5) as [id2 r6].
      destruct (starts_with_word r6); reflexivity.
    + destruct (starts_with_word _); reflexivity.
  - intros pr' c s' m Hc _. unfold K. rewrite run_table_group.
    now rewrite (space_not_ident_start _ Hc).
Qed.

Lemma search_from_table_re pr s n :
  URe.search_from from_table_re pr s n = option_map Some (find_from pr s).
Proof.
  revert pr n. induction s as [|c s IH]; intros pr n;
    cbn [URe.search_from find_from]; rewrite run_from_table_re;
    destruct (from_table_at pr _); cbn [option_map]; try reflexivity.
  apply IH.
Qed.

Lemma search_from_table_re_find q :
  URe.search from_table_re q = option_map Some (find_from None q).
Proof. apply search_from_table_re. Qed.

(** ** The candidate at one position is an occurrence, and the longest *)

Lemma span_pair p s : span p s = (fst (span p s), snd (span p s)).
Proof. now destruct (span p s). Qed.

Lemma from_marker_inv kw :
  is_from_marker kw = true ->
  exists c1 c2 c3 c4,
    kw = [c1; c2; c3; c4] /\
    Uni.letter_i 70 c1 = true /\ Uni.letter_i 82 c2 = true /\
    Uni.letter_i 79 c3 = true /\ Uni.letter_i 77 c4 = true.
Proof.
  destruct kw as [|c1 [|c2 [|c3 [|c4 [|c5 kw]]]]]; cbn; try discriminate.
  intros H. apply andb_prop in H as [H H4]. apply andb_prop in H as [H H3].
  apply andb_prop in H as [H1 H2]. now exists c1, c2, c3, c4.
Qed.

(** What [from_table_at] needs in order to answer, spelled out. *)
Lemma from_table_at_inv pr s cand :
  from_table_at pr s = Some cand ->
  exists kw w ws a id1 r4,
    s = kw ++ (w :: ws) ++ (a :: id1) ++ r4 /\
    (match pr with Some c => Uni.is_word c | None => false end) = false /\
    is_from_marker kw = true /\
    Uni.is_space w = true /\ forallb Uni.is_space ws = true /\
    Uni.ident_start a = true /\ forallb Uni.ident_char id1 = true /\
    match r4 with c :: _ => Uni.ident_char c = false | [] => True end /\
    ((cand = a :: id1 /\
      (starts_with_word r4 = false \/
       exists b r5, r4 = Uni.dot :: b :: r5 /\ Uni.ident_start b = true /\
                    starts_with_word (snd (span Uni.ident_char r5)) = true))
     \/
     (exists b id2 r6,
         r4 = (Uni.dot :: b :: id2) ++ r6 /\
         Uni.ident_start b = true /\ forallb Uni.ident_char id2 = true /\
         starts_with_word r6 = false /\
         cand = (a :: id1) ++ [Uni.dot] ++ b :: id2)).
Proof.
  unfold from_table_at.
  destruct (xorb _ (starts_with_word s)) eqn:Hb; cbn [negb]; [|discriminate].
  destruct s as [|c1 [|c2 [|c3 [|c4 s4]]]]; try discriminate.
  destruct (Uni.letter_i 70 c1) eqn:H1; [|discriminate].
  destruct (Uni.letter_i 82 c2) eqn:H2; [|discriminate].
  destruct (Uni.letter_i 79 c3) eqn:H3; [|discriminate].
  destruct (Uni.letter_i 77 c4) eqn:H4; [|discriminate].
  cbn [andb].
  destruct s4 as [|w r1]; [discriminate|].
  destruct (Uni.is_space w) eqn:Hw; [|discriminate].
  pose proof (span_all Uni.is_space r1) as Hws.
  pose proof (span_append Uni.is_space r1) as Hr1.
  destruct (span Uni.is_space r1) as [ws r2]. cbn [fst snd] in *.
  destruct r2 as [|a r3]; [discriminate|].
  destruct (Uni.ident_start a) eqn:Ha; [|discriminate].
  pose proof (span_all Uni.ident_char r3) as Hid1.
  pose proof (span_append Uni.ident_char r3) as Hr3.
  pose proof (span_stops Uni.ident_char r3) as Hstop.
  destruct (span Uni.ident_char r3) as [id1 r4]. cbn [fst snd] in *.
  cbv zeta. intros Hcand.
  assert (Hpr : (match pr with Some c => Uni.is_word c | None => false end)
                = false).
  { cbn [starts_with_word] in Hb.
    rewrite (@letter_i_word 70%N c1 (or_introl eq_refl) H1) in Hb.
    now destruct (match pr with Some c => Uni.is_word c | None => false end). }
  exists [c1; c2; c3; c4], w, ws, a, id1, r4.
  split.
  { cbn. rewrite <- Hr1. do 5 f_equal. f_equal. now rewrite <- Hr3. }
  split; [exact Hpr|].
  split; [cbn; now rewrite H1, H2, H3, H4|].
  split; [exact Hw|]. split; [exact Hws|]. split; [exact Ha|].
  split; [exact Hid1|]. split; [exact Hstop|].
  assert (Hplain : (if starts_with_word r4 then None else Some (a :: id1))
                   = Some cand ->
                   cand = a :: id1 /\ starts_with_word r4 = false).
  { destruct (starts_with_word r4); [discriminate|].
    intros [= <-]. now split. }
  destruct r4 as [|d [|b r5]].
  - left. destruct (Hplain Hcand) as [-> H]. split; [reflexivity | now left].
  - left. destruct (Hplain Hcand) as [-> H]. split; [reflexivity | now left].
  - destruct (N.eqb Uni.dot d && Uni.ident_start b) eqn:Hdb.
    + apply andb_prop in Hdb as [Hd Hb']. apply N.eqb_eq in Hd. subst d.
      pose proof (span_all Uni.ident_char r5) as Hid2.
      pose proof (span_append Uni.ident_char r5) as Hr5.
      rewrite (span_pair Uni.ident_char r5) in Hcand.
      destruct (starts_with_word (snd (span Uni.ident_char r5))) eqn:Hend.
      * injection Hcand as <-. left. split; [reflexivity|].
        right. now exists b, r5.
      * injection Hcand as <-. right.
        exists b, (fst (span Uni.ident_char r5)),
          (snd (span Uni.ident_char r5)).
        repeat split; try assumption.
        cbn. now rewrite Hr5.
    + left. destruct (Hplain Hcand) as [-> H]. split; [reflexivity | now left].
Qed.

Lemma from_table_at_sound pre s cand :
  from_table_at (last_char None pre) s = Some cand ->
  from_occurrence (pre ++ s) pre cand.
Proof.
  intros H. apply from_table_at_inv in H
    as (kw & w & ws & a & id1 & r4 & -> & Hpr & Hkw & Hw & Hws & Ha & Hid1
        & Hstop & Hcand).
  assert (Hident : is_identifier (a :: id1) = true)
    by (cbn; now rewrite Ha, Hid1).
  assert (Hspaces : forallb Uni.is_space (w :: ws) = true)
    by (cbn; now rewrite Hw, Hws).
  destruct Hcand as [[-> Hpost] | (b & id2 & r6 & -> & Hb & Hid2 & Hend & ->)].
  - exists kw, (w :: ws), r4.
    split; [reflexivity|]. split; [exact Hpr|]. split; [exact Hkw|].
    split; [discriminate|]. split; [exact Hspaces|].
    split; [now left|].
    destruct Hpost as [Hpost | (b & r5 & -> & _)];
      [exact Hpost | exact dot_not_word].
  - exists kw, (w :: ws), r6.
    split.
    { do 3 f_equal. now rewrite <- !app_assoc. }
    split; [exact Hpr|]. split; [exact Hkw|].
    split; [discriminate|]. split; [exact Hspaces|].
    split; [|exact Hend].
    right. exists (a :: id1), (b :: id2).
    split; [reflexivity|]. split; [exact Hident|].
    cbn. now rewrite Hb, Hid2.
Qed.

Lemma ident_start_not_space c :
  Uni.ident_start c = true -> Uni.is_space c = false.
Proof.
  intros H. destruct (Uni.is_space c) eqn:E; [|reflexivity].
  apply space_not_ident_start in E. congruence.
Qed.

Lemma is_identifier_inv s :
  is_identifier s = true ->
  exists a id, s = a :: id /\ Uni.ident_start a = true /\
               forallb Uni.ident_char id = true.
Proof.
  destruct s as [|a id]; cbn; [discriminate|]. intros H.
  apply andb_prop in H as [Ha Hid]. now exists a, id.
Qed.

Lemma not_word_stops_ident post :
  starts_with_word post = false ->
  match post with c :: _ => Uni.ident_char c = false | [] => True end.
Proof.
  destruct post as [|c post]; cbn; [auto|]. apply word_not_ident_char.
Qed.

(** From the first character of a candidate on: the answer of
    [from_table_at] once the marker and the whitespace are read. *)
Lemma from_table_at_at_marker pr c1 c2 c3 c4 w ws rest :
  (match pr with Some c => Uni.is_word c | None => false end) = false ->
  Uni.letter_i 70 c1 = true -> Uni.letter_i 82 c2 = true ->
  Uni.letter_i 79 c3 = true -> Uni.letter_i 77 c4 = true ->
  Uni.is_space w = true -> forallb Uni.is_space ws = true ->
  match rest with c :: _ => Uni.is_space c = false | [] => True end ->
  from_table_at pr (c1 :: c2 :: c3 :: c4 :: w :: ws ++ rest)
  = match rest with
    | a :: r3 =>
        if Uni.ident_start a then
          let (id1, r4) := span Uni.ident_char r3 in
          let first := a :: id1 in
          let plain := if starts_with_word r4 then None else Some first in
          match r4 with
          | d :: b :: r5 =>
              if N.eqb Uni.dot d && Uni.ident_start b then
                let (id2, r6) := span Uni.ident_char r5 in
                if starts_with_word r6 then Some first
                else Some (first ++ [Uni.dot] ++ b :: id2)
              else plain
          | _ => plain
          end
        else None
    | [] => None
    end.
Proof.
  intros Hpr H1 H2 H3 H4 Hw Hws Hrest. unfold from_table_at.
  cbn [starts_with_word]. rewrite Hpr.
  rewrite (@letter_i_word 70%N c1 (or_introl eq_refl) H1).
  cbn [xorb negb]. rewrite H1, H2, H3, H4, Hw. cbn [andb].
  rewrite (span_exact Uni.is_space ws rest Hws Hrest). reflexivity.
Qed.

Lemma from_table_at_complete pre s cand' :
  from_occurrence (pre ++ s) pre cand' ->
  exists cand,
    from_table_at (last_char None pre) s = Some cand /\
    (List.length cand' <= List.length cand)%nat.
Proof.
  intros (kw & ws & post & Hq & Hpre & Hkw & Hne & Hws & Hcand & Hpost).
  apply app_inv_head in Hq. subst s.
  apply from_marker_inv in Hkw as (c1 & c2 & c3 & c4 & -> & H1 & H2 & H3 & H4).
  destruct ws as [|w ws]; [contradiction|].
  cbn [forallb] in Hws. apply andb_prop in Hws as [Hw Hws].
  cbn [app].
  assert (Hprev : (match last_char None pre with
                   | Some c => Uni.is_word c | None => false end) = false)
    by exact Hpre.
  pose proof (not_word_stops_ident post Hpost) as Hstop.
  destruct Hcand as [Hid | (a' & b' & -> & Ha' & Hb')].
  - apply is_identifier_inv in Hid as (a & id1 & -> & Ha & Hid1).
    rewrite (from_table_at_at_marker _ c1 c2 c3 c4 w ws
               ((a :: id1) ++ post) Hprev H1 H2 H3 H4 Hw Hws)
      by (cbn; now apply ident_start_not_space).
    cbn [app]. rewrite Ha.
    rewrite (span_exact Uni.ident_char id1 post Hid1 Hstop). cbv zeta.
    rewrite Hpost.
    destruct post as [|d [|b r5]]; try (eexists; split; [reflexivity|lia]).
    destruct (N.eqb Uni.dot d && Uni.ident_start b).
    + destruct (span Uni.ident_char r5) as [id2 r6].
      destruct (starts_with_word r6); eexists;
        (split; [reflexivity|]); [lia|].
      cbn. rewrite length_app. lia.
    + eexists; split; [reflexivity|lia].
  - apply is_identifier_inv in Ha' as (a & id1 & -> & Ha & Hid1).
    apply is_identifier_inv in Hb' as (b & id2 & -> & Hb & Hid2).
    rewrite (from_table_at_at_marker _ c1 c2 c3 c4 w ws
               (((a :: id1) ++ [Uni.dot] ++ b :: id2) ++ post)
               Hprev H1 H2 H3 H4 Hw Hws)
      by (cbn; now apply ident_start_not_space).
    rewrite <- !app_assoc. cbn [app]. rewrite Ha.
    rewrite (span_exact Uni.ident_char id1
               (Uni.dot :: b :: id2 ++ post) Hid1)
      by (vm_compute; reflexivity).
    cbv zeta. rewrite N.eqb_refl.
    rewrite Hb. cbn [andb].
    rewrite (span_exact Uni.ident_char id2 post Hid2 Hstop), Hpost.
    eexists. split; [reflexivity|]. cbn. lia.
Qed.

(** ** The search reports the first occurrence *)

Lemma same_length_prefix (a b x y : Uni.text) :
  a ++ x = b ++ y -> List.length a = List.length b ->
  a = b /\ x = y.
Proof.
  revert b. induction a as [|c a IH]; intros [|d b]; cbn;
    try discriminate; [auto|].
  intros [= -> H] [= Hl]. destruct (IH b H Hl) as [-> ->]. now split.
Qed.

Lemma last_char_app pr (a b : Uni.text) :
  last_char pr (a ++ b) = last_char (last_char pr a) b.
Proof.
  revert pr. induction a as [|c a IH]; intros pr; cbn; [reflexivity|].
  apply IH.
Qed.

Lemma from_occurrence_inside q pre cand :
  from_occurrence q pre cand -> (List.length pre < List.length q)%nat.
Proof.
  intros (kw & ws & post & -> & _ & Hkw & _).
  apply from_marker_inv in Hkw as (c1 & c2 & c3 & c4 & -> & _).
  rewrite length_app. cbn. lia.
Qed.

Lemma from_occurrence_at pre s pre0 cand0 :
  from_occurrence (pre ++ s) pre0 cand0 ->
  List.length pre0 = List.length pre ->
  from_occurrence (pre ++ s) pre cand0.
Proof.
  intros Hocc Hlen. pose proof Hocc as (kw & ws & post & Hq & _).
  destruct (same_length_prefix _ _ _ _ Hq (eq_sym Hlen)) as [-> _].
  exact Hocc.
Qed.

Lemma find_from_first s : forall pre,
  (forall pre0 cand0,
      from_occurrence (pre ++ s) pre0 cand0 ->
      (List.length pre <= List.length pre0)%nat) ->
  match find_from (last_char None pre) s with
  | Some cand => exists pre1, first_from_occurrence (pre ++ s) pre1 cand
  | None => forall pre0 cand0, ~ from_occurrence (pre ++ s) pre0 cand0
  end.
Proof.
  induction s as [|c s IH]; intros pre Hleft.
  - cbn [find_from].
    destruct (from_table_at (last_char None pre) []) as [cand|] eqn:E.
    + apply from_table_at_inv in E as (kw & w & ws & a & id1 & r4 & H & _).
      destruct kw; discriminate.
    + intros pre0 cand0 Hocc. pose proof (Hleft _ _ Hocc) as Hle.
      apply from_occurrence_inside in Hocc.
      rewrite length_app in Hocc. cbn in Hocc. lia.
  - cbn [find_from].
    destruct (from_table_at (last_char None pre) (c :: s))
      as [cand|] eqn:E.
    + exists pre. split; [now apply from_table_at_sound|].
      intros pre' cand' Hocc. pose proof (Hleft _ _ Hocc) as Hle.
      destruct (Nat.eq_dec (List.length pre') (List.length pre))
        as [Heq|Hneq]; [|left; lia].
      right. split; [now symmetry|].
      apply (from_occurrence_at _ _ Hocc) in Heq.
      apply from_table_at_complete in Heq as (cand'' & E' & Hlen).
      congruence.
    + assert (Hnext : forall pre0 cand0,
                 from_occurrence (pre ++ c :: s) pre0 cand0 ->
                 (List.length pre < List.length pre0)%nat).
      { intros pre0 cand0 Hocc. pose proof (Hleft _ _ Hocc) as Hle.
        destruct (Nat.eq_dec (List.length pre0) (List.length pre))
          as [Heq|Hneq]; [|lia].
        apply (from_occurrence_at _ _ Hocc) in Heq.
        apply from_table_at_complete in Heq as (cand'' & E' & _).
        congruence. }
      specialize (IH (pre ++ [c])).
      rewrite last_char_app in IH. cbn [last_char] in IH.
      rewrite <- app_assoc in IH. cbn [app] in IH.
      apply IH. intros pre0 cand0 Hocc. apply Hnext in Hocc.
      rewrite length_app. cbn. lia.
Qed.

(** The search with the FROM pattern finds the first occurrence of a
    candidate after a FROM marker, and nothing when there is none. *)
Lemma search_from_table_re_spec q :
  match URe.search from_table_re q with
  | Some (Some cand) => exists pre, first_from_occurrence q pre cand
  | Some None => False
  | None => forall pre cand, ~ from_occurrence q pre cand
  end.
Proof.
  rewrite search_from_table_re_find.
  pose proof (find_from_first q []) as H. cbn [app last_char] in H.
  destruct (find_from None q); cbn [option_map]; apply H;
    intros; cbn; lia.
Qed.

(** ** The table name of the metadata lookup *)

Lemma table_name_of_query_resolves q : resolves_to q (table_name_of_query q).
Proof.
  unfold table_name_of_query, resolves_to.
  pose proof (search_from_table_re_spec q) as H.
  destruct (URe.search from_table_re q) as [[cand|]|].
  - destruct H as [pre H]. right. exists pre, cand. split; [exact H|].
    unfold is_sql_keyword, table_part.
    now destruct (existsb _ sql_keywords).
  - contradiction.
  - left. now split.
Qed.

Lemma split_on_ident s :
  forallb Uni.ident_char s = true -> Uni.split_on Uni.dot s = [s].
Proof.
  induction s as [|c s IH]; cbn; [reflexivity|]. intros H.
  apply andb_prop in H as [Hc Hs].
  rewrite N.eqb_sym, (ident_char_not_dot _ Hc), (IH Hs). reflexivity.
Qed.

Lemma split_on_dotted a b :
  forallb Uni.ident_char a = true ->
  Uni.split_on Uni.dot (a ++ [Uni.dot] ++ b) = a :: Uni.split_on Uni.dot b.
Proof.
  induction a as [|c a IH]; cbn; [reflexivity|]. intros H.
  apply andb_prop in H as [Hc Ha].
  rewrite N.eqb_sym, (ident_char_not_dot _ Hc).
  cbn in IH. rewrite (IH Ha). reflexivity.
Qed.

Lemma identifier_chars s :
  is_identifier s = true -> forallb Uni.ident_char s = true.
Proof.
  intros H. apply is_identifier_inv in H as (a & id & -> & Ha & Hid).
  cbn. now rewrite (ident_start_char _ Ha), Hid.
Qed.

(** The table part of [table] is [table]; of [schema.table], [table]. *)
Lemma table_part_of_candidate cand :
  is_candidate cand ->
  (is_identifier cand = true /\ table_part cand = cand) \/
  (exists a b, cand = a ++ [Uni.dot] ++ b /\ is_identifier a = true /\
               is_identifier b = true /\ table_part cand = b).
Proof.
  unfold table_part. intros [H | (a & b & -> & Ha & Hb)].
  - left. split; [exact H|].
    now rewrite (@split_on_ident _ (@identifier_chars _ H)).
  - right. exists a, b. repeat split; try assumption.
    rewrite (@split_on_dotted a b (@identifier_chars _ Ha)).
    now rewrite (@split_on_ident _ (@identifier_chars _ Hb)).
Qed.

(** The text the scan upper-cases is an identifier: it is made of the
    characters on which [Uni.upper_char] is [str.upper]. *)
Lemma upper_cased_text_is_an_identifier q cand :
  URe.search from_table_re q = Some (Some cand) ->
  is_identifier (table_part cand) = true.
Proof.
  intros H. pose proof (search_from_table_re_spec q) as S.
  rewrite H in S. destruct S as (pre & (kw & ws & post & S) & _).
  destruct S as (_ & _ & _ & _ & _ & Hcand & _).
  destruct (table_part_of_candidate Hcand)
    as [[Hid ->] | (a & b & _ & _ & Hb & ->)]; assumption.
Qed.

Lemma table_name_of_query_not_empty q : table_name_of_query q <> [].
Proof.
  destruct (table_name_of_query_resolves q)
    as [[-> _] | (pre & cand & [Hocc _] & ->)]; [discriminate|].
  destruct (is_sql_keyword (table_part cand)); [discriminate|].
  destruct Hocc as (kw & ws & post & _ & _ & _ & _ & _ & Hcand & _).
  destruct Hcand as [H | (a & b & -> & Ha & _)].
  - now destruct cand.
  - now destruct a.
Qed.

(** ** The scan on the text of a request *)

Lemma to_of_string s : Uni.to_string (Uni.of_string s) = s.
Proof.
  unfold Uni.to_string, Uni.of_string. rewrite map_map.
  rewrite (map_ext _ (fun a => a)) by apply ascii_N_embedding.
  rewrite map_id. apply string_of_list_ascii_of_string.
Qed.

Lemma of_string_below s :
  Forall (fun c => (c < 256)%N) (Uni.of_string s).
Proof.
  unfold Uni.of_string. apply Forall_map, Forall_forall.
  intros a _. apply N_ascii_bounded.
Qed.

Lemma of_to_string t :
  Forall (fun c => (c < 256)%N) t -> Uni.of_string (Uni.to_string t) = t.
Proof.
  intros H. unfold Uni.to_string, Uni.of_string.
  rewrite list_ascii_of_string_of_list_ascii, map_map.
  induction H as [|c t Hc _ IH]; cbn; [reflexivity|].
  now rewrite IH, (N_ascii_embedding _ Hc).
Qed.

(** What the scan yields on the code points of a string is a string
    again: it is "results" or a part of the text. *)
Lemma table_name_of_query_below q :
  Forall (fun c => (c < 256)%N) q ->
  Forall (fun c => (c < 256)%N) (table_name_of_query q).
Proof.
  intros Hq.
  destruct (table_name_of_query_resolves q)
    as [[-> _] | (pre & cand & [Hocc _] & ->)]; [apply of_string_below|].
  destruct (is_sql_keyword (table_part cand)); [apply of_string_below|].
  destruct Hocc as (kw & ws & post & -> & _).
  do 3 (apply Forall_app in Hq as [_ Hq]).
  now apply Forall_app in Hq as [Hq _].
Qed.

Lemma metadata_table_name_code_points q :
  Uni.of_string (metadata_table_name q)
  = table_name_of_query (Uni.of_string q).
Proof.
  unfold metadata_table_name.
  apply of_to_string, table_name_of_query_below, of_string_below.
Qed.

Lemma metadata_table_name_not_empty q : metadata_table_name q <> "".
Proof.
  intros H. apply (f_equal Uni.of_string) in H.
  rewrite metadata_table_name_code_points in H.
  now apply table_name_of_query_not_empty in H.
Qed.

(** The scan beyond code point 255, on four texts: [FROM], U+2003 EM
    SPACE, [gaia] yields [gaia]; after [FROM ] the KELVIN SIGN U+212A
    followed by [epler] is a table name; [LI], U+212A, [E] is one too,
    since its upper-cased form is not the keyword; [l], U+0131 DOTLESS
    I, [ke] upper-cases to [LIKE] and yields "results". *)
Lemma scan_beyond_latin1 :
  table_name_of_query (Uni.of_string "SELECT * FROM" ++ [8195%N]
                       ++ Uni.of_string "gaia")
  = Uni.of_string "gaia" /\
  table_name_of_query (Uni.of_string "SELECT * FROM " ++ [8490%N]
                       ++ Uni.of_string "epler")
  = 8490%N :: Uni.of_string "epler" /\
  table_name_of_query (Uni.of_string "SELECT * FROM LI" ++ [8490%N]
                       ++ Uni.of_string "E")
  = Uni.of_string "LI" ++ [8490%N] ++ Uni.of_string "E" /\
  table_name_of_query (Uni.of_string "SELECT * FROM l" ++ [305%N]
                       ++ Uni.of_string "ke")
  = Uni.of_string "results".
Proof. repeat split; vm_compute; reflexivity. Qed.

Lemma get_column_metadata_first_lookup db name :
  name <> "" -> connect db = Ok tt ->
  exists tl,
    trace (get_column_metadata db name)
    = EvConnect :: EvQuery columns_query [VStr name] :: tl.
Proof.
  intros Hne Hconn. apply String.eqb_neq in Hne.
  unfold get_column_metadata. rewrite Hne, trace_try_except.
  unfold call at 1. rewrite Hconn, bind_ok. cbn [trace fst app].
  rewrite trace_bind. cbn [call trace fst app]. eexists. reflexivity.
Qed.

Lemma run_data_query_ok env q ent table others sf cat df :
  parse_adql_entities env q = Ok ent ->
  ent_tables ent = table :: others ->
  search_filter_of (ent_spatial_search ent) = Ok sf ->
  open_catalog (lsdb env) (catalog_url table) (ent_columns ent) sf
    (ent_conditions ent) = Ok cat ->
  head cat (ent_limits ent) = Ok df ->
  run_data_query env q
  = ([ EvParse q;
       EvOpenCatalog (catalog_url table) (ent_columns ent) sf
         (ent_conditions ent);
       EvHead (ent_limits ent) ],
     Ok (df_records df, df_columns df, metadata_table_name q)).
Proof.
  intros Hparse Htables Hsf Hopen Hhead. unfold run_data_query, call, lift.
  rewrite Hparse, bind_ok, Htables, Hsf, bind_ok, Hopen, bind_ok, Hhead.
  reflexivity.
Qed.

(** C1 (as the code has it). For a data query that reaches the
    metadata lookup (the parser returns a descriptor with a table,
    lsdb answers, the store can be connected to), the first table name
    looked up in the columns relation is a function of the query text
    alone, the one the scan of the text yields: "results" when the
    text holds no FROM marker followed by a table or schema.table
    identifier; otherwise the first such identifier in the text (at
    its place the longest one), unless the upper-cased table part of
    the identifier is an SQL keyword, and then "results". The first
    table of the descriptor is used for the catalog path handed to
    lsdb, not for the lookup. The scan is characterised on text of any
    code point (last conjunct): whitespace and word characters are
    those of [\s] and [\w] on a [str], and the letters of an
    identifier are the ASCII letters and the four code points that the
    IGNORECASE flag folds into them. *)
Theorem metadata_lookup_table_name :
  forall env params ent table others sf cat df,
    valid_request params = true ->
    is_tap_schema_query (dict_get "QUERY" "" params) = false ->
    parse_adql_entities env (dict_get "QUERY" "" params) = Ok ent ->
    ent_tables ent = table :: others ->
    search_filter_of (ent_spatial_search ent) = Ok sf ->
    open_catalog (lsdb env) (catalog_url table) (ent_columns ent) sf
      (ent_conditions ent) = Ok cat ->
    head cat (ent_limits ent) = Ok df ->
    connect (tap_schema_db env) = Ok tt ->
    exists name,
      hd_error (metadata_lookups (sync_query env params))
      = Some [VStr name] /\
      name = metadata_table_name (dict_get "QUERY" "" params) /\
      resolves_to (Uni.of_string (dict_get "QUERY" "" params))
        (Uni.of_string name) /\
      In (EvOpenCatalog (catalog_url table) (ent_columns ent) sf
            (ent_conditions ent))
        (trace (sync_query env params)) /\
      forall text : Uni.text, resolves_to text (table_name_of_query text).
Proof.
  intros env params ent table others sf cat df
    Hv Htap Hparse Htables Hsf Hopen Hhead Hconn.
  set (q := dict_get "QUERY" "" params) in *.
  exists (metadata_table_name q).
  assert (Htrace : exists tl,
             trace (sync_query env params)
             = [ EvParse q;
                 EvOpenCatalog (catalog_url table) (ent_columns ent) sf
                   (ent_conditions ent);
                 EvHead (ent_limits ent) ]
               ++ EvConnect
                  :: EvQuery columns_query [VStr (metadata_table_name q)]
                  :: tl).
  { rewrite (sync_query_valid env _ Hv), trace_try_except. fold q.
    unfold process_query. rewrite Htap.
    rewrite (@run_data_query_ok env q _ _ _ _ _ _ Hparse Htables Hsf Hopen Hhead).
    rewrite bind_ok. cbn [trace fst].
    rewrite trace_bind.
    destruct (@get_column_metadata_first_lookup (tap_schema_db env)
                _ (metadata_table_name_not_empty q) Hconn) as [tl ->].
    rewrite <- !app_assoc. cbn [app]. eexists. reflexivity. }
  destruct Htrace as [tl Htrace].
  split.
  { unfold metadata_lookups. rewrite Htrace. cbn [app flat_map].
    now rewrite String.eqb_refl. }
  split; [reflexivity|].
  split.
  { rewrite metadata_table_name_code_points.
    apply table_name_of_query_resolves. }
  split; [|apply table_name_of_query_resolves].
  rewrite Htrace. cbn. auto.
Qed.

Lemma metadata_lookup_table_name_witness :
  let params := [("REQUEST", "doQuery"); ("QUERY", demo_query)] in
  valid_request params = true /\
  is_tap_schema_query (dict_get "QUERY" "" params) = false /\
  parse_adql_entities demo_env (dict_get "QUERY" "" params)
  = Ok Demo.cone_entities /\
  connect (tap_schema_db demo_env) = Ok tt /\
  exists name,
    hd_error (metadata_lookups (sync_query demo_env params))
    = Some [VStr name] /\
    name = metadata_table_name (dict_get "QUERY" "" params) /\
    resolves_to (Uni.of_string (dict_get "QUERY" "" params))
      (Uni.of_string name) /\
    In (EvOpenCatalog (catalog_url "gaia_dr3.gaia")
          (ent_columns Demo.cone_entities)
          (Some (mkConeSearch (PFloat 270) (PFloat 23)
                   (times_3600 (PFloat 0.25))))
          (ent_conditions Demo.cone_entities))
      (trace (sync_query demo_env params)) /\
    forall text : Uni.text, resolves_to text (table_name_of_query text).
Proof.
  cbv zeta.
  split; [vm_compute; reflexivity|].
  split; [vm_compute; reflexivity|].
  split; [reflexivity|]. split; [reflexivity|].
  refine (@metadata_lookup_table_name demo_env
            [("REQUEST", "doQuery"); ("QUERY", demo_query)]
            Demo.cone_entities "gaia_dr3.gaia" [] _
            (mkCatalog (fun _ => Ok Demo.one_row_frame)) Demo.one_row_frame
            _ _ eq_refl eq_refl eq_refl eq_refl eq_refl eq_refl).
  - vm_compute; reflexivity.
  - vm_compute; reflexivity.
Defined.

(** C1 as stated fails at (a): the descriptor names the table
    gaia_dr3.gaia, schema-qualified and alone, and the metadata lookup
    is made for the name found by the scan of the query text -- here
    the word after the first [from], inside a string literal -- and for
    its public. variant; gaia_dr3.gaia is never looked up. *)
Lemma descriptor_table_not_used_for_lookup :
  let m := sync_query demo_env literal_request in
  valid_request literal_request = true /\
  is_tap_schema_query literal_query = false /\
  parse_adql_entities demo_env literal_query = Ok Demo.cone_entities /\
  ent_tables Demo.cone_entities = ["gaia_dr3.gaia"] /\
  metadata_table_name literal_query = "earth" /\
  metadata_lookups m = [[VStr "earth"]; [VStr "public.earth"]] /\
  exists resp, outcome m = Ok resp /\ status resp = 200%Z.
Proof.
  cbv zeta.
  split; [vm_compute; reflexivity|].
  split; [vm_compute; reflexivity|].
  split; [reflexivity|]. split; [reflexivity|].
  split; [vm_compute; reflexivity|].
  split; [vm_compute; reflexivity|].
  eexists. split; [vm_compute; reflexivity | reflexivity].
Qed.

(** ** The LANG check *)

(** The LANG pattern matches exactly the texts whose first four
    characters are the letters a, d, q, l in any casing. *)
Lemma lang_re_matches lang :
  Re.matches_at_start lang_re lang = true <-> lower (take 4 lang) = "adql".
Proof.
  unfold Re.matches_at_start, lang_re, Re.LitI. cbn [Re.seq_of].
  change (lower_char "a") with "a"%char. change (lower_char "d") with "d"%char.
  change (lower_char "q") with "q"%char. change (lower_char "l") with "l"%char.
  unfold lower.
  destruct lang as [|c1 [|c2 [|c3 [|c4 r]]]];
    try (cbn; split; [|discriminate];
         repeat match goal with
                | |- context [Ascii.eqb ?x ?y] => destruct (Ascii.eqb x y)
                end; discriminate).
  cbn [Re.run Re.rest Re.advance Re.prev Re.pos Re.group1 take map_string].
  destruct (Ascii.eqb_spec (lower_char c1) "a") as [->|N1];
    [|split; [discriminate | intros [= H]; contradiction]].
  destruct (Ascii.eqb_spec (lower_char c2) "d") as [->|N2];
    [|split; [discriminate | intros [= H]; contradiction]].
  destruct (Ascii.eqb_spec (lower_char c3) "q") as [->|N3];
    [|split; [discriminate | intros [= H]; contradiction]].
  destruct (Ascii.eqb_spec (lower_char c4) "l") as [->|N4];
    [|split; [discriminate | intros [= H]; contradiction]].
  split; [reflexivity|]. intros _.
  match goal with
  | |- match match ?x with _ => _ end with _ => _ end = true => destruct x
  end; reflexivity.
Qed.

(** The three parameter checks, spelled out. *)
Lemma valid_request_iff params :
  valid_request params = true <->
  dict_get "REQUEST" "" params = "doQuery" /\
  lower (take 4 (dict_get "LANG" "ADQL" params)) = "adql" /\
  dict_get "QUERY" "" params <> "".
Proof.
  unfold valid_request.
  rewrite !andb_true_iff, negb_true_iff, String.eqb_eq, String.eqb_neq,
    lang_re_matches.
  tauto.
Qed.

(* ================================================================= *)
(** * Further properties of the server *)

(** ** Answering with an error document *)

Lemma error_response_trace env msg q st :
  trace (xml <- create_error_votable env msg q ;; ret (xml_response st xml))
  = [EvPretty (error_tree msg q)].
Proof.
  rewrite trace_bind. unfold create_error_votable. rewrite format_trace.
  destruct (outcome _); reflexivity.
Qed.

Lemma error_response_outcome env msg q st pretty :
  toprettyxml env (error_tree msg q) = Ok pretty ->
  outcome (xml <- create_error_votable env msg q ;; ret (xml_response st xml))
  = Ok (xml_response st (with_declaration pretty)).
Proof.
  intros H. rewrite outcome_bind. unfold create_error_votable.
  now rewrite (format_outcome_ok _ _ H).
Qed.

Lemma error_response_escapes env msg q st x :
  toprettyxml env (error_tree msg q) = Raise x ->
  outcome (xml <- create_error_votable env msg q ;; ret (xml_response st xml))
  = Raise x.
Proof.
  intros H. rewrite outcome_bind. unfold create_error_votable.
  unfold format_xml_with_indentation, call. now rewrite H.
Qed.

(** X1. The parameters are checked in the order REQUEST, LANG, QUERY,
    and the first check that fails answers with status 400 and an
    error document for its own message, without the query text; the
    pretty-printer is the only collaborator called. REQUEST must be
    exactly doQuery; LANG (ADQL when absent) must begin with the
    letters adql in any casing; QUERY must not be empty. *)
Theorem parameter_checks_in_order :
  forall env params,
    let request_type := dict_get "REQUEST" "" params in
    let lang := dict_get "LANG" "ADQL" params in
    let query_text := dict_get "QUERY" "" params in
    let rejected_with (msg : string) :=
      trace (sync_query env params) = [EvPretty (error_tree msg "")] /\
      forall pretty,
        toprettyxml env (error_tree msg "") = Ok pretty ->
        outcome (sync_query env params)
        = Ok (mkResponse (with_declaration pretty) "application/xml" 400) in
    (request_type <> "doQuery" ->
     rejected_with ("Invalid REQUEST parameter: " ++ request_type
                    ++ ". Must be 'doQuery'.")%string) /\
    (request_type = "doQuery" -> lower (take 4 lang) <> "adql" ->
     rejected_with ("Unsupported query language: " ++ lang
                    ++ ". Only ADQL is supported.")%string) /\
    (request_type = "doQuery" -> lower (take 4 lang) = "adql" ->
     query_text = "" ->
     rejected_with "Missing required parameter: QUERY").
Proof.
  intros env params request_type lang query_text rejected_with.
  subst rejected_with. cbv beta.
  split; [|split].
  - intros H. apply String.eqb_neq in H. unfold sync_query.
    fold request_type. rewrite H. cbn [negb]. split.
    + apply error_response_trace.
    + intros pretty Hp. now apply error_response_outcome.
  - intros H1 H2. unfold sync_query. fold request_type lang.
    rewrite H1, String.eqb_refl. cbn [negb].
    destruct (Re.matches_at_start lang_re lang) eqn:E.
    + apply lang_re_matches in E. contradiction.
    + cbn [negb]. split.
      * apply error_response_trace.
      * intros pretty Hp. now apply error_response_outcome.
  - intros H1 H2 H3. unfold sync_query. fold request_type lang query_text.
    rewrite H1, String.eqb_refl. cbn [negb].
    apply lang_re_matches in H2. rewrite H2, H3. cbn [negb String.eqb].
    split.
    + apply error_response_trace.
    + intros pretty Hp. now apply error_response_outcome.
Qed.

(** ** Exceptions while a query is processed *)

(** Whatever is raised inside the [try] of [sync_query] is answered
    with status 500 and the document of its message. *)
Lemma processing_exception_response env params e :
  valid_request params = true ->
  outcome (process_query env (dict_get "QUERY" "" params)
             (lower (dict_get "FORMAT" "votable" params))) = Raise e ->
  trace (sync_query env params)
  = trace (process_query env (dict_get "QUERY" "" params)
             (lower (dict_get "FORMAT" "votable" params)))
    ++ [EvPretty (error_tree (processing_message e)
                    (dict_get "QUERY" "" params))] /\
  (forall pretty,
      toprettyxml env (error_tree (processing_message e)
                         (dict_get "QUERY" "" params)) = Ok pretty ->
      outcome (sync_query env params)
      = Ok (mkResponse (with_declaration pretty) "application/xml" 500)) /\
  (forall x,
      toprettyxml env (error_tree (processing_message e)
                         (dict_get "QUERY" "" params)) = Raise x ->
      outcome (sync_query env params) = Raise x).
Proof.
  intros Hv He. rewrite (sync_query_valid env _ Hv).
  rewrite trace_try_except, outcome_try_except, He.
  unfold processing_error, processing_message. split; [|split].
  - now rewrite error_response_trace.
  - intros pretty Hp. now apply error_response_outcome.
  - intros x Hx. now apply error_response_escapes.
Qed.

Lemma process_query_data_raise env q fmt t e :
  is_tap_schema_query q = false ->
  run_data_query env q = (t, Raise e) ->
  process_query env q fmt = (t, Raise e).
Proof.
  intros Htap H. unfold process_query. now rewrite Htap, H.
Qed.

(** X2. When the ADQL parser raises on the text of a data query, the
    request is answered with status 500 and an error document that
    carries "Error processing query: " followed by the text of the
    exception, and the query text; nothing is asked of lsdb or of the
    metadata store. *)
Theorem parser_failure_is_reported :
  forall env params e pretty,
    valid_request params = true ->
    is_tap_schema_query (dict_get "QUERY" "" params) = false ->
    parse_adql_entities env (dict_get "QUERY" "" params) = Raise e ->
    toprettyxml env
      (error_tree ("Error processing query: " ++ exn_str e)
         (dict_get "QUERY" "" params)) = Ok pretty ->
    sync_query env params
    = ([ EvParse (dict_get "QUERY" "" params);
         EvPretty (error_tree ("Error processing query: " ++ exn_str e)
                     (dict_get "QUERY" "" params)) ],
       Ok (mkResponse (with_declaration pretty) "application/xml" 500)).
Proof.
  intros env params e pretty Hv Htap Hparse Hp.
  assert (Hrun : run_data_query env (dict_get "QUERY" "" params)
                 = ([EvParse (dict_get "QUERY" "" params)], Raise e)).
  { unfold run_data_query, call. now rewrite Hparse. }
  pose proof (@process_query_data_raise env _
                (lower (dict_get "FORMAT" "votable" params)) _ _ Htap Hrun)
    as H.
  destruct (@processing_exception_response env params e Hv)
    as (Ht & Ho & _); [now rewrite H|].
  rewrite H in Ht. specialize (Ho pretty Hp).
  destruct (sync_query env params) as [t r]. cbn in *. now subst.
Qed.

Lemma parser_failure_is_reported_witness :
  let env := with_parser demo_env failing_parser in
  valid_request demo_request = true /\
  is_tap_schema_query (dict_get "QUERY" "" demo_request) = false /\
  parse_adql_entities env (dict_get "QUERY" "" demo_request)
  = Raise (mkExn "ValueError" "Multiple CONTAINS clauses") /\
  exists pretty,
    sync_query env demo_request
    = ([ EvParse (dict_get "QUERY" "" demo_request);
         EvPretty
           (error_tree
              ("Error processing query: " ++ "Multiple CONTAINS clauses")
              (dict_get "QUERY" "" demo_request)) ],
       Ok (mkResponse (with_declaration pretty) "application/xml" 500)).
Proof.
  cbv zeta.
  split; [vm_compute; reflexivity|].
  split; [vm_compute; reflexivity|].
  split; [reflexivity|].
  eexists.
  refine (@parser_failure_is_reported (with_parser demo_env failing_parser)
            demo_request (mkExn "ValueError" "Multiple CONTAINS clauses")
            _ _ _ eq_refl _).
  - vm_compute; reflexivity.
  - vm_compute; reflexivity.
  - vm_compute; reflexivity.
Defined.

(** X3. A descriptor that names no table fails the assertion of the
    data-query path: the request is answered with status 500, the
    message is "Error processing query: " with nothing after it (an
    AssertionError has no text), and lsdb and the metadata store are
    never called. *)
Theorem descriptor_without_table_is_an_internal_error :
  forall env params ent pretty,
    valid_request params = true ->
    is_tap_schema_query (dict_get "QUERY" "" params) = false ->
    parse_adql_entities env (dict_get "QUERY" "" params) = Ok ent ->
    ent_tables ent = [] ->
    toprettyxml env
      (error_tree "Error processing query: " (dict_get "QUERY" "" params))
    = Ok pretty ->
    sync_query env params
    = ([ EvParse (dict_get "QUERY" "" params);
         EvPretty (error_tree "Error processing query: "
                     (dict_get "QUERY" "" params)) ],
       Ok (mkResponse (with_declaration pretty) "application/xml" 500)).
Proof.
  intros env params ent pretty Hv Htap Hparse Htables Hp.
  assert (Hrun : run_data_query env (dict_get "QUERY" "" params)
                 = ([EvParse (dict_get "QUERY" "" params)],
                    Raise AssertionError)).
  { unfold run_data_query, call. now rewrite Hparse, bind_ok, Htables. }
  pose proof (@process_query_data_raise env _
                (lower (dict_get "FORMAT" "votable" params)) _ _ Htap Hrun)
    as H.
  destruct (@processing_exception_response env params AssertionError Hv)
    as (Ht & Ho & _); [now rewrite H|].
  rewrite H in Ht. specialize (Ho pretty Hp).
  destruct (sync_query env params) as [t r]. cbn in *. now subst.
Qed.

Lemma descriptor_without_table_is_an_internal_error_witness :
  let env := with_parser demo_env (fun _ => Ok no_table_entities) in
  valid_request demo_request = true /\
  is_tap_schema_query (dict_get "QUERY" "" demo_request) = false /\
  ent_tables no_table_entities = [] /\
  exists pretty,
    sync_query env demo_request
    = ([ EvParse (dict_get "QUERY" "" demo_request);
         EvPretty (error_tree "Error processing query: "
                     (dict_get "QUERY" "" demo_request)) ],
       Ok (mkResponse (with_declaration pretty) "application/xml" 500)).
Proof.
  cbv zeta.
  split; [vm_compute; reflexivity|].
  split; [vm_compute; reflexivity|].
  split; [reflexivity|].
  eexists.
  refine (@descriptor_without_table_is_an_internal_error
            (with_parser demo_env (fun _ => Ok no_table_entities))
            demo_request no_table_entities _ _ _ eq_refl eq_refl _).
  - vm_compute; reflexivity.
  - vm_compute; reflexivity.
  - vm_compute; reflexivity.
Defined.

(** X4. When lsdb fails -- opening the catalog raises, or reading its
    head does -- the request is answered with status 500 and the
    message of the exception, and the metadata store is never
    consulted. *)
Theorem lsdb_failure_is_reported :
  forall env params ent table others sf e pretty,
    valid_request params = true ->
    is_tap_schema_query (dict_get "QUERY" "" params) = false ->
    parse_adql_entities env (dict_get "QUERY" "" params) = Ok ent ->
    ent_tables ent = table :: others ->
    search_filter_of (ent_spatial_search ent) = Ok sf ->
    match open_catalog (lsdb env) (catalog_url table) (ent_columns ent) sf
            (ent_conditions ent) with
    | Ok cat => head cat (ent_limits ent)
    | Raise x => Raise x
    end = Raise e ->
    toprettyxml env
      (error_tree ("Error processing query: " ++ exn_str e)
         (dict_get "QUERY" "" params)) = Ok pretty ->
    outcome (sync_query env params)
    = Ok (mkResponse (with_declaration pretty) "application/xml" 500) /\
    documents (sync_query env params)
    = [error_tree ("Error processing query: " ++ exn_str e)
         (dict_get "QUERY" "" params)] /\
    Forall (fun ev => ~ store_lookup_event ev) (trace (sync_query env params)).
Proof.
  intros env params ent table others sf e pretty
    Hv Htap Hparse Htables Hsf Hlsdb Hp.
  set (q := dict_get "QUERY" "" params) in *.
  assert (Hrun : exists t,
             run_data_query env q = (t, Raise e) /\
             Forall (fun ev => ~ store_lookup_event ev) t /\
             flat_map (fun ev => match ev with
                                 | EvPretty d => [d] | _ => [] end) t = []).
  { unfold run_data_query, call, lift.
    rewrite Hparse, bind_ok, Htables, Hsf, bind_ok.
    destruct (open_catalog _ _ _ _ _) as [cat|x].
    - rewrite bind_ok, Hlsdb. eexists. split; [reflexivity|].
      split; [|reflexivity]. repeat constructor; intros [].
    - injection Hlsdb as ->. eexists. split; [reflexivity|].
      split; [|reflexivity]. repeat constructor; intros []. }
  destruct Hrun as (t & Hrun & Hnostore & Hnodoc).
  pose proof (@process_query_data_raise env _
                (lower (dict_get "FORMAT" "votable" params)) _ _ Htap Hrun)
    as H.
  destruct (@processing_exception_response env params e Hv)
    as (Ht & Ho & _); [fold q; now rewrite H|].
  fold q in Ht, Ho. rewrite H in Ht. cbn [trace fst] in Ht.
  split; [now apply Ho|]. unfold documents. rewrite Ht. split.
  - rewrite flat_map_app, Hnodoc. reflexivity.
  - apply Forall_app. split; [exact Hnostore|].
    repeat constructor. intros [].
Qed.

Lemma lsdb_failure_is_reported_witness :
  let env := mkEnv (parse_adql_entities demo_env) failing_lsdb
               (tap_schema_db demo_env) (toprettyxml demo_env)
               (utcnow_isoformat demo_env) in
  valid_request demo_request = true /\
  is_tap_schema_query (dict_get "QUERY" "" demo_request) = false /\
  parse_adql_entities env (dict_get "QUERY" "" demo_request)
  = Ok Demo.cone_entities /\
  exists pretty,
    outcome (sync_query env demo_request)
    = Ok (mkResponse (with_declaration pretty) "application/xml" 500) /\
    documents (sync_query env demo_request)
    = [error_tree ("Error processing query: " ++ "no such catalog")
         (dict_get "QUERY" "" demo_request)] /\
    Forall (fun ev => ~ store_lookup_event ev)
      (trace (sync_query env demo_request)).
Proof.
  cbv zeta.
  split; [vm_compute; reflexivity|].
  split; [vm_compute; reflexivity|].
  split; [reflexivity|].
  eexists.
  refine (@lsdb_failure_is_reported
            (mkEnv (parse_adql_entities demo_env) failing_lsdb
               (tap_schema_db demo_env) (toprettyxml demo_env)
               (utcnow_isoformat demo_env))
            demo_request Demo.cone_entities "gaia_dr3.gaia" [] _
            (mkExn "FileNotFoundError" "no such catalog") _
            _ _ eq_refl eq_refl eq_refl eq_refl _).
  - vm_compute; reflexivity.
  - vm_compute; reflexivity.
  - vm_compute; reflexivity.
Defined.

(** ** The FORMAT parameter *)

(** X5. The output format (votable when absent, compared in lower
    case) is checked only after the query has been executed: a valid
    request for any other format is still routed by its query text --
    to the metadata store or to the parser -- as the first thing that
    happens, and is then answered with status 400 and the message
    "Unsupported format: " followed by the lower-cased format, or with
    status 500 when processing raised; never with status 200. The one
    condition is on the printer: when processing raised, it accepts
    the error document built for that exception. *)
Theorem unsupported_format_is_rejected_after_execution :
  forall env params,
    valid_request params = true ->
    mem_str (lower (dict_get "FORMAT" "votable" params))
      ["votable"; "votable/td"] = false ->
    prints_failure_document env params ->
    exists resp doc,
      outcome (sync_query env params) = Ok resp /\
      renders env doc resp /\
      hd_error (trace (sync_query env params))
      = Some (if is_tap_schema_query (dict_get "QUERY" "" params)
              then EvQueryWithColumns (dict_get "QUERY" "" params)
              else EvParse (dict_get "QUERY" "" params)) /\
      ((status resp = 400%Z /\
        doc = error_tree
                ("Unsupported format: "
                 ++ lower (dict_get "FORMAT" "votable" params))
                (dict_get "QUERY" "" params))
       \/
       (status resp = 500%Z /\
        exists e,
          doc = error_tree (processing_message e)
                  (dict_get "QUERY" "" params))).
Proof.
  intros env params Hv Hfmt Hprint.
  set (q := dict_get "QUERY" "" params).
  set (fmt := lower (dict_get "FORMAT" "votable" params)) in *.
  destruct (sync_query_valid_trace env params Hv) as (tl & Ht & _).
  fold q in Ht.
  assert (Hhd : hd_error (trace (sync_query env params))
                = Some (if is_tap_schema_query q
                        then EvQueryWithColumns q else EvParse q))
    by now rewrite Ht.
  destruct (outcome (process_query env q fmt)) as [resp|e] eqn:E.
  - assert (Hresp : exists pretty,
               toprettyxml env (error_tree ("Unsupported format: " ++ fmt) q)
               = Ok pretty /\
               resp = xml_response 400 (with_declaration pretty)).
    { revert E. unfold process_query. rewrite outcome_bind.
      match goal with |- context [outcome ?m] =>
        destruct (outcome m) as [[[data columns] table]|x] end;
        [|discriminate].
      rewrite outcome_bind.
      destruct (outcome (get_column_metadata (tap_schema_db env) table))
        as [md|x]; [|discriminate].
      rewrite Hfmt, outcome_bind. unfold create_error_votable.
      destruct (outcome (format_xml_with_indentation env _)) as [xml|x] eqn:F;
        [|discriminate].
      apply format_outcome_inv in F as [pretty [Hp ->]].
      cbn. intros [= <-]. now exists pretty. }
    destruct Hresp as (pretty & Hp & ->).
    exists (xml_response 400 (with_declaration pretty)).
    eexists. split.
    { rewrite (sync_query_valid env _ Hv), outcome_try_except.
      fold q fmt. now rewrite E. }
    split; [exists pretty; repeat split; exact Hp|].
    split; [exact Hhd|]. left. now split.
  - destruct (Hprint (error_tree (processing_message e) q)) as [pretty Hp].
    { rewrite (failure_document_valid env _ Hv). fold q fmt.
      now rewrite E. }
    destruct (@processing_exception_response env params e Hv E)
      as (_ & Ho & _).
    exists (mkResponse (with_declaration pretty) "application/xml" 500).
    eexists. split; [now apply Ho|].
    split; [exists pretty; repeat split; exact Hp|].
    split; [exact Hhd|]. right. split; [reflexivity|]. now exists e.
Qed.

Lemma unsupported_format_is_rejected_after_execution_witness :
  let params := [("REQUEST", "doQuery"); ("QUERY", demo_query);
                 ("FORMAT", "CSV")] in
  valid_request params = true /\
  mem_str (lower (dict_get "FORMAT" "votable" params))
    ["votable"; "votable/td"] = false /\
  prints_failure_document demo_env params /\
  exists resp doc,
    outcome (sync_query demo_env params) = Ok resp /\
    renders demo_env doc resp /\
    hd_error (trace (sync_query demo_env params))
    = Some (if is_tap_schema_query (dict_get "QUERY" "" params)
            then EvQueryWithColumns (dict_get "QUERY" "" params)
            else EvParse (dict_get "QUERY" "" params)) /\
    ((status resp = 400%Z /\
      doc = error_tree
              ("Unsupported format: "
               ++ lower (dict_get "FORMAT" "votable" params))
              (dict_get "QUERY" "" params))
     \/
     (status resp = 500%Z /\
      exists e,
        doc = error_tree (processing_message e)
                (dict_get "QUERY" "" params))).
Proof.
  cbv zeta.
  split; [vm_compute; reflexivity|].
  split; [vm_compute; reflexivity|].
  split; [apply demo_prints_failure_document|].
  refine (@unsupported_format_is_rejected_after_execution demo_env
            [("REQUEST", "doQuery"); ("QUERY", demo_query);
             ("FORMAT", "CSV")] _ _ (@demo_prints_failure_document _ _ _ _)).
  - vm_compute; reflexivity.
  - vm_compute; reflexivity.
Defined.

(** ** More on the column metadata lookup *)



Lemma build_metadata_unnamed rows : forall acc bad,
  In bad rows -> dict_find "column_name" bad = None ->
  build_metadata rows acc = Raise (KeyError "column_name").
Proof.
  induction rows as [|row rows IH]; intros acc bad Hin Hbad; [contradiction|].
  cbn [build_metadata].
  destruct (dict_find "column_name" row) as [name|] eqn:E; [|reflexivity].
  destruct Hin as [->|Hin]; [congruence|]. now apply (IH _ bad).
Qed.

(** X7. One row without a column_name entry spoils the whole lookup:
    the KeyError it raises is caught, and the result is the empty
    dictionary, also for the columns whose rows were well formed. *)
Theorem one_unnamed_row_discards_all_metadata :
  forall db table rows bad,
    table <> "" ->
    connect db = Ok tt ->
    query db columns_query [VStr table] = Ok rows ->
    In bad rows ->
    dict_find "column_name" bad = None ->
    outcome (get_column_metadata db table) = Ok [] /\
    forall col, metadata_find col
                  (match outcome (get_column_metadata db table) with
                   | Ok md => md
                   | Raise _ => []
                   end) = None.
Proof.
  intros db table rows bad Hne Hconn Hq Hin Hbad.
  apply String.eqb_neq in Hne.
  assert (E : outcome (get_column_metadata db table) = Ok []).
  { unfold get_column_metadata, call, lift. rewrite Hne, Hconn, Hq.
    cbn [bind app].
    assert (Hno : is_nil rows = false) by (destruct rows; [contradiction|reflexivity]).
    rewrite Hno. cbn [andb ret bind app].
    now rewrite (build_metadata_unnamed rows [] bad Hin Hbad). }
  rewrite E. split; reflexivity.
Qed.

Lemma one_unnamed_row_discards_all_metadata_witness :
  let good := [("column_name", VStr "ra"); ("unit", VStr "deg")] in
  let bad := [("unit", VStr "mag")] in
  let db := fixed_rows_db [good; bad] in
  "t" <> "" /\
  In bad [good; bad] /\
  dict_find "column_name" bad = None /\
  outcome (get_column_metadata db "t") = Ok [] /\
  forall col, metadata_find col
                (match outcome (get_column_metadata db "t") with
                 | Ok md => md
                 | Raise _ => []
                 end) = None.
Proof.
  cbv zeta.
  assert (Hne : "t" <> "") by discriminate.
  assert (Hin : In [("unit", VStr "mag")]
                  [ [("column_name", VStr "ra"); ("unit", VStr "deg")];
                    [("unit", VStr "mag")] ]) by (right; left; reflexivity).
  split; [exact Hne|]. split; [exact Hin|]. split; [reflexivity|].
  exact (@one_unnamed_row_discards_all_metadata
           (fixed_rows_db
              [ [("column_name", VStr "ra"); ("unit", VStr "deg")];
                [("unit", VStr "mag")] ])
           "t" _ [("unit", VStr "mag")] Hne eq_refl eq_refl Hin eq_refl).
Defined.

(** X8. The two defaults for a datatype meet in the document. A row
    of the columns relation without any datatype entry is given the
    datatype "char" by the lookup, and the field of its column says
    char; a row whose datatype entry is None or empty keeps that
    value, and the field falls back to "double". *)
Theorem datatype_defaults_char_and_double :
  forall col row,
    dict_find "column_name" row = Some (VStr col) ->
    let attrs := field_attrs (metadata_of_rows [row]) col in
    (dict_find "datatype" row = None ->
     dict_find "datatype" attrs = Some (VStr "char")) /\
    (forall v, dict_find "datatype" row = Some v -> truthy v = false ->
               dict_find "datatype" attrs = Some (VStr "double")) /\
    (forall v, dict_find "datatype" row = Some v -> truthy v = true ->
               dict_find "datatype" attrs = Some v).
Proof.
  intros col row Hname attrs.
  assert (Hfind : metadata_find col (metadata_of_rows [row])
                  = Some (column_meta_of_row row)).
  { cbn. rewrite (dict_get_found _ _ _ Hname). cbn.
    now rewrite String.eqb_refl. }
  destruct (field_attrs_stored _ col Hfind) as (Hd & _).
  subst attrs. rewrite Hd.
  change (dict_get "datatype" VNone (column_meta_of_row row))
    with (dict_get "datatype" (VStr "char") row).
  split; [|split].
  - intros H. now rewrite (dict_get_missing _ _ _ H).
  - intros v H Hv. now rewrite (dict_get_found _ _ _ H), Hv.
  - intros v H Hv. now rewrite (dict_get_found _ _ _ H), Hv.
Qed.

Lemma datatype_defaults_char_and_double_witness :
  let row := [("column_name", VStr "flux"); ("unit", VStr "Jy")] in
  let attrs := field_attrs (metadata_of_rows [row]) "flux" in
  (dict_find "datatype" row = None ->
   dict_find "datatype" attrs = Some (VStr "char")) /\
  (forall v, dict_find "datatype" row = Some v -> truthy v = false ->
             dict_find "datatype" attrs = Some (VStr "double")) /\
  (forall v, dict_find "datatype" row = Some v -> truthy v = true ->
             dict_find "datatype" attrs = Some v).
Proof.
  exact (@datatype_defaults_char_and_double "flux"
           [("column_name", VStr "flux"); ("unit", VStr "Jy")] eq_refl).
Defined.

(** ** The hard-coded fallbacks of a field *)

(** X9. The fallbacks for well-known column names apply only to a
    column without stored metadata, and by the lower-cased name: ra
    and ra_deg get unit deg and ucd pos.eq.ra;meta.main, dec and
    dec_deg get unit deg and ucd pos.eq.dec;meta.main, mag and
    magnitude get unit mag and ucd phot.mag, the datatype staying
    double. A column that has stored metadata never gets them: when
    its stored datatype, unit and ucd are all empty, its field has
    datatype double, an empty unit and no ucd, whatever its name. *)
Theorem role_fallbacks_only_without_metadata :
  forall md col,
    let fallback (unit ucd : string) :=
      field_attrs md col
      = [ ("name", VStr col); ("datatype", VStr "double");
          ("unit", VStr unit); ("ucd", VStr ucd) ] in
    (metadata_find col md = None ->
     (mem_str (lower col) ["ra"; "ra_deg"] = true ->
      fallback "deg" "pos.eq.ra;meta.main") /\
     (mem_str (lower col) ["dec"; "dec_deg"] = true ->
      fallback "deg" "pos.eq.dec;meta.main") /\
     (mem_str (lower col) ["mag"; "magnitude"] = true ->
      fallback "mag" "phot.mag")) /\
    (forall meta,
        metadata_find col md = Some meta ->
        truthy (dict_get "datatype" VNone meta) = false ->
        truthy (dict_get "unit" VNone meta) = false ->
        truthy (dict_get "ucd" VNone meta) = false ->
        field_attrs md col
        = [ ("name", VStr col); ("datatype", VStr "double");
            ("unit", VStr "") ]).
Proof.
  intros md col fallback. subst fallback. cbv beta. split.
  - intros Hnone. unfold field_attrs. rewrite metadata_guard, Hnone.
    unfold mem_str. cbn [existsb].
    destruct (String.eqb_spec (lower col) "ra") as [E|N1];
      [try rewrite E; repeat split; intros; try reflexivity; discriminate|].
    destruct (String.eqb_spec (lower col) "ra_deg") as [E|N2];
      [try rewrite E; repeat split; intros; try reflexivity; discriminate|].
    destruct (String.eqb_spec (lower col) "dec") as [E|N3];
      [try rewrite E; repeat split; intros; try reflexivity; discriminate|].
    destruct (String.eqb_spec (lower col) "dec_deg") as [E|N4];
      [try rewrite E; repeat split; intros; try reflexivity; discriminate|].
    destruct (String.eqb_spec (lower col) "mag") as [E|N5];
      [try rewrite E; repeat split; intros; try reflexivity; discriminate|].
    destruct (String.eqb_spec (lower col) "magnitude") as [E|N6];
      [try rewrite E; repeat split; intros; try reflexivity; discriminate|].
    repeat split; discriminate.
  - intros meta Hmeta Hd Hu Hc. unfold field_attrs.
    now rewrite metadata_guard, Hmeta, Hd, Hu, Hc.
Qed.

(** ** Formatting the pretty-printed text *)

Lemma split_on_no_sep c s : has_char c s = false -> split_on c s = [s].
Proof.
  induction s as [|x s IH]; cbn; [reflexivity|]. intros H.
  apply orb_false_iff in H as [Hx Hs]. now rewrite Hx, (IH Hs).
Qed.

Lemma split_on_at_sep c a b :
  has_char c a = false ->
  split_on c (a ++ String c b) = a :: split_on c b.
Proof.
  induction a as [|x a IH]; cbn.
  - intros _. now rewrite Ascii.eqb_refl.
  - intros H. apply orb_false_iff in H as [Hx Ha].
    now rewrite Hx, (IH Ha).
Qed.

Lemma split_on_not_nil c s : split_on c s <> [].
Proof.
  destruct s as [|x s]; cbn; [discriminate|].
  destruct (Ascii.eqb x c); [discriminate|].
  destruct (split_on c s); discriminate.
Qed.

Lemma split_on_final_sep c s :
  split_on c (s ++ String c "") = split_on c s ++ [""].
Proof.
  induction s as [|x s IH]; cbn.
  - now rewrite Ascii.eqb_refl.
  - rewrite IH. destruct (Ascii.eqb x c); [reflexivity|].
    pose proof (split_on_not_nil c s) as Hne.
    destruct (split_on c s); [contradiction | reflexivity].
Qed.

(** [sep.join(s.split(sep))] is [s]. *)
Lemma join_split_on c s : join (String c "") (split_on c s) = s.
Proof.
  induction s as [|x s IH]; cbn [split_on]; [reflexivity|].
  pose proof (split_on_not_nil c s) as Hne.
  destruct (Ascii.eqb_spec x c) as [->|Hx].
  - destruct (split_on c s) as [|w ws] eqn:E; [contradiction|].
    rewrite <- IH. reflexivity.
  - destruct (split_on c s) as [|w ws] eqn:E; [contradiction|].
    rewrite <- IH. destruct ws; reflexivity.
Qed.

Lemma drop_trailing_blank_keeps lines :
  lines <> [] -> is_blank (last lines "") = false ->
  drop_trailing_blank lines = lines.
Proof.
  induction lines as [|l lines IH]; [contradiction|]. intros _ Hlast.
  cbn [drop_trailing_blank]. destruct lines as [|l' lines].
  - cbn in *. now rewrite Hlast.
  - rewrite IH; [reflexivity | discriminate | exact Hlast].
Qed.

Lemma drop_trailing_blank_final lines :
  drop_trailing_blank (lines ++ [""]) = drop_trailing_blank lines.
Proof.
  induction lines as [|l lines IH]; cbn; [reflexivity|]. now rewrite IH.
Qed.

(** X10. Formatting replaces the declaration of the pretty-printer by
    the UTF-8 declaration and drops the final newline: a pretty text
    made of a first line that starts with <?xml, then a body whose
    last line is not blank, then a newline, is turned into the UTF-8
    declaration followed by the body, unchanged. *)
Theorem formatting_replaces_the_declaration :
  forall first body,
    startswith "<?xml" first = true ->
    has_char (ascii_of_nat 10) first = false ->
    is_blank (last (split_on (ascii_of_nat 10) body) "") = false ->
    with_declaration (first ++ newline ++ body ++ newline)
    = (xml_declaration ++ body)%string.
Proof.
  intros first body Hdecl Hline Hlast. unfold with_declaration, newline.
  change (first ++ String (ascii_of_nat 10) "" ++ body
          ++ String (ascii_of_nat 10) "")%string
    with (first ++ String (ascii_of_nat 10)
                     (body ++ String (ascii_of_nat 10) ""))%string.
  rewrite (split_on_at_sep _ _ _ Hline), Hdecl, split_on_final_sep.
  rewrite drop_trailing_blank_final.
  rewrite drop_trailing_blank_keeps;
    [|apply split_on_not_nil | exact Hlast].
  now rewrite join_split_on.
Qed.

Lemma formatting_replaces_the_declaration_witness :
  let first := ("<?xml version=" ++ dquote ++ "1.0" ++ dquote ++ " ?>")%string in
  let body := ("<tableset>" ++ newline ++ "</tableset>")%string in
  startswith "<?xml" first = true /\
  has_char (ascii_of_nat 10) first = false /\
  is_blank (last (split_on (ascii_of_nat 10) body) "") = false /\
  with_declaration (first ++ newline ++ body ++ newline)
  = (xml_declaration ++ body)%string.
Proof.
  cbv zeta.
  split; [reflexivity|]. split; [reflexivity|]. split; [reflexivity|].
  exact (@formatting_replaces_the_declaration
           ("<?xml version=" ++ dquote ++ "1.0" ++ dquote ++ " ?>")%string
           ("<tableset>" ++ newline ++ "</tableset>")%string
           eq_refl eq_refl eq_refl).
Defined.

(** ** More on the tables document *)

(** X11. The tables endpoint never fails: it always answers with
    status 200 and a body that starts with the XML declaration. The
    body is the formatted tableset when the walk of the store and the
    pretty-printer both succeed, and the minimal empty tableset as
    soon as anything raises -- connecting, a query, a row without its
    name, or the pretty-printer. *)
Theorem tables_always_answers :
  forall env,
    exists resp,
      outcome (tables env) = Ok resp /\
      status resp = 200%Z /\
      mimetype resp = "application/xml" /\
      startswith xml_declaration (body resp) = true /\
      match outcome (tableset_tree (tap_schema_db env)) with
      | Ok doc =>
          match toprettyxml env doc with
          | Ok pretty => body resp = with_declaration pretty
          | Raise _ => body resp = minimal_tableset
          end
      | Raise _ => body resp = minimal_tableset
      end.
Proof.
  intros env. unfold tables, generate_tables_xml.
  rewrite outcome_bind, outcome_try_except, outcome_bind.
  destruct (outcome (tableset_tree (tap_schema_db env))) as [doc|x].
  - unfold format_xml_with_indentation, call.
    destruct (toprettyxml env doc) as [pretty|x]; cbn.
    + eexists. repeat split.
    + eexists. repeat split.
  - cbn. eexists. repeat split.
Qed.

Lemma for_each_Forall2 {A B : Type} (f : A -> M B) xs :
  forall ys, outcome (for_each f xs) = Ok ys ->
             Forall2 (fun x y => outcome (f x) = Ok y) xs ys.
Proof.
  induction xs as [|x xs IH]; cbn [for_each]; intros ys.
  - intros [= <-]. constructor.
  - rewrite outcome_bind.
    destruct (outcome (f x)) as [y|e] eqn:Ey; [|discriminate].
    rewrite outcome_bind.
    destruct (outcome (for_each f xs)) as [ys'|e]; [|discriminate].
    cbn. intros [= <-]. constructor; [exact Ey | now apply IH].
Qed.

Lemma column_element_shape row e :
  outcome (column_element row) = Ok e ->
  exists name,
    dict_find "column_name" row = Some name /\
    e = Elem "column" [] VNone
          (text_elem "name" name
           :: optional_elem row "datatype" "dataType"
           ++ optional_elem row "unit" "unit"
           ++ optional_elem row "ucd" "ucd"
           ++ optional_elem row "description" "description").
Proof.
  unfold column_element, lift, item. rewrite outcome_bind. cbn [outcome snd].
  destruct (dict_find "column_name" row) as [name|]; [|discriminate].
  cbn. intros [= <-]. now exists name.
Qed.

Lemma table_element_shape db schema row e :
  outcome (table_element db schema row) = Ok e ->
  exists name crows ces,
    dict_find "table_name" row = Some name /\
    query db table_columns_sql
      [VStr (py_str schema ++ "." ++ py_str name)] = Ok crows /\
    outcome (for_each column_element crows) = Ok ces /\
    e = Elem "table" [] VNone
          (text_elem "name" name
           :: optional_elem row "description" "description" ++ ces).
Proof.
  unfold table_element, lift, item, call.
  rewrite outcome_bind. cbn [outcome snd].
  destruct (dict_find "table_name" row) as [name|]; [|discriminate].
  rewrite outcome_bind. cbn [outcome snd].
  destruct (query db table_columns_sql _) as [crows|x] eqn:Q; [|discriminate].
  rewrite outcome_bind.
  destruct (outcome (for_each column_element crows)) as [ces|x] eqn:F;
    [|discriminate].
  cbn. intros [= <-]. now exists name, crows, ces.
Qed.

Lemma schema_element_shape db row e :
  outcome (schema_element db row) = Ok e ->
  exists name trows tes,
    dict_find "schema_name" row = Some name /\
    query db tables_sql [name] = Ok trows /\
    outcome (for_each (table_element db name) trows) = Ok tes /\
    e = Elem "schema" [] VNone
          (text_elem "name" name
           :: optional_elem row "description" "description" ++ tes).
Proof.
  unfold schema_element, lift, item, call.
  rewrite outcome_bind. cbn [outcome snd].
  destruct (dict_find "schema_name" row) as [name|]; [|discriminate].
  rewrite outcome_bind. cbn [outcome snd].
  destruct (query db tables_sql [name]) as [trows|x] eqn:Q; [|discriminate].
  rewrite outcome_bind.
  destruct (outcome (for_each (table_element db name) trows))
    as [tes|x] eqn:F; [|discriminate].
  cbn. intros [= <-]. now exists name, trows, tes.
Qed.

Lemma optional_elem_tagged row key tag t :
  tag <> t -> filter (is_tag t) (optional_elem row key tag) = [].
Proof.
  intros H. apply String.eqb_neq in H. unfold optional_elem.
  destruct (truthy _); [|reflexivity]. cbn. unfold is_tag. cbn.
  now rewrite H.
Qed.

Lemma filter_none_tagged t (es : list Element) :
  Forall (fun e => tag_of e <> t) es -> filter (is_tag t) es = [].
Proof.
  induction 1 as [|e es He _ IH]; cbn; [reflexivity|].
  unfold is_tag at 1. apply String.eqb_neq in He. now rewrite He.
Qed.

Lemma filter_all_tagged t (es : list Element) :
  Forall (fun e => tag_of e = t) es -> filter (is_tag t) es = es.
Proof.
  induction 1 as [|e es He _ IH]; cbn; [reflexivity|].
  unfold is_tag at 1. rewrite He, String.eqb_refl. now rewrite IH.
Qed.

(** The names found under the elements built by a loop are the names
    of the rows of the loop, when each element holds exactly its row's
    name. *)
Lemma names_of_elements {A : Type} (f : A -> M Element) (key : A -> Value)
    tag xs ys :
  Forall2 (fun x y => outcome (f x) = Ok y) xs ys ->
  (forall x y, outcome (f x) = Ok y ->
               tag_of y = tag /\
               children_tagged "name" y = [text_elem "name" (key x)]) ->
  filter (is_tag tag) ys = ys /\
  map text_of (flat_map (children_tagged "name") ys) = map key xs.
Proof.
  intros Hall Hshape. induction Hall as [|x y xs ys Hxy _ IH].
  - now split.
  - destruct (Hshape x y Hxy) as [Htag Hname]. destruct IH as [IH1 IH2].
    split.
    + cbn. unfold is_tag at 1. now rewrite Htag, String.eqb_refl, IH1.
    + cbn [flat_map map]. rewrite Hname. cbn. now rewrite IH2.
Qed.

Lemma for_each_tags {A : Type} (f : A -> M Element) tag xs ys :
  outcome (for_each f xs) = Ok ys ->
  (forall x y, outcome (f x) = Ok y -> tag_of y = tag) ->
  Forall (fun e => tag_of e = tag) ys.
Proof.
  intros H Hf. eapply for_each_outcome; [exact Hf | exact H].
Qed.

Lemma column_element_name row e :
  outcome (column_element row) = Ok e ->
  tag_of e = "column" /\
  children_tagged "name" e
  = [text_elem "name" (dict_get "column_name" VNone row)].
Proof.
  intros H. apply column_element_shape in H as (name & Hn & ->).
  split; [reflexivity|]. unfold children_tagged. cbn [children_of filter].
  rewrite !filter_app, !optional_elem_tagged by discriminate.
  now rewrite (dict_get_found _ _ _ Hn).
Qed.

Lemma table_element_name db schema row e :
  outcome (table_element db schema row) = Ok e ->
  tag_of e = "table" /\
  children_tagged "name" e
  = [text_elem "name" (dict_get "table_name" VNone row)].
Proof.
  intros H. apply table_element_shape in H
    as (name & crows & ces & Hn & _ & Hces & ->).
  split; [reflexivity|]. unfold children_tagged. cbn [children_of filter].
  rewrite filter_app, optional_elem_tagged by discriminate.
  rewrite (dict_get_found _ _ _ Hn), filter_none_tagged; [reflexivity|].
  eapply Forall_impl; [|apply (@for_each_tags _ column_element "column" _ _ Hces)].
  - cbn. intros a ->. discriminate.
  - intros x y Hy. now apply column_element_name in Hy.
Qed.

Lemma schema_element_name db row e :
  outcome (schema_element db row) = Ok e ->
  tag_of e = "schema" /\
  children_tagged "name" e
  = [text_elem "name" (dict_get "schema_name" VNone row)].
Proof.
  intros H. apply schema_element_shape in H
    as (name & trows & tes & Hn & _ & Htes & ->).
  split; [reflexivity|]. unfold children_tagged. cbn [children_of filter].
  rewrite filter_app, optional_elem_tagged by discriminate.
  rewrite (dict_get_found _ _ _ Hn), filter_none_tagged; [reflexivity|].
  eapply Forall_impl; [|apply (@for_each_tags _ (table_element db name) "table" _ _ Htes)].
  - cbn. intros a ->. discriminate.
  - intros x y Hy. now apply table_element_name in Hy.
Qed.

(** X12. When the walk of the store succeeds, the tableset has
    exactly one schema element per row of the schemas query, in the
    order of the rows, each with the row's schema_name as its name. *)
Theorem tableset_lists_every_schema :
  forall db rows doc,
    connect db = Ok tt ->
    query db schemas_sql [] = Ok rows ->
    outcome (tableset_tree db) = Ok doc ->
    tag_of doc = "tableset" /\
    List.length (children_tagged "schema" doc) = List.length rows /\
    List.length (children_of doc) = List.length rows /\
    map text_of (descend ["schema"; "name"] [doc])
    = map (dict_get "schema_name" VNone) rows.
Proof.
  intros db rows doc Hconn Hq. unfold tableset_tree, call.
  rewrite Hconn, bind_ok. cbn [outcome snd trace fst].
  rewrite Hq, outcome_bind. cbn [outcome snd].
  rewrite outcome_bind.
  destruct (outcome (for_each (schema_element db) rows)) as [ses|x] eqn:F;
    [|discriminate].
  cbn. intros [= <-].
  pose proof (for_each_Forall2 _ _ F) as Hall.
  destruct (names_of_elements (schema_element db)
              (dict_get "schema_name" VNone) (tag := "schema") Hall) as [Htags Hnames].
  { intros x y Hy. now apply schema_element_name in Hy. }
  pose proof (Forall2_length Hall) as Hlen.
  unfold children_tagged at 1. cbn [children_of tag_of].
  rewrite Htags. repeat split; try (now symmetry).
  unfold descend. cbn [flat_map]. rewrite app_nil_r.
  unfold children_tagged at 2. cbn [children_of]. now rewrite Htags.
Qed.

Lemma tableset_lists_every_schema_witness :
  let db := Store.db Demo.gaia_store in
  connect db = Ok tt /\
  query db schemas_sql [] = Ok [gaia_schema_row] /\
  exists doc,
    outcome (tableset_tree db) = Ok doc /\
    tag_of doc = "tableset" /\
    List.length (children_tagged "schema" doc) = 1%nat /\
    List.length (children_of doc) = 1%nat /\
    map text_of (descend ["schema"; "name"] [doc])
    = map (dict_get "schema_name" VNone) [gaia_schema_row].
Proof.
  cbv zeta. split; [reflexivity|]. split; [reflexivity|].
  eexists. split; [vm_compute; reflexivity|].
  refine (@tableset_lists_every_schema (Store.db Demo.gaia_store)
            [gaia_schema_row] _ eq_refl eq_refl _).
  vm_compute; reflexivity.
Defined.

(** X13. A schema element lists the tables the store returns for the
    schema's name: one table element per row of the tables query made
    with that name, in order, each with the row's table_name as its
    name. *)
Theorem schema_lists_its_tables :
  forall db row e,
    outcome (schema_element db row) = Ok e ->
    exists name trows,
      dict_find "schema_name" row = Some name /\
      query db tables_sql [name] = Ok trows /\
      List.length (children_tagged "table" e) = List.length trows /\
      map text_of (descend ["table"; "name"] [e])
      = map (dict_get "table_name" VNone) trows.
Proof.
  intros db row e H. apply schema_element_shape in H
    as (name & trows & tes & Hn & Hq & Htes & ->).
  exists name, trows. split; [exact Hn|]. split; [exact Hq|].
  pose proof (for_each_Forall2 _ _ Htes) as Hall.
  destruct (names_of_elements (table_element db name)
              (dict_get "table_name" VNone) (tag := "table") Hall) as [Htags Hnames].
  { intros x y Hy. now apply table_element_name in Hy. }
  pose proof (Forall2_length Hall) as Hlen.
  assert (Hchildren : children_tagged "table"
                        (Elem "schema" [] VNone
                           (text_elem "name" name
                            :: optional_elem row "description" "description"
                            ++ tes)) = tes).
  { unfold children_tagged. cbn [children_of filter].
    rewrite filter_app, optional_elem_tagged by discriminate.
    cbn. exact Htags. }
  split; [now rewrite Hchildren|].
  unfold descend. cbn [flat_map]. rewrite app_nil_r, Hchildren.
  exact Hnames.
Qed.

Lemma schema_lists_its_tables_witness :
  let db := Store.db Demo.gaia_store in
  exists e,
    outcome (schema_element db gaia_schema_row) = Ok e /\
    exists name trows,
      dict_find "schema_name" gaia_schema_row = Some name /\
      query db tables_sql [name] = Ok trows /\
      List.length (children_tagged "table" e) = List.length trows /\
      map text_of (descend ["table"; "name"] [e])
      = map (dict_get "table_name" VNone) trows.
Proof.
  cbv zeta. eexists. split; [vm_compute; reflexivity|].
  refine (@schema_lists_its_tables (Store.db Demo.gaia_store)
            gaia_schema_row _ _).
  vm_compute; reflexivity.
Defined.

(** X14. The columns of a table are looked up under its qualified
    name: the text of the schema name, a dot, and the text of the
    table name. The table element has one column element per row of
    that query, in order, each with the row's column_name as its
    name. *)
Theorem table_lists_its_columns :
  forall db schema row e,
    outcome (table_element db schema row) = Ok e ->
    exists name crows,
      dict_find "table_name" row = Some name /\
      query db table_columns_sql
        [VStr (py_str schema ++ "." ++ py_str name)] = Ok crows /\
      List.length (children_tagged "column" e) = List.length crows /\
      map text_of (descend ["column"; "name"] [e])
      = map (dict_get "column_name" VNone) crows.
Proof.
  intros db schema row e H. apply table_element_shape in H
    as (name & crows & ces & Hn & Hq & Hces & ->).
  exists name, crows. split; [exact Hn|]. split; [exact Hq|].
  pose proof (for_each_Forall2 _ _ Hces) as Hall.
  destruct (names_of_elements column_element
              (dict_get "column_name" VNone) (tag := "column") Hall)
    as [Htags Hnames].
  { intros x y Hy. now apply column_element_name in Hy. }
  pose proof (Forall2_length Hall) as Hlen.
  assert (Hchildren : children_tagged "column"
                        (Elem "table" [] VNone
                           (text_elem "name" name
                            :: optional_elem row "description" "description"
                            ++ ces)) = ces).
  { unfold children_tagged. cbn [children_of filter].
    rewrite filter_app, optional_elem_tagged by discriminate.
    cbn. exact Htags. }
  split; [now rewrite Hchildren|].
  unfold descend. cbn [flat_map]. rewrite app_nil_r, Hchildren.
  exact Hnames.
Qed.

Lemma table_lists_its_columns_witness :
  let db := Store.db Demo.gaia_store in
  exists e,
    outcome (table_element db (VStr "gaia_dr3") gaia_table_row) = Ok e /\
    exists name crows,
      dict_find "table_name" gaia_table_row = Some name /\
      query db table_columns_sql
        [VStr (py_str (VStr "gaia_dr3") ++ "." ++ py_str name)] = Ok crows /\
      List.length (children_tagged "column" e) = List.length crows /\
      map text_of (descend ["column"; "name"] [e])
      = map (dict_get "column_name" VNone) crows.
Proof.
  cbv zeta. eexists. split; [vm_compute; reflexivity|].
  refine (@table_lists_its_columns (Store.db Demo.gaia_store)
            (VStr "gaia_dr3") gaia_table_row _ _).
  vm_compute; reflexivity.
Defined.

Lemma optional_elem_same_tag row key tag :
  filter (is_tag tag) (optional_elem row key tag) = optional_elem row key tag.
Proof.
  unfold optional_elem. destruct (truthy _); [|reflexivity].
  cbn. unfold is_tag. cbn. now rewrite String.eqb_refl.
Qed.

(** X15. A column element carries a dataType, unit, ucd or
    description child only for a value that is present and not empty:
    each of these children appears at most once, with the stored
    value as its text, and is left out when the row has no such entry
    or the entry is None or the empty string. *)
Theorem column_element_omits_empty_values :
  forall row e key tag,
    outcome (column_element row) = Ok e ->
    In (key, tag) [ ("datatype", "dataType"); ("unit", "unit");
                    ("ucd", "ucd"); ("description", "description") ] ->
    map text_of (children_tagged tag e)
    = if truthy (dict_get key VNone row)
      then [dict_get key VNone row] else [].
Proof.
  intros row e key tag H Hin. apply column_element_shape in H
    as (name & Hn & ->).
  unfold children_tagged. cbn [children_of].
  assert (Hopt : forall k, map text_of (optional_elem row k tag)
                           = if truthy (dict_get k VNone row)
                             then [dict_get k VNone row] else []).
  { intros k. unfold optional_elem. now destruct (truthy _). }
  cbn in Hin.
  destruct Hin as [E|[E|[E|[E|[]]]]]; injection E as <- <-;
    cbn [filter is_tag tag_of text_elem String.eqb Ascii.eqb Bool.eqb];
    rewrite !filter_app;
    repeat first
      [ rewrite optional_elem_same_tag
      | rewrite optional_elem_tagged by discriminate ];
    cbn [app]; rewrite ?app_nil_r; apply Hopt.
Qed.

Lemma column_element_omits_empty_values_witness :
  let row := [ ("column_name", VStr "parent_id"); ("datatype", VStr "long");
               ("unit", VNone); ("ucd", VStr "") ] in
  exists e,
    outcome (column_element row) = Ok e /\
    In ("unit", "unit") [ ("datatype", "dataType"); ("unit", "unit");
                          ("ucd", "ucd"); ("description", "description") ] /\
    map text_of (children_tagged "unit" e)
    = if truthy (dict_get "unit" VNone row)
      then [dict_get "unit" VNone row] else [].
Proof.
  cbv zeta. eexists. split; [vm_compute; reflexivity|].
  assert (Hin : In ("unit", "unit")
                  [ ("datatype", "dataType"); ("unit", "unit");
                    ("ucd", "ucd"); ("description", "description") ])
    by (right; left; reflexivity).
  split; [exact Hin|].
  refine (@column_element_omits_empty_values
            [ ("column_name", VStr "parent_id"); ("datatype", VStr "long");
              ("unit", VNone); ("ucd", VStr "") ] _ "unit" "unit" _ Hin).
  vm_compute; reflexivity.
Defined.

(** ** The catalog path *)

Lemma has_char_app c a b : has_char c (a ++ b) = has_char c a || has_char c b.
Proof.
  induction a as [|x a IH]; cbn; [reflexivity|].
  now rewrite IH, orb_assoc.
Qed.

(** X16. The catalog path handed to lsdb is built from at most two
    parts of the descriptor's table name: a name without a dot gives
    prefix/name/, a name schema.table gives prefix/schema/table/, and
    whatever follows a second dot is ignored. *)
Theorem catalog_url_uses_two_parts :
  forall a b rest,
    has_char dot a = false ->
    has_char dot b = false ->
    catalog_url a = (catalog_prefix ++ "/" ++ a ++ "/")%string /\
    catalog_url (a ++ "." ++ b)
    = (catalog_prefix ++ "/" ++ a ++ "/" ++ b ++ "/")%string /\
    catalog_url (a ++ "." ++ b ++ "." ++ rest)
    = (catalog_prefix ++ "/" ++ a ++ "/" ++ b ++ "/")%string.
Proof.
  intros a b rest Ha Hb. unfold catalog_url. split; [now rewrite Ha|].
  change ("." ++ b)%string with (String dot b).
  change ("." ++ b ++ "." ++ rest)%string
    with (String dot (b ++ String dot rest)).
  rewrite !has_char_app. cbn [has_char]. rewrite !Ascii.eqb_refl.
  rewrite !orb_true_r.
  rewrite !(split_on_at_sep _ _ _ Ha), (split_on_no_sep _ _ Hb).
  rewrite (split_on_at_sep _ _ _ Hb). split; reflexivity.
Qed.

Lemma catalog_url_uses_two_parts_witness :
  has_char dot "gaia_dr3" = false /\
  has_char dot "gaia" = false /\
  catalog_url "gaia_dr3"
  = (catalog_prefix ++ "/" ++ "gaia_dr3" ++ "/")%string /\
  catalog_url ("gaia_dr3" ++ "." ++ "gaia")
  = (catalog_prefix ++ "/" ++ "gaia_dr3" ++ "/" ++ "gaia" ++ "/")%string /\
  catalog_url ("gaia_dr3" ++ "." ++ "gaia" ++ "." ++ "source")
  = (catalog_prefix ++ "/" ++ "gaia_dr3" ++ "/" ++ "gaia" ++ "/")%string.
Proof.
  split; [reflexivity|]. split; [reflexivity|].
  exact (@catalog_url_uses_two_parts "gaia_dr3" "gaia" "source"
           eq_refl eq_refl).
Defined.

(** ** More on the table name of the metadata lookup *)

(** X17. Whatever the query text, of any code points, the name the
    scan yields for the metadata lookup is a table name as the pattern
    reads it -- an identifier, or two identifiers joined by a dot,
    whose letters are the ASCII letters and the four code points that
    re.IGNORECASE folds into them -- its upper-cased table part is none
    of the SQL keywords, and it is never empty. *)
Theorem lookup_name_is_a_table_name_not_a_keyword :
  forall q : Uni.text,
    is_candidate (table_name_of_query q) /\
    is_sql_keyword (table_part (table_name_of_query q)) = false /\
    table_name_of_query q <> [] /\
    forall s : string, metadata_table_name s <> "".
Proof.
  intros q. split; [|split; [|split]].
  - destruct (table_name_of_query_resolves q)
      as [[-> _] | (pre & cand & [Hocc _] & ->)]; [now left|].
    destruct (is_sql_keyword (table_part cand)); [now left|].
    now destruct Hocc as (kw & ws & post & _ & _ & _ & _ & _ & Hcand & _).
  - destruct (table_name_of_query_resolves q)
      as [[-> _] | (pre & cand & _ & ->)]; [reflexivity|].
    destruct (is_sql_keyword (table_part cand)) eqn:E;
      [reflexivity | exact E].
  - apply table_name_of_query_not_empty.
  - apply metadata_table_name_not_empty.
Qed.

Lemma from_marker_length kw :
  is_from_marker kw = true -> List.length kw = 4%nat.
Proof.
  intros H. apply from_marker_inv in H as (c1 & c2 & c3 & c4 & -> & _).
  reflexivity.
Qed.

Lemma candidate_starts_without_space cand rest :
  is_candidate cand ->
  match cand ++ rest with
  | c :: _ => Uni.is_space c = false
  | [] => True
  end.
Proof.
  intros [H | (a & b & -> & Ha & _)].
  - apply is_identifier_inv in H as (a & id & -> & Ha & _).
    cbn. now apply ident_start_not_space.
  - apply is_identifier_inv in Ha as (a0 & id & -> & Ha & _).
    cbn. now apply ident_start_not_space.
Qed.

(** Two occurrences at the same place with candidates of the same
    length are the same occurrence. *)
Lemma from_occurrence_unique q pre cand pre' cand' :
  from_occurrence q pre cand -> from_occurrence q pre' cand' ->
  List.length pre = List.length pre' ->
  List.length cand = List.length cand' ->
  cand = cand'.
Proof.
  intros (kw & ws & post & -> & _ & Hkw & _ & Hws & Hcand & _)
         (kw' & ws' & post' & Hq & _ & Hkw' & _ & Hws' & Hcand' & _)
         Hpre Hlen.
  apply same_length_prefix in Hq as [-> Hq]; [|exact Hpre].
  apply same_length_prefix in Hq as [-> Hq];
    [|now rewrite (from_marker_length _ Hkw), (from_marker_length _ Hkw')].
  pose proof (span_exact Uni.is_space ws (cand ++ post) Hws
                (candidate_starts_without_space post Hcand)) as S.
  pose proof (span_exact Uni.is_space ws' (cand' ++ post') Hws'
                (candidate_starts_without_space post' Hcand')) as S'.
  rewrite Hq, S' in S. injection S as -> Hrest.
  symmetry in Hrest.
  now apply same_length_prefix in Hrest as [-> _].
Qed.

(** X18. The first FROM marker that is followed by a table name
    decides alone, in a text of any code points: when the upper-cased
    table part of its candidate is an SQL keyword the scan yields
    "results", also when a later FROM clause names a table; otherwise
    it yields that candidate. *)
Theorem first_candidate_decides :
  forall q pre cand,
    first_from_occurrence q pre cand ->
    table_name_of_query q
    = if is_sql_keyword (table_part cand)
      then Uni.of_string "results" else cand.
Proof.
  intros q pre cand [Hocc Hfirst].
  destruct (table_name_of_query_resolves q)
    as [[_ Hnone] | (pre' & cand' & [Hocc' Hfirst'] & ->)].
  - exfalso. exact (Hnone _ _ Hocc).
  - assert (cand' = cand) as ->; [|reflexivity].
    destruct (Hfirst _ _ Hocc') as [H1 | [H1 H1']];
      destruct (Hfirst' _ _ Hocc) as [H2 | [H2 H2']]; try lia.
    apply (from_occurrence_unique Hocc' Hocc); lia.
Qed.

Lemma first_candidate_decides_witness :
  let q := Uni.of_string
             "SELECT ra FROM where x > 1 union select ra FROM gaia" in
  (exists pre, first_from_occurrence q pre (Uni.of_string "where")) /\
  table_name_of_query q = Uni.of_string "results".
Proof.
  cbv zeta.
  assert (H : exists pre,
             first_from_occurrence
               (Uni.of_string
                  "SELECT ra FROM where x > 1 union select ra FROM gaia")
               pre (Uni.of_string "where")).
  { pose proof (search_from_table_re_spec
                  (Uni.of_string
                     "SELECT ra FROM where x > 1 union select ra FROM gaia"))
      as S.
    assert (E : URe.search from_table_re
                  (Uni.of_string
                     "SELECT ra FROM where x > 1 union select ra FROM gaia")
                = Some (Some (Uni.of_string "where")))
      by (vm_compute; reflexivity).
    rewrite E in S. exact S. }
  split; [exact H|].
  destruct H as [pre H].
  exact (@first_candidate_decides _ pre (Uni.of_string "where") H).
Defined.

(** ** A query from its text to its document *)

(** What [process_query] does once the rows are there, for a supported
    format: the metadata lookup, then the success document. *)
Lemma process_query_votable env q fmt t data cols table :
  (if is_tap_schema_query q then
     r <- query_tap_schema (tap_schema_db env) q ;;
     ret (fst r, snd r, "tap_schema")
   else run_data_query env q) = (t, Ok (data, cols, table)) ->
  mem_str fmt ["votable"; "votable/td"] = true ->
  exists md,
    outcome (get_column_metadata (tap_schema_db env) table) = Ok md /\
    process_query env q fmt
    = (t ++ trace (get_column_metadata (tap_schema_db env) table)
         ++ [EvPretty (votable_tree (utcnow_isoformat env) data cols
                         [("query", q); ("table", table)] md)],
       match toprettyxml env
               (votable_tree (utcnow_isoformat env) data cols
                  [("query", q); ("table", table)] md) with
       | Ok pretty => Ok (xml_response 200 (with_declaration pretty))
       | Raise x => Raise x
       end).
Proof.
  intros Hfound Hfmt.
  destruct (get_column_metadata_total (tap_schema_db env) table) as [md Hmd].
  exists md. split; [exact Hmd|].
  unfold process_query. rewrite Hfound, bind_ok. cbv beta iota.
  destruct (get_column_metadata (tap_schema_db env) table) as [t2 r] eqn:G.
  cbn [outcome snd] in Hmd. subst r. rewrite bind_ok, Hfmt.
  cbn [trace outcome fst snd].
  unfold create_votable_response, format_xml_with_indentation, call.
  destruct (toprettyxml env _) as [pretty|x]; reflexivity.
Qed.



(** X20. Of the tables of the descriptor only the first is read, and
    its ordering is never read: a request is answered exactly as the
    same request whose descriptor holds that one table and no
    ordering -- the same calls to the collaborators and the same
    response. A join is not executed and ORDER BY is not applied. *)
Theorem further_tables_and_ordering_ignored :
  forall env params ent,
    parse_adql_entities env (dict_get "QUERY" "" params) = Ok ent ->
    sync_query env params
    = sync_query (with_parser env (fun _ => Ok (first_table_unordered ent)))
        params.
Proof.
  intros env params ent Hparse. unfold sync_query.
  destruct (negb (String.eqb (dict_get "REQUEST" "" params) "doQuery"));
    [reflexivity|].
  destruct (negb (Re.matches_at_start lang_re (dict_get "LANG" "ADQL" params)));
    [reflexivity|].
  destruct (String.eqb (dict_get "QUERY" "" params) ""); [reflexivity|].
  unfold processing_error, process_query.
  destruct (is_tap_schema_query (dict_get "QUERY" "" params)); [reflexivity|].
  unfold run_data_query, with_parser.
  cbn [parse_adql_entities lsdb tap_schema_db toprettyxml utcnow_isoformat].
  rewrite Hparse. unfold call. rewrite !bind_ok.
  cbn [first_table_unordered ent_tables ent_columns ent_conditions
       ent_spatial_search ent_limits].
  destruct (ent_tables ent) as [|table others]; reflexivity.
Qed.

Lemma further_tables_and_ordering_ignored_witness :
  let env := with_parser demo_env (fun _ => Ok joined_entities) in
  parse_adql_entities env (dict_get "QUERY" "" demo_request)
  = Ok joined_entities /\
  first_table_unordered joined_entities
  = mkEntities ["gaia_dr3.gaia"] ["ra"; "dec"] [] None 15 [] /\
  sync_query env demo_request
  = sync_query
      (with_parser env (fun _ => Ok (first_table_unordered joined_entities)))
      demo_request.
Proof.
  cbv zeta.
  split; [reflexivity|]. split; [reflexivity|].
  exact (@further_tables_and_ordering_ignored
           (with_parser demo_env (fun _ => Ok joined_entities))
           demo_request joined_entities eq_refl).
Defined.

(** ** Exceptions that leave the handler *)

(** X21. An exception leaves [sync_query] only when the pretty-printer
    rejects an error document: if [sync_query] raises, the last
    document it tried to print is an error document -- with the query
    text when the request had passed the parameter checks, without it
    otherwise -- and the exception is the one the printer raised on
    it. No failure of the parser, of lsdb or of the metadata store,
    and no rejected success document, reaches the caller by itself. *)
Theorem exceptions_escape_only_from_error_rendering :
  forall env params x,
    outcome (sync_query env params) = Raise x ->
    exists msg docs,
      let doc :=
        error_tree msg
          (if valid_request params then dict_get "QUERY" "" params else "") in
      documents (sync_query env params) = docs ++ [doc] /\
      toprettyxml env doc = Raise x.
Proof.
  intros env params x H.
  destruct (valid_request params) eqn:Hv.
  - rewrite (sync_query_valid env _ Hv) in *.
    rewrite outcome_try_except in H.
    unfold documents. rewrite trace_try_except, flat_map_app.
    destruct (outcome (process_query env _ _)) as [resp|e]; [discriminate|].
    unfold processing_error in *. rewrite error_response_trace.
    rewrite outcome_bind in H. unfold create_error_votable in H.
    destruct (outcome (format_xml_with_indentation env _)) as [xml|x'] eqn:F;
      [discriminate|].
    injection H as ->.
    unfold format_xml_with_indentation, call in F.
    destruct (toprettyxml env _) as [pretty|x'] eqn:P; [discriminate|].
    cbn in F. injection F as ->.
    eexists. eexists. cbv zeta. split; [reflexivity | exact P].
  - destruct (sync_query_invalid env _ Hv) as [msg E]. rewrite E in *.
    unfold documents. rewrite error_response_trace.
    rewrite outcome_bind in H. unfold create_error_votable in H.
    destruct (outcome (format_xml_with_indentation env _)) as [xml|x'] eqn:F;
      [discriminate|].
    injection H as ->.
    unfold format_xml_with_indentation, call in F.
    destruct (toprettyxml env _) as [pretty|x'] eqn:P; [discriminate|].
    cbn in F. injection F as ->.
    exists msg, []. cbv zeta. split; [reflexivity | exact P].
Qed.

Lemma exceptions_escape_only_from_error_rendering_witness :
  let env := mkEnv (parse_adql_entities demo_env) (lsdb demo_env)
               (tap_schema_db demo_env) rejecting_printer
               (utcnow_isoformat demo_env) in
  let x := mkExn "ExpatError" "not well-formed (invalid token)" in
  outcome (sync_query env demo_request) = Raise x /\
  exists msg docs,
    documents (sync_query env demo_request)
    = docs ++ [error_tree msg
                 (if valid_request demo_request
                  then dict_get "QUERY" "" demo_request else "")] /\
    toprettyxml env
      (error_tree msg
         (if valid_request demo_request
          then dict_get "QUERY" "" demo_request else "")) = Raise x.
Proof.
  cbv zeta.
  split; [vm_compute; reflexivity|].
  refine (@exceptions_escape_only_from_error_rendering
            (mkEnv (parse_adql_entities demo_env) (lsdb demo_env)
               (tap_schema_db demo_env) rejecting_printer
               (utcnow_isoformat demo_env))
            demo_request _ _).
  vm_compute; reflexivity.
Defined.

Lemma store_events_print_nothing (t : list Event) :
  Forall store_lookup_event t ->
  flat_map (fun ev => match ev with EvPretty e => [e] | _ => [] end) t = [].
Proof.
  induction 1 as [|ev t Hev _ IH]; [reflexivity|].
  cbn [flat_map]. rewrite IH.
  destruct ev; cbn in Hev; try contradiction; reflexivity.
Qed.

(** X22. A success document that the pretty-printer rejects is
    reported like any other failure. For a TAP_SCHEMA request whose
    rows were read, when printing the success document raises -- as it
    does when the store returns a datatype that is not a string -- the
    request is answered with status 500 and an error document with the
    message "Error processing query: " followed by the text of that
    exception; two documents were handed to the printer, the rejected
    one first. *)
Theorem unserializable_result_is_reported :
  forall env params rows cols md x pretty,
    valid_request params = true ->
    is_tap_schema_query (dict_get "QUERY" "" params) = true ->
    mem_str (lower (dict_get "FORMAT" "votable" params))
      ["votable"; "votable/td"] = true ->
    query_with_columns (tap_schema_db env) (dict_get "QUERY" "" params)
    = Ok (rows, cols) ->
    outcome (get_column_metadata (tap_schema_db env) "tap_schema") = Ok md ->
    toprettyxml env
      (votable_tree (utcnow_isoformat env) rows cols
         [("query", dict_get "QUERY" "" params); ("table", "tap_schema")] md)
    = Raise x ->
    toprettyxml env
      (error_tree ("Error processing query: " ++ exn_str x)
         (dict_get "QUERY" "" params)) = Ok pretty ->
    outcome (sync_query env params)
    = Ok (mkResponse (with_declaration pretty) "application/xml" 500) /\
    documents (sync_query env params)
    = [ votable_tree (utcnow_isoformat env) rows cols
          [("query", dict_get "QUERY" "" params); ("table", "tap_schema")] md;
        error_tree ("Error processing query: " ++ exn_str x)
          (dict_get "QUERY" "" params) ].
Proof.
  intros env params rows cols md x pretty Hv Htap Hfmt Hq Hmd Hdoc Hp.
  set (q := dict_get "QUERY" "" params) in *.
  assert (Hfound :
            (if is_tap_schema_query q then
               r <- query_tap_schema (tap_schema_db env) q ;;
               ret (fst r, snd r, "tap_schema")
             else run_data_query env q)
            = ([EvQueryWithColumns q], Ok (rows, cols, "tap_schema"))).
  { rewrite Htap. unfold query_tap_schema, call. now rewrite Hq. }
  destruct (process_query_votable env q _ Hfound Hfmt) as (md' & Hmd' & Hpq).
  rewrite Hmd in Hmd'. injection Hmd' as <-. rewrite Hdoc in Hpq.
  destruct (@processing_exception_response env params x Hv)
    as (Ht & Ho & _); [fold q; now rewrite Hpq|].
  fold q in Ht, Ho. split; [now apply Ho|].
  unfold documents. rewrite Ht, Hpq. cbn [trace fst].
  rewrite !flat_map_app. cbn [flat_map app].
  rewrite (store_events_print_nothing
             (get_column_metadata_events (tap_schema_db env) "tap_schema")).
  reflexivity.
Qed.

Lemma unserializable_result_is_reported_witness :
  let env := Demo.env Demo.cone_entities Demo.one_row_frame int_datatype_db in
  let params := [("REQUEST", "doQuery");
                 ("QUERY", "SELECT schema_name FROM tap_schema.schemas")] in
  let x := mkExn "TypeError" "cannot serialize 5" in
  valid_request params = true /\
  is_tap_schema_query (dict_get "QUERY" "" params) = true /\
  exists md pretty,
    toprettyxml env
      (votable_tree (utcnow_isoformat env)
         [[("schema_name", VStr "gaia_dr3")]] ["schema_name"]
         [("query", dict_get "QUERY" "" params); ("table", "tap_schema")] md)
    = Raise x /\
    outcome (sync_query env params)
    = Ok (mkResponse (with_declaration pretty) "application/xml" 500) /\
    documents (sync_query env params)
    = [ votable_tree (utcnow_isoformat env)
          [[("schema_name", VStr "gaia_dr3")]] ["schema_name"]
          [("query", dict_get "QUERY" "" params); ("table", "tap_schema")] md;
        error_tree ("Error processing query: " ++ exn_str x)
          (dict_get "QUERY" "" params) ].
Proof.
  cbv zeta.
  split; [vm_compute; reflexivity|].
  split; [vm_compute; reflexivity|].
  eexists. eexists. split; [|
  refine (@unserializable_result_is_reported
            (Demo.env Demo.cone_entities Demo.one_row_frame int_datatype_db)
            [("REQUEST", "doQuery");
             ("QUERY", "SELECT schema_name FROM tap_schema.schemas")]
            [[("schema_name", VStr "gaia_dr3")]] ["schema_name"] _
            (mkExn "TypeError" "cannot serialize 5") _
            _ _ _ eq_refl _ _ _)].
  - instantiate (1 := [(VStr "schema_name",
                        column_meta_of_row
                          [("column_name", VStr "schema_name");
                           ("datatype", VInt 5)])]).
    vm_compute; reflexivity.
  - vm_compute; reflexivity.
  - vm_compute; reflexivity.
  - vm_compute; reflexivity.
  - vm_compute; reflexivity.
  - vm_compute; reflexivity.
  - vm_compute; reflexivity.
Defined.

(** X23. A data query does not need the metadata store. When the
    store cannot be connected to, a data query whose other
    collaborators succeed is still answered with status 200: the
    lookup makes one attempt to connect and no query, and the success
    document is the one built with no metadata at all, so that every
    field has the datatype double. *)
Theorem data_query_without_store :
  forall env params ent table others sf cat df e pretty,
    valid_request params = true ->
    is_tap_schema_query (dict_get "QUERY" "" params) = false ->
    mem_str (lower (dict_get "FORMAT" "votable" params))
      ["votable"; "votable/td"] = true ->
    parse_adql_entities env (dict_get "QUERY" "" params) = Ok ent ->
    ent_tables ent = table :: others ->
    search_filter_of (ent_spatial_search ent) = Ok sf ->
    open_catalog (lsdb env) (catalog_url table) (ent_columns ent) sf
      (ent_conditions ent) = Ok cat ->
    head cat (ent_limits ent) = Ok df ->
    connect (tap_schema_db env) = Raise e ->
    let q := dict_get "QUERY" "" params in
    let doc :=
      votable_tree (utcnow_isoformat env) (df_records df) (df_columns df)
        [("query", q); ("table", metadata_table_name q)] [] in
    toprettyxml env doc = Ok pretty ->
    sync_query env params
    = ([ EvParse q;
         EvOpenCatalog (catalog_url table) (ent_columns ent) sf
           (ent_conditions ent);
         EvHead (ent_limits ent);
         EvConnect;
         EvPretty doc ],
       Ok (mkResponse (with_declaration pretty) "application/xml" 200)) /\
    Forall (fun f => dict_find "datatype" (attrib_of f) = Some (VStr "double"))
      (fields doc).
Proof.
  intros env params ent table others sf cat df e pretty
    Hv Htap Hfmt Hparse Htables Hsf Hopen Hhead Hconn q doc Hp.
  fold q in Htap, Hparse.
  pose proof (run_data_query_ok env q Hparse Htables Hsf Hopen Hhead) as Hrun.
  assert (Hfound :
            (if is_tap_schema_query q then
               r <- query_tap_schema (tap_schema_db env) q ;;
               ret (fst r, snd r, "tap_schema")
             else run_data_query env q)
            = ([ EvParse q;
                 EvOpenCatalog (catalog_url table) (ent_columns ent) sf
                   (ent_conditions ent);
                 EvHead (ent_limits ent) ],
               Ok (df_records df, df_columns df, metadata_table_name q)))
    by now rewrite Htap.
  destruct (process_query_votable env q _ Hfound Hfmt) as (md & Hmd & Hpq).
  assert (Hlookup : get_column_metadata (tap_schema_db env)
                      (metadata_table_name q) = ([EvConnect], Ok [])).
  { unfold get_column_metadata.
    destruct (String.eqb (metadata_table_name q) "") eqn:E.
    - apply String.eqb_eq in E. now apply metadata_table_name_not_empty in E.
    - unfold call. rewrite Hconn. reflexivity. }
  rewrite Hlookup in Hmd, Hpq. cbn [outcome snd] in Hmd.
  injection Hmd as <-. cbn [trace fst] in Hpq. fold doc in Hpq.
  rewrite Hp in Hpq. split.
  - rewrite (sync_query_valid env _ Hv). fold q. rewrite Hpq. reflexivity.
  - subst doc. rewrite fields_of_votable_tree.
    apply Forall_map, Forall_forall. intros col _.
    cbn [attrib_of SubElement].
    now apply (@field_attrs_missing [] col).
Qed.

Lemma data_query_without_store_witness :
  let env := Demo.env Demo.cone_entities Demo.one_row_frame unreachable_db in
  let q := dict_get "QUERY" "" demo_request in
  let doc :=
    votable_tree (utcnow_isoformat env) (df_records Demo.one_row_frame)
      (df_columns Demo.one_row_frame)
      [("query", q); ("table", metadata_table_name q)] [] in
  valid_request demo_request = true /\
  is_tap_schema_query q = false /\
  parse_adql_entities env q = Ok Demo.cone_entities /\
  connect (tap_schema_db env)
  = Raise (mkExn "OperationalError" "unable to open database file") /\
  exists pretty,
    toprettyxml env doc = Ok pretty /\
    sync_query env demo_request
    = ([ EvParse q;
         EvOpenCatalog (catalog_url "gaia_dr3.gaia")
           (ent_columns Demo.cone_entities)
           (Some (mkConeSearch (PFloat 270) (PFloat 23)
                    (times_3600 (PFloat 0.25))))
           (ent_conditions Demo.cone_entities);
         EvHead (ent_limits Demo.cone_entities);
         EvConnect;
         EvPretty doc ],
       Ok (mkResponse (with_declaration pretty) "application/xml" 200)) /\
    Forall (fun f => dict_find "datatype" (attrib_of f) = Some (VStr "double"))
      (fields doc).
Proof.
  cbv zeta.
  split; [vm_compute; reflexivity|].
  split; [vm_compute; reflexivity|].
  split; [reflexivity|].
  split; [reflexivity|].
  eexists. split; [|
  refine (@data_query_without_store
            (Demo.env Demo.cone_entities Demo.one_row_frame unreachable_db)
            demo_request Demo.cone_entities "gaia_dr3.gaia" [] _
            (mkCatalog (fun _ => Ok Demo.one_row_frame)) Demo.one_row_frame
            (mkExn "OperationalError" "unable to open database file") _
            _ _ _ eq_refl eq_refl eq_refl eq_refl eq_refl eq_refl _)].
  - vm_compute; reflexivity.
  - vm_compute; reflexivity.
  - vm_compute; reflexivity.
  - vm_compute; reflexivity.
  - vm_compute; reflexivity.
Defined.
